(** * Hive: assignment allocation and consensus, verified over a shallow embedding

    The development follows [hive/hive.go].  The Elasticsearch connection
    ([s.EsConn]) is modelled as an in-memory document store: one finite map per
    document type, keyed by document id.  Every call into the store may fail,
    as decided by a fault oracle carried by the store.  Handlers and helpers
    are state-passing functions over [Server]. *)

From Stdlib Require Import ZArith Lia.
From stdpp Require Import gmap strings list fin_maps sorting pretty.

#[local] Set Warnings "-register-all,-abstract-large-number,-clear-no-such-hyp".
#[local] Open Scope string_scope.
#[local] Open Scope Z_scope.
#[local] Open Scope list_scope.

(** ** Go's [int] (64 bits, two's complement) *)

Definition wrap (z : Z) : Z := (z + 2 ^ 63) mod 2 ^ 64 - 2 ^ 63.
Definition int_add (a b : Z) : Z := wrap (a + b).
Definition int_sub (a b : Z) : Z := wrap (a - b).
Definition max_int : Z := 2 ^ 63 - 1.

(** ** Values of type [interface{}] obtained from JSON

    [VNil] is the nil interface (JSON null or an absent key read back from a
    map).  [VNilMap] is a nil [map[string]interface{}] stored in an interface:
    it is not [== nil] in Go, and it is written out as JSON null. *)

Inductive value : Type :=
  | VNil
  | VBool (b : bool)
  | VNum (n : Z)
  | VStr (s : string)
  | VArr (l : list value)
  | VMap (m : gmap string value)
  | VNilMap.

#[global] Instance value_eq_dec : EqDecision value.
Proof.
  refine (fix go (x y : value) {struct x} : Decision (x = y) :=
    match x, y with
    | VNil, VNil => left _
    | VBool a, VBool b => cast_if (decide (a = b))
    | VNum a, VNum b => cast_if (decide (a = b))
    | VStr a, VStr b => cast_if (decide (a = b))
    | VArr a, VArr b => cast_if (@decide (a = b) (@list_eq_dec _ go a b))
    | VMap a, VMap b => cast_if (@decide (a = b) (@gmap_eq_dec _ _ _ _ go a b))
    | VNilMap, VNilMap => left _
    | _, _ => right _
    end); abstract congruence.
Defined.

(** [v == nil] on an interface value. *)
Definition is_nil (v : value) : bool :=
  match v with VNil => true | _ => false end.

(** [m[k]] on a [map[string]interface{}]: a missing key reads as nil. *)
Definition map_get (m : gmap string value) (k : string) : value :=
  default VNil (m !! k).

(** What [json.Marshal] followed by [json.Unmarshal] makes of a value held in
    a map entry: a nil map comes back as the nil interface. *)
Definition json_value (v : value) : value :=
  match v with VNilMap => VNil | _ => v end.

(** ** Records of [hive.go] *)

(** [type Counts map[string]int]; a missing key reads as 0. *)
Abbreviation Counts := (gmap string Z).

Definition count_get (c : Counts) (k : string) : Z := default 0 (c !! k).

(** [type SubmittedData map[string]interface{}].  On an assignment the map is
    nil ([None]) until the worker submits; [reflect.DeepEqual] tells a nil map
    from an empty one. *)
Abbreviation SubmittedData := (option (gmap string value)).

Record Asset := mkAsset {
  Asset_Id : string;
  Asset_Project : string;
  Asset_Url : string;
  Asset_Name : string;
  Asset_Metadata : gmap string value;
  Asset_SubmittedData : gmap string value;
  Asset_Favorited : bool;
  Asset_Verified : bool;
  Asset_Counts : Counts
}.

Record User := mkUser {
  User_Id : string;
  User_Name : string;
  User_Email : string;
  User_Project : string;
  User_ExternalId : string;
  User_Counts : Counts;
  User_Favorites : gmap string Asset;
  User_NewFavorites : gmap string Asset;
  User_VerifiedAssets : list string
}.

Record Assignment := mkAssignment {
  Assignment_Id : string;
  Assignment_User : string;
  Assignment_Project : string;
  Assignment_Task : string;
  Assignment_Asset : Asset;
  Assignment_State : string;
  Assignment_SubmittedData : SubmittedData
}.

(** A rule of [AssignmentCriteria.SubmittedData]: field name to expected
    value.  The source asserts [ruleI.(map[string]interface{})]; expected
    values are strings, as in the documented criteria. *)
Abbreviation Rule := (gmap string string).

Record AssignmentCriteria := mkAssignmentCriteria {
  AC_SubmittedData : gmap string Rule
}.

Record CompletionCriteria := mkCompletionCriteria {
  Total : Z;
  Matching : Z
}.

Record Task := mkTask {
  Task_Id : string;
  Task_Project : string;
  Task_Name : string;
  Task_Description : string;
  Task_CurrentState : string;
  Task_AssignmentCriteria : AssignmentCriteria;
  Task_CompletionCriteria : CompletionCriteria
}.

Record favoriteResponse := mkFavoriteResponse {
  FR_AssetId : string;
  FR_Action : string
}.

(** [From] and [Size] are decimal strings in the source ("0", "10"); the
    query builder passes them on as the page offset and the page size. *)
Record Params := mkParams {
  Params_From : nat;
  Params_Size : nat;
  Params_SortBy : string;
  Params_SortDir : string
}.

Record SubmittedDataTracker := mkTracker {
  Tracker_Value : SubmittedData;
  Tracker_Count : Z
}.

Record assetBucket := mkBucket {
  Bucket_Id : string;
  Bucket_Count : Z
}.

(** Record updates used below. *)
Definition set_Asset_Counts (c : Counts) (a : Asset) : Asset :=
  mkAsset (Asset_Id a) (Asset_Project a) (Asset_Url a) (Asset_Name a)
    (Asset_Metadata a) (Asset_SubmittedData a) (Asset_Favorited a)
    (Asset_Verified a) c.

Definition set_Asset_SubmittedData (d : gmap string value) (a : Asset) : Asset :=
  mkAsset (Asset_Id a) (Asset_Project a) (Asset_Url a) (Asset_Name a)
    (Asset_Metadata a) d (Asset_Favorited a) (Asset_Verified a) (Asset_Counts a).

Definition set_Asset_Verified (b : bool) (a : Asset) : Asset :=
  mkAsset (Asset_Id a) (Asset_Project a) (Asset_Url a) (Asset_Name a)
    (Asset_Metadata a) (Asset_SubmittedData a) (Asset_Favorited a) b
    (Asset_Counts a).

Definition set_Assignment_State (st : string) (x : Assignment) : Assignment :=
  mkAssignment (Assignment_Id x) (Assignment_User x) (Assignment_Project x)
    (Assignment_Task x) (Assignment_Asset x) st (Assignment_SubmittedData x).

Definition set_Assignment_Asset (a : Asset) (x : Assignment) : Assignment :=
  mkAssignment (Assignment_Id x) (Assignment_User x) (Assignment_Project x)
    (Assignment_Task x) a (Assignment_State x) (Assignment_SubmittedData x).

Definition set_User_Counts (c : Counts) (u : User) : User :=
  mkUser (User_Id u) (User_Name u) (User_Email u) (User_Project u)
    (User_ExternalId u) c (User_Favorites u) (User_NewFavorites u)
    (User_VerifiedAssets u).

Definition set_User_Favorites (f : gmap string Asset) (u : User) : User :=
  mkUser (User_Id u) (User_Name u) (User_Email u) (User_Project u)
    (User_ExternalId u) (User_Counts u) f (User_NewFavorites u)
    (User_VerifiedAssets u).

Definition set_User_Id (i : string) (u : User) : User :=
  mkUser i (User_Name u) (User_Email u) (User_Project u)
    (User_ExternalId u) (User_Counts u) (User_Favorites u) (User_NewFavorites u)
    (User_VerifiedAssets u).

(** The [Counts] literal every handler writes when an asset has none. *)
Definition fresh_asset_counts (assignments unfinished : Z) : Counts :=
  <["Favorites" := 0]> (<["Assignments" := assignments]> (<["finished" := 0]>
    (<["skipped" := 0]> (<["unfinished" := unfinished]> ∅)))).

(** The [Counts] literal of a new user. *)
Definition fresh_user_counts : Counts :=
  <["Favorites" := 0]> (<["Assignments" := 0]> (<["VerifiedAssets" := 0]> ∅)).

(** ** The document store behind [s.EsConn]

    Queries are kept as typed terms instead of the JSON text the source
    formats: a [bool] query with [must] and [must_not] clauses, a page
    ([from], [size]) and an optional sort.  A field path is the dotted name of
    the source split at its dots.  [term] and [match] both compare whole
    strings (the id, project, task, user and state fields are mapped
    [not_analyzed]).

    The store is near-real-time.  A read by id ([GetSource], [ExistsBool])
    finds a document as it was last written.  A query ([Search],
    [SearchAggs], [Count]) sees the documents as of the store's last refresh;
    the store refreshes when [Refresh] is called and, from time to time, on
    its own.  The calls defined below are those of a store that has refreshed
    before each query, so that a query runs on the documents as written.  The
    module [Unrefreshed] further down has the path of [CreateAssignment] on a
    store that has not refreshed. *)

Inductive clause : Type :=
  | Term (field : list string) (v : string)
  | Match (field : list string) (v : string)
  | Missing (field : list string)
  | Terms (field : list string) (vs : list string).

Record query := mkQuery {
  q_must : list clause;
  q_must_not : list clause;
  q_from : nat;
  q_size : option nat;
  q_sort : option (string * string)
}.

(** Calls into the store, as the fault oracle sees them. *)
Inductive request : Type :=
  | RGetSource (type id : string)
  | RExists (type id : string)
  | RIndex (type id : string)
  | RSearch (type : string) (q : query)
  | RCount (type : string)
  | RRefresh.

Record ES := mkES {
  es_tasks : gmap string Task;
  es_assets : gmap string Asset;
  es_assignments : gmap string Assignment;
  es_users : gmap string User;
  es_next_id : nat;
  es_fault : request → bool
}.

(** [Rand] is the stream [rand.Intn] draws from. *)
Record Server := mkServer {
  ActiveProjectId : string;
  EsConn : ES;
  Rand : list nat
}.

Definition set_EsConn (e : ES) (s : Server) : Server :=
  mkServer (ActiveProjectId s) e (Rand s).

Definition set_ActiveProjectId (p : string) (s : Server) : Server :=
  mkServer p (EsConn s) (Rand s).

(** A page without ["size"] holds at most ten hits. *)
Definition es_default_size : nat := 10.

(** Ids the store generates when a document is indexed without one. *)
Definition es_gen_id (n : nat) : string := "es-" +:+ pretty n.

(** *** Documents as JSON *)

Definition json_asset (a : Asset) : Asset :=
  set_Asset_SubmittedData (json_value <$> Asset_SubmittedData a) a.

Definition json_assignment (x : Assignment) : Assignment :=
  set_Assignment_Asset (json_asset (Assignment_Asset x)) x.

Definition json_user (u : User) : User :=
  mkUser (User_Id u) (User_Name u) (User_Email u) (User_Project u)
    (User_ExternalId u) (User_Counts u) (json_asset <$> User_Favorites u)
    (json_asset <$> User_NewFavorites u) (User_VerifiedAssets u).

Fixpoint get_path (p : list string) (v : value) : option value :=
  match p with
  | [] => Some v
  | k :: p' =>
      match v with
      | VMap m => match m !! k with Some w => get_path p' w | None => None end
      | _ => None
      end
  end.

Definition counts_value (c : Counts) : value := VMap (VNum <$> c).

Definition asset_field (a : Asset) (p : list string) : option value :=
  match p with
  | [] => None
  | f :: rest =>
      if String.eqb f "SubmittedData" then get_path rest (VMap (Asset_SubmittedData a))
      else if String.eqb f "Metadata" then get_path rest (VMap (Asset_Metadata a))
      else if String.eqb f "Counts" then get_path rest (counts_value (Asset_Counts a))
      else match rest with
           | [] =>
               if String.eqb f "Id" then Some (VStr (Asset_Id a))
               else if String.eqb f "Project" then Some (VStr (Asset_Project a))
               else if String.eqb f "Url" then Some (VStr (Asset_Url a))
               else if String.eqb f "Name" then Some (VStr (Asset_Name a))
               else if String.eqb f "Favorited" then Some (VBool (Asset_Favorited a))
               else if String.eqb f "Verified" then Some (VBool (Asset_Verified a))
               else None
           | _ => None
           end
  end.

Definition submitted_value (d : SubmittedData) : value :=
  match d with Some m => VMap m | None => VNil end.

(** The source writes assignment fields both as ["Task"] and as
    ["assignments.Task"]; the leading type name is dropped. *)
Definition assignment_field (x : Assignment) (p : list string) : option value :=
  let p' := match p with
            | f :: rest => if String.eqb f "assignments" then rest else p
            | [] => p
            end in
  match p' with
  | [] => None
  | f :: rest =>
      if String.eqb f "Asset" then asset_field (Assignment_Asset x) rest
      else if String.eqb f "SubmittedData" then
        get_path rest (submitted_value (Assignment_SubmittedData x))
      else match rest with
           | [] =>
               if String.eqb f "Id" then Some (VStr (Assignment_Id x))
               else if String.eqb f "User" then Some (VStr (Assignment_User x))
               else if String.eqb f "Project" then Some (VStr (Assignment_Project x))
               else if String.eqb f "Task" then Some (VStr (Assignment_Task x))
               else if String.eqb f "State" then Some (VStr (Assignment_State x))
               else None
           | _ => None
           end
  end.

Definition task_field (t : Task) (p : list string) : option value :=
  match p with
  | [f] =>
      if String.eqb f "Id" then Some (VStr (Task_Id t))
      else if String.eqb f "Project" then Some (VStr (Task_Project t))
      else if String.eqb f "Name" then Some (VStr (Task_Name t))
      else if String.eqb f "Description" then Some (VStr (Task_Description t))
      else if String.eqb f "CurrentState" then Some (VStr (Task_CurrentState t))
      else None
  | _ => None
  end.

Definition user_field (u : User) (p : list string) : option value :=
  match p with
  | [f] =>
      if String.eqb f "Id" then Some (VStr (User_Id u))
      else if String.eqb f "Project" then Some (VStr (User_Project u))
      else if String.eqb f "Name" then Some (VStr (User_Name u))
      else if String.eqb f "Email" then Some (VStr (User_Email u))
      else if String.eqb f "ExternalId" then Some (VStr (User_ExternalId u))
      else None
  | _ => None
  end.

(** The document types of the index. *)
Class DocType (D : Type) := {
  type_name : string;
  docs_of : ES → gmap string D;
  with_docs : gmap string D → ES → ES;
  doc_json : D → D;
  doc_field : D → list string → option value
}.

#[global] Instance tasks_type : DocType Task := {|
  type_name := "tasks";
  docs_of := es_tasks;
  with_docs m e := mkES m (es_assets e) (es_assignments e) (es_users e)
                     (es_next_id e) (es_fault e);
  doc_json t := t;
  doc_field := task_field
|}.

#[global] Instance assets_type : DocType Asset := {|
  type_name := "assets";
  docs_of := es_assets;
  with_docs m e := mkES (es_tasks e) m (es_assignments e) (es_users e)
                     (es_next_id e) (es_fault e);
  doc_json := json_asset;
  doc_field := asset_field
|}.

#[global] Instance assignments_type : DocType Assignment := {|
  type_name := "assignments";
  docs_of := es_assignments;
  with_docs m e := mkES (es_tasks e) (es_assets e) m (es_users e)
                     (es_next_id e) (es_fault e);
  doc_json := json_assignment;
  doc_field := assignment_field
|}.

#[global] Instance users_type : DocType User := {|
  type_name := "users";
  docs_of := es_users;
  with_docs m e := mkES (es_tasks e) (es_assets e) (es_assignments e) m
                     (es_next_id e) (es_fault e);
  doc_json := json_user;
  doc_field := user_field
|}.

(** *** Evaluating a query on a document *)

Definition eval_clause (fld : list string → option value) (c : clause) : bool :=
  match c with
  | Term f v | Match f v =>
      match fld f with Some (VStr s) => bool_decide (s = v) | _ => false end
  | Missing f =>
      match fld f with None | Some VNil => true | _ => false end
  | Terms f vs =>
      match fld f with Some (VStr s) => bool_decide (s ∈ vs) | _ => false end
  end.

Definition matches `{DocType D} (q : query) (d : D) : bool :=
  forallb (eval_clause (doc_field d)) (q_must q)
  && negb (existsb (eval_clause (doc_field d)) (q_must_not q)).

Definition sort_key `{DocType D} (f : string) (d : D) : string :=
  match doc_field d [f] with Some (VStr s) => s | _ => "" end.

Definition sort_hits `{DocType D} (q : query) (l : list (string * D))
    : list (string * D) :=
  match q_sort q with
  | None => l
  | Some (f, dir) =>
      if String.eqb dir "desc"
      then merge_sort (λ x y, Is_true (String.leb (sort_key f y.2) (sort_key f x.2))) l
      else merge_sort (λ x y, Is_true (String.leb (sort_key f x.2) (sort_key f y.2))) l
  end.

Record SearchResult (D : Type) := mkSearchResult {
  Hits_Total : nat;
  Hits_Hits : list (string * D)
}.
Arguments mkSearchResult {D} _ _.
Arguments Hits_Total {D} _.
Arguments Hits_Hits {D} _.

(** Every document that satisfies the query, as (id, source) pairs. *)
Definition all_hits `{DocType D} (q : query) (e : ES) : list (string * D) :=
  filter (λ kd, Is_true (matches q kd.2)) (map_to_list (docs_of e)).

Definition run_search `{DocType D} (q : query) (e : ES) : SearchResult D :=
  let l := all_hits q e in
  mkSearchResult (length l)
    (take (default es_default_size (q_size q)) (drop (q_from q) (sort_hits q l))).

(** A [terms] aggregation: one bucket per value of the grouping field, most
    frequent first, buckets below [min_doc_count] dropped, at most [size]. *)
Definition agg_buckets (keys : list string) (min_doc_count : Z) (size : nat)
    : list assetBucket :=
  let bs := (λ k, mkBucket k (Z.of_nat (length (filter (λ k', k' = k) keys))))
              <$> remove_dups keys in
  take size
    (merge_sort (λ b1 b2, Is_true (Bucket_Count b2 <=? Bucket_Count b1)%Z)
       (filter (λ b, (min_doc_count ≤ Bucket_Count b)%Z) bs)).

Definition group_key `{DocType D} (group : list string) (d : D) : option string :=
  match doc_field d group with Some (VStr s) => Some s | _ => None end.

Definition run_aggregation `{DocType D} (q : query) (group : list string)
    (min_doc_count : Z) (size : nat) (e : ES) : list assetBucket :=
  agg_buckets (omap (λ kd, group_key group kd.2) (all_hits q e)) min_doc_count size.

(** ** Results and the state-passing monad *)

(** [EStore] is a failed call into the store, [ENotFound] a missing
    document, [EMsg] an [errors.New], [EPanic] a run-time panic of Go. *)
Inductive error : Type :=
  | EStore
  | ENotFound
  | EMsg (msg : string)
  | EPanic.

Inductive res (A : Type) : Type :=
  | Ok (a : A)
  | Err (e : error).
Arguments Ok {A} a.
Arguments Err {A} e.

Definition M (A : Type) : Type := Server → res A * Server.

Definition ret {A} (a : A) : M A := λ s, (Ok a, s).
Definition fail {A} (e : error) : M A := λ s, (Err e, s).
Definition bind {A B} (m : M A) (k : A → M B) : M B :=
  λ s, match m s with
       | (Ok a, s') => k a s'
       | (Err e, s') => (Err e, s')
       end.

(** Run [m] and hand its outcome to the caller, as in [x, err := f()]. *)
Definition attempt {A} (m : M A) : M (res A) :=
  λ s, let (r, s') := m s in (Ok r, s').

Notation "'let*' x := m 'in' k" := (bind m (λ x, k))
  (at level 10, x binder, m at level 100, k at level 200).

(** *** Calls into the store *)

Definition call (r : request) : M unit :=
  λ s, if es_fault (EsConn s) r then (Err EStore, s) else (Ok tt, s).

Definition GetSource `{DocType D} (id : string) : M D :=
  let* _ := call (RGetSource (type_name (D:=D)) id) in
  λ s, match docs_of (EsConn s) !! id with
       | Some d => (Ok d, s)
       | None => (Err ENotFound, s)
       end.

(** The source drops the error of [ExistsBool]. *)
Definition ExistsBool `{DocType D} (id : string) : M bool :=
  λ s, if es_fault (EsConn s) (RExists (type_name (D:=D)) id) then (Ok false, s)
       else (Ok (bool_decide (is_Some (docs_of (D:=D) (EsConn s) !! id))), s).

Definition bump_next_id (e : ES) : ES :=
  mkES (es_tasks e) (es_assets e) (es_assignments e) (es_users e)
    (S (es_next_id e)) (es_fault e).

(** The store after it accepted document [d] under [id], or under a generated
    id when [id] is empty; the id comes back. *)
Definition store_doc `{DocType D} (id : string) (d : D) (e : ES) : string * ES :=
  if String.eqb id "" then
    let id' := es_gen_id (es_next_id e) in
    (id', bump_next_id (with_docs (<[id' := doc_json d]> (docs_of e)) e))
  else
    (id, with_docs (<[id := doc_json d]> (docs_of e)) e).

(** [Index] stores the JSON of the document and returns its id. *)
Definition Index `{DocType D} (id : string) (d : D) : M string :=
  let* _ := call (RIndex (type_name (D:=D)) id) in
  λ s, let r := store_doc id d (EsConn s) in (Ok r.1, set_EsConn r.2 s).

Definition Search `{DocType D} (q : query) : M (SearchResult D) :=
  let* _ := call (RSearch (type_name (D:=D)) q) in
  λ s, (Ok (run_search q (EsConn s)), s).

Definition SearchAggs `{DocType D} (q : query) (group : list string)
    (min_doc_count : Z) (size : nat) : M (list assetBucket) :=
  let* _ := call (RSearch (type_name (D:=D)) q) in
  λ s, (Ok (run_aggregation (D:=D) q group min_doc_count size (EsConn s)), s).

(** [Count] with the match-all query. *)
Definition Count `{DocType D} : M nat :=
  let* _ := call (RCount (type_name (D:=D))) in
  λ s, (Ok (size (docs_of (D:=D) (EsConn s))), s).

(** [Refresh] makes the writes made so far visible to the queries.  The
    queries of this section run on the documents as written, so here the call
    shows only by its failure. *)
Definition Refresh : M unit := call RRefresh.

(** Reading and setting [s.ActiveProjectId]. *)
Definition active_project : M string := λ s, (Ok (ActiveProjectId s), s).
Definition set_active_project (p : string) : M unit :=
  λ s, (Ok tt, set_ActiveProjectId p s).

(** [rand.Intn n] for [n > 0]. *)
Definition Intn (n : nat) : M nat :=
  λ s, match Rand s with
       | [] => (Ok 0%nat, s)
       | r :: rest => (Ok (r mod n)%nat, mkServer (ActiveProjectId s) (EsConn s) rest)
       end.

(** ** [strings.Join] and [strings.Split] *)

Fixpoint strings_Join (l : list string) (sep : string) : string :=
  match l with
  | [] => ""
  | [x] => x
  | x :: rest => x +:+ sep +:+ strings_Join rest sep
  end.

Fixpoint split_aux (sep : string) (skip : nat) (s cur : string) : list string :=
  match s with
  | EmptyString => [cur]
  | String c s' =>
      match skip with
      | S k => split_aux sep k s' cur
      | O =>
          if String.prefix sep s
          then cur :: split_aux sep (String.length sep - 1) s' ""
          else split_aux sep 0 s' (cur +:+ String c "")
      end
  end.

(** [strings.Split s sep] for a non-empty [sep]. *)
Definition strings_Split (s sep : string) : list string := split_aux sep 0 s "".

(** ** Lookups *)

Definition FindTask (id : string) : M Task := GetSource id.
Definition FindAsset (id : string) : M Asset := GetSource id.
Definition FindAssignment (id : string) : M Assignment := GetSource id.

(** The page every caller of [FindTasks] in scope asks for. *)
Definition task_params : Params := mkParams 0 10 "Name" "asc".

(** [FindTasks]: the tasks of the active project, one page, sorted.  On a
    failed query the source returns an empty slice next to the error; the
    [meta] it returns is never filled in and is left out. *)
Definition tasks_query (project : string) (p : Params) : query :=
  mkQuery [Terms ["Project"] [project]] [] (Params_From p) (Some (Params_Size p))
    (Some (Params_SortBy p,
           if String.eqb (Params_SortDir p) "desc" then "desc" else "asc")).

Definition FindTasks (p : Params) : M (list Task) :=
  let* project := active_project in
  let* results := Search (tasks_query project p) in
  ret (Hits_Hits results).*2.

(** [if _, ok := user.Counts[task.Id]; !ok { user.Counts[task.Id] = 0 }] *)
Definition fill_task_counts (tasks : list Task) (c : Counts) : Counts :=
  foldl (λ c t, match c !! Task_Id t with
                | Some _ => c
                | None => <[Task_Id t := 0]> c
                end) c tasks.

(** The tail shared by [CreateUser] and [CreateUserFromMissingCookieValue]:
    the task loop of the source runs only when [FindTasks] failed, on an empty
    slice, so it changes nothing. *)
Definition store_new_user (user : User) : M User :=
  let* _ := attempt (FindTasks task_params) in
  let* id := Index (User_Id user) user in
  if String.eqb (User_Id user) "" then
    let user := set_User_Id id user in
    let* _ := Index (User_Id user) user in
    ret user
  else ret user.

(** [CreateUser] on the decoded request body. *)
Definition CreateUser (body : User) : M User :=
  let* project := active_project in
  store_new_user
    (mkUser (User_Id body) (User_Name body) (User_Email body) project
       (User_ExternalId body) fresh_user_counts ∅ (User_NewFavorites body)
       (User_VerifiedAssets body)).

Definition CreateUserFromMissingCookieValue (userId : string) : M User :=
  let* project := active_project in
  store_new_user (mkUser userId "" "" project "" fresh_user_counts ∅ ∅ []).

(** [FindUser] returns [nil, nil] ([None]) for an unknown id. *)
Definition FindUser (id : string) : M (option User) :=
  if String.eqb id "" then
    let* project := active_project in
    let* user := CreateUser (mkUser "" "" "" project "" ∅ ∅ ∅ []) in
    ret (Some user)
  else
    let* r := attempt (GetSource (D:=User) id) in
    match r with
    | Err e =>
        let* userExists := ExistsBool (D:=User) id in
        if userExists then fail e else ret None
    | Ok user =>
        let* t := attempt (FindTasks task_params) in
        match t with
        | Ok tasks =>
            ret (Some (set_User_Counts (fill_task_counts tasks (User_Counts user)) user))
        | Err _ => ret (Some user)
        end
    end.

(** ** Consensus: [collateSubmittedData], [CompleteAsset], [CompleteTask] *)

(** [reflect.DeepEqual] on two [SubmittedData] decoded from JSON. *)
Definition DeepEqual (a b : SubmittedData) : bool := bool_decide (a = b).

(** The [range] loop of [collateSubmittedData], with its [foundIt] flag. *)
Fixpoint collate_range (sdt : list SubmittedDataTracker) (item : SubmittedData)
    (foundIt : bool) : list SubmittedDataTracker * bool :=
  match sdt with
  | [] => ([], foundIt)
  | tracker :: rest =>
      if DeepEqual (Tracker_Value tracker) item then
        let (rest', f) := collate_range rest item true in
        (mkTracker (Tracker_Value tracker) (int_add (Tracker_Count tracker) 1) :: rest', f)
      else
        let (rest', f) := collate_range rest item foundIt in
        (tracker :: rest', f)
  end.

Definition collateSubmittedData (sdt : list SubmittedDataTracker)
    (item : SubmittedData) : list SubmittedDataTracker :=
  let (sdt', foundIt) := collate_range sdt item false in
  if foundIt then sdt' else sdt' ++ [mkTracker item 1].

(** A [SubmittedData] assigned to a map entry of type [interface{}]. *)
Definition sd_interface (d : SubmittedData) : value :=
  match d with Some m => VMap m | None => VNilMap end.

Definition CompleteAsset (assetId : string) (task : Task)
    (submittedData : SubmittedData) : M Asset :=
  let* asset := FindAsset assetId in
  let asset :=
    set_Asset_SubmittedData
      (<[Task_Name task := sd_interface submittedData]> (Asset_SubmittedData asset))
      asset in
  let* tasks := FindTasks task_params in
  let assetVerified :=
    forallb (λ t, negb (is_nil (map_get (Asset_SubmittedData asset) (Task_Name t))))
      tasks in
  let asset := set_Asset_Verified assetVerified asset in
  let* _ := Index assetId asset in
  ret asset.

(** The two queries of [CompleteTask]. *)
Definition finished_query (taskName project : string) : query :=
  mkQuery [Match ["assignments"; "Task"] taskName; Match ["Project"] project;
           Match ["State"] "finished"] [] 0 None None.

Definition asset_finished_query (taskName assetId project : string) : query :=
  mkQuery [Match ["Task"] taskName; Match ["Asset"; "Id"] assetId;
           Match ["Project"] project; Match ["State"] "finished"] [] 0 None None.

(** [for _, a := range matchingAssignments]: a failed save is only logged. *)
Fixpoint verify_assignments (matchingAssignments : list Assignment) : M unit :=
  match matchingAssignments with
  | [] => ret tt
  | a :: rest =>
      let a := set_Assignment_State "verified" a in
      let* _ := attempt (Index (Assignment_Id a) a) in
      verify_assignments rest
  end.

(** [for _, tracker := range sdTrackers]: a failed [CompleteAsset] is logged
    and the loop goes on. *)
Fixpoint complete_trackers (assetId : string) (task : Task)
    (matchingAssignments : list Assignment)
    (sdTrackers : list SubmittedDataTracker) (assets : list Asset)
    : M (list Asset) :=
  match sdTrackers with
  | [] => ret assets
  | tracker :: rest =>
      if (Matching (Task_CompletionCriteria task) <=? Tracker_Count tracker)%Z then
        let* r := attempt (CompleteAsset assetId task (Tracker_Value tracker)) in
        match r with
        | Err _ => complete_trackers assetId task matchingAssignments rest assets
        | Ok asset =>
            let* _ := verify_assignments matchingAssignments in
            complete_trackers assetId task matchingAssignments rest (assets ++ [asset])
        end
      else complete_trackers assetId task matchingAssignments rest assets
  end.

Definition collate_all (matchingAssignments : list Assignment)
    : list SubmittedDataTracker :=
  foldl (λ sdt a, collateSubmittedData sdt (Assignment_SubmittedData a)) []
    matchingAssignments.

(** [for _, b := range a.Assets.Buckets]: a failed search returns from
    [CompleteTask] with the error and no assets. *)
Fixpoint complete_buckets (task : Task) (taskName : string)
    (buckets : list assetBucket) (assets : list Asset) : M (list Asset) :=
  match buckets with
  | [] => ret assets
  | b :: rest =>
      if (Matching (Task_CompletionCriteria task) <=? Bucket_Count b)%Z then
        let* project := active_project in
        let* assignmentResults :=
          Search (D:=Assignment) (asset_finished_query taskName (Bucket_Id b) project) in
        let matchingAssignments := (Hits_Hits assignmentResults).*2 in
        let sdTrackers := collate_all matchingAssignments in
        let* assets :=
          complete_trackers (Bucket_Id b) task matchingAssignments sdTrackers assets in
        complete_buckets task taskName rest assets
      else complete_buckets task taskName rest assets
  end.

(** [CompleteTask] up to the final refresh: every [return] on that stretch
    hands back no assets and the error. *)
Definition complete_task_sweep (taskId : string) : M (list Asset) :=
  let* project := active_project in
  let taskName := project +:+ "-" +:+ taskId in
  let* task := FindTask taskName in
  let* buckets :=
    SearchAggs (D:=Assignment) (finished_query taskName project) ["Asset"; "Id"]
      (Total (Task_CompletionCriteria task)) 50000 in
  complete_buckets task taskName buckets [].

(** [CompleteTask] returns a slice of assets together with an [error]. *)
Definition CompleteTask (taskId : string)
    : Server → (list Asset * option error) * Server :=
  λ s,
    match complete_task_sweep taskId s with
    | (Err e, s1) => (([], Some e), s1)
    | (Ok assets, s1) =>
        match Refresh s1 with
        | (Err e, s2) => ((assets, Some e), s2)
        | (Ok _, s2) => ((assets, None), s2)
        end
    end.

(** ** Assignment lifecycle *)

(** [if len(asset.Counts) <= 0 { asset.Counts = Counts{...} }] *)
Definition init_counts (assignments unfinished : Z) (c : Counts) : Counts :=
  if (size c =? 0)%nat then fresh_asset_counts assignments unfinished else c.

(** [c[k] += 1] and [c[k] -= 1] *)
Definition count_incr (k : string) (c : Counts) : Counts :=
  <[k := int_add (count_get c k) 1]> c.
Definition count_decr (k : string) (c : Counts) : Counts :=
  <[k := int_sub (count_get c k) 1]> c.

(** [UpdateAssignment] on the decoded request body.  A user that is not
    found makes the source dereference nil. *)
Definition UpdateAssignment (assignment : Assignment) : M Assignment :=
  let* r := attempt (FindAsset (Asset_Id (Assignment_Asset assignment))) in
  let* assignment :=
    match r with
    | Ok asset =>
        let counts := init_counts 1 1 (Asset_Counts asset) in
        let counts := count_incr (Assignment_State assignment) counts in
        let counts := count_decr "unfinished" counts in
        let asset := set_Asset_Counts counts asset in
        let* _ := Index (Asset_Id asset) asset in
        ret (set_Assignment_Asset asset assignment)
    | Err _ => ret assignment
    end in
  let* _ := Index (Assignment_Id assignment) assignment in
  let* _ := Refresh in
  if String.eqb (Assignment_State assignment) "finished" then
    let* found := FindUser (Assignment_User assignment) in
    match found with
    | None => fail EPanic
    | Some user =>
        let counts := count_incr "Assignments" (User_Counts user) in
        let counts := count_incr (Assignment_Task assignment) counts in
        let user := set_User_Counts counts user in
        let* _ := attempt (FindTasks task_params) in
        let* _ := Index (User_Id user) user in
        ret assignment
    end
  else ret assignment.

(** [user, _ := s.FindUser(userId)] followed by the creation of a missing
    user, as both allocation functions start. *)
Definition find_or_create_user (userId : string) : M User :=
  let* r := attempt (FindUser userId) in
  match r with
  | Ok (Some user) => ret user
  | _ =>
      let* c := attempt (CreateUserFromMissingCookieValue userId) in
      match c with
      | Ok user => ret user
      | Err _ =>
          fail (EMsg "Assignments can't be created without a user: failed creating a new anon user")
      end
  end.

Definition CreateAssetAssignment (taskId userId assetId : string) : M Assignment :=
  let* user := find_or_create_user userId in
  let* r := attempt (FindAsset assetId) in
  match r with
  | Err _ => fail (EMsg "Failed finding an asset with that id.")
  | Ok asset =>
      let counts := init_counts 0 0 (Asset_Counts asset) in
      let counts := count_incr "Assignments" counts in
      let counts := count_incr "unfinished" counts in
      let asset := set_Asset_Counts counts asset in
      let* _ := attempt (Index (Asset_Id asset) asset) in
      let* project := active_project in
      let assignmentId := strings_Join [project; taskId; assetId; userId] "HIVE" in
      let assignment :=
        mkAssignment assignmentId userId project taskId asset "unfinished" None in
      let* _ := Index (Assignment_Id assignment) assignment in
      ret assignment
  end.

(** ** Selecting an eligible asset *)

(** The [must] clauses [FindAssignmentAsset] builds from the task's
    [AssignmentCriteria] (the loop over [task.AssignmentCriteria.SubmittedData];
    Go ranges over a map in no fixed order, and the clauses are conjoined). *)
Definition criteria_clauses (task : Task) : list clause :=
  mjoin
    ((λ '(taskName, rule),
        if (size (rule : Rule) =? 0)%nat then
          [Missing ["SubmittedData"; Task_Name task]]
        else
          (λ '(fieldName, fieldValue),
             Match ["SubmittedData"; taskName; fieldName] fieldValue)
            <$> map_to_list rule)
       <$> map_to_list (AC_SubmittedData (Task_AssignmentCriteria task))).

(** [idParts := strings.Split(hit.Id, "HIVE"); idParts[2]] *)
Definition hit_asset_id (hitId : string) : option string :=
  strings_Split hitId "HIVE" !! 2%nat.

(** The ["size"] of the first query is [user.Counts["Assignments"]]; a
    negative count is read as 0. *)
Definition assigned_query (task : Task) (user : User) (project : string) : query :=
  mkQuery [Term ["assignments"; "Task"] (Task_Id task);
           Term ["assignments"; "User"] (User_Id user);
           Term ["assignments"; "Project"] project] [] 0
    (Some (Z.to_nat (count_get (User_Counts user) "Assignments"))) None.

Definition eligible_query (task : Task) (project : string)
    (assetIds : list string) (count : nat) : query :=
  let musts := criteria_clauses task ++ [Match ["Project"] project] in
  let mustNots :=
    if (0 <? length assetIds)%nat then [Terms ["Id"] assetIds] else [] in
  mkQuery musts mustNots 0 (Some count) None.

Definition FindAssignmentAsset (task : Task) (user : User) : M Asset :=
  let* project := active_project in
  let* assetResults := Search (D:=Assignment) (assigned_query task user project) in
  match mapM (λ hit : string * Assignment, hit_asset_id hit.1)
          (Hits_Hits assetResults) with
  | None => fail EPanic
  | Some assetIds =>
      let* count := Count (D:=Asset) in
      let* results := Search (D:=Asset) (eligible_query task project assetIds count) in
      if (Hits_Total results =? 0)%nat then fail (EMsg "No assets found")
      else
        let* randomHit := Intn (length (Hits_Hits results)) in
        match Hits_Hits results !! randomHit with
        | Some hit => ret hit.2
        | None => fail EPanic
        end
  end.

Definition unfinished_query (project taskId userId : string) : query :=
  mkQuery [Term ["assignments"; "Project"] project;
           Term ["assignments"; "Task"] taskId;
           Term ["assignments"; "User"] userId;
           Term ["assignments"; "State"] "unfinished"] [] 0 None None.

Definition CreateAssignment (taskId userId : string) : M Assignment :=
  let* user := find_or_create_user userId in
  let* task := FindTask taskId in
  if negb (String.eqb (Task_CurrentState task) "available") then
    fail (EMsg "Invalid task")
  else
    let* project := active_project in
    let* results := Search (D:=Assignment) (unfinished_query project taskId userId) in
    if (0 <? Hits_Total results)%nat then
      match Hits_Hits results with
      | hit :: _ => ret hit.2
      | [] => fail EPanic
      end
    else
      let* assignmentAsset := FindAssignmentAsset task user in
      let counts := init_counts 0 0 (Asset_Counts assignmentAsset) in
      let counts := count_incr "Assignments" counts in
      let counts := count_incr "unfinished" counts in
      let assignmentAsset := set_Asset_Counts counts assignmentAsset in
      let* _ := Index (Asset_Id assignmentAsset) assignmentAsset in
      let assignmentId :=
        strings_Join [project; taskId; Asset_Id assignmentAsset; User_Id user] "HIVE" in
      let assignment :=
        mkAssignment assignmentId userId project taskId assignmentAsset
          "unfinished" None in
      let* _ := Index (Assignment_Id assignment) assignment in
      ret assignment.

(** ** Favorites *)

(** [FavoriteHandler] on the project and asset of the URL and the user id of
    the session cookie ([""] when there is none).  [Ok] is the 200 response,
    [Err] a 500.  The asset copied into [user.Favorites] shares its [Counts]
    map with [asset], so it shows the incremented counter. *)
Definition FavoriteHandler (project_id asset_id userId : string)
    : M favoriteResponse :=
  let* _ := set_active_project project_id in
  let* asset := FindAsset asset_id in
  let* found := attempt (FindUser userId) in
  match found with
  | Ok (Some user) =>
      let counts := init_counts 0 0 (Asset_Counts asset) in
      let '(favorites, action, counts) :=
        match User_Favorites user !! Asset_Id asset with
        | Some _ =>
            (delete (Asset_Id asset) (User_Favorites user), "unfavorited",
             if (0 <? count_get counts "Favorites")%Z
             then count_decr "Favorites" counts else counts)
        | None =>
            let counts := count_incr "Favorites" counts in
            (<[Asset_Id asset := set_Asset_Counts counts asset]> (User_Favorites user),
             "favorited", counts)
        end in
      let asset := set_Asset_Counts counts asset in
      let user := set_User_Favorites favorites user in
      let user :=
        set_User_Counts (<["Favorites" := Z.of_nat (size favorites)]> (User_Counts user))
          user in
      let* _ := Index (Asset_Id asset) asset in
      let* _ := Index (User_Id user) user in
      ret (mkFavoriteResponse (Asset_Id asset) action)
  | _ => fail (EMsg "Favoriting assets requires a valid user.")
  end.

(** ** Notions the properties are stated with *)

(** [simpl] unfolds [<$>] on lists; this folds it back. *)
Ltac fold_fmap :=
  repeat match goal with
         | |- context [list_fmap ?A ?B ?f ?l] =>
             change (list_fmap A B f l) with (f <$> l)
         | H : context [list_fmap ?A ?B ?f ?l] |- _ =>
             change (list_fmap A B f l) with (f <$> l) in H
         end.

(** No two trackers at different positions hold deep-equal values. *)
Definition pairwise_distinct (sdt : list SubmittedDataTracker) : Prop :=
  ∀ i j ti tj, sdt !! i = Some ti → sdt !! j = Some tj → i ≠ j →
    DeepEqual (Tracker_Value ti) (Tracker_Value tj) = false.

(** The sum of the counts, as Go adds them. *)
Definition go_sum (sdt : list SubmittedDataTracker) : Z :=
  foldr (λ t acc, int_add (Tracker_Count t) acc) 0%Z sdt.

(** The sum of the counts as integers. *)
Definition count_sum (sdt : list SubmittedDataTracker) : Z :=
  foldr (λ t acc, (Tracker_Count t + acc)%Z) 0%Z sdt.

(** The trackers whose value is deep-equal to [item]. *)
Definition matching_trackers (sdt : list SubmittedDataTracker)
    (item : SubmittedData) : list SubmittedDataTracker :=
  filter (λ t, Is_true (DeepEqual (Tracker_Value t) item)) sdt.

(** What the loop of [collateSubmittedData] does to one tracker. *)
Definition bump (item : SubmittedData) (t : SubmittedDataTracker)
    : SubmittedDataTracker :=
  if DeepEqual (Tracker_Value t) item
  then mkTracker (Tracker_Value t) (int_add (Tracker_Count t) 1)
  else t.

(** *** Reasoning about state-passing code *)

(** [wp m Q s]: running [m] from [s] ends in an outcome and a state that
    satisfy [Q]. *)
Definition wp {A} (m : M A) (Q : res A → Server → Prop) (s : Server) : Prop :=
  Q (m s).1 (m s).2.

(** No call into the store fails. *)
Definition healthy (s : Server) : Prop := ∀ r, es_fault (EsConn s) r = false.

(** Everything but the user documents, the id counter and the random stream
    is the same in [s] and [s']. *)
Definition same_but_users (s s' : Server) : Prop :=
  ActiveProjectId s' = ActiveProjectId s
  ∧ es_tasks (EsConn s') = es_tasks (EsConn s)
  ∧ es_assets (EsConn s') = es_assets (EsConn s)
  ∧ es_assignments (EsConn s') = es_assignments (EsConn s)
  ∧ es_fault (EsConn s') = es_fault (EsConn s).

(** ** Example data *)

Definition c7_task : Task :=
  mkTask "p-oi" "p" "oi" "" "waiting" (mkAssignmentCriteria {["oi" := ∅]})
    (mkCompletionCriteria 2 2).

Definition c7_asset : Asset :=
  mkAsset "a1" "p" "http://example.org/1.jpg" "" ∅ {["oi" := VNil]} false false
    (fresh_asset_counts 0 0).

Definition c7_server : Server :=
  mkServer "p"
    (mkES {["p-oi" := c7_task]} {["a1" := c7_asset]} ∅ ∅ 0 (λ _, false)) [].

(** [Counts["Assignments"] == Counts["finished"] + Counts["skipped"]
    + Counts["unfinished"]], with Go's addition. *)
Definition counts_invariant (c : Counts) : Prop :=
  count_get c "Assignments"
  = int_add (int_add (count_get c "finished") (count_get c "skipped"))
      (count_get c "unfinished").

(** The invariant holds on an asset once its [Counts] are initialized. *)
Definition asset_counts_ok (a : Asset) : Prop :=
  size (Asset_Counts a) ≠ 0%nat → counts_invariant (Asset_Counts a).

Definition store_counts_ok (s : Server) : Prop :=
  ∀ id a, es_assets (EsConn s) !! id = Some a → asset_counts_ok a.

Definition c9_user : User :=
  mkUser "w1" "Milo" "milo@example.org" "p" "" fresh_user_counts ∅ ∅ [].

Definition c9_server : Server :=
  mkServer "p"
    (mkES {["p-oi" := c7_task]} {["a1" := c7_asset]} ∅ {["w1" := c9_user]} 0
       (λ _, false)) [].

(** The tasks [FindTasks] hands to [CompleteAsset]: one page of the active
    project's tasks. *)
Definition project_task_page (s : Server) : list Task :=
  (Hits_Hits (run_search (tasks_query (ActiveProjectId s) task_params) (EsConn s))).*2.

(** Every task document of the active project. *)
Definition project_tasks (s : Server) : list Task :=
  (all_hits (D:=Task) (tasks_query (ActiveProjectId s) task_params) (EsConn s)).*2.

(** Eleven tasks in one project, and an asset that has data for the first ten. *)
Definition c6_task (name : string) : Task :=
  mkTask ("p-" +:+ name) "p" name "" "available" (mkAssignmentCriteria ∅)
    (mkCompletionCriteria 2 2).

Definition c6_names : list string :=
  ["t00"; "t01"; "t02"; "t03"; "t04"; "t05"; "t06"; "t07"; "t08"; "t09"; "t10"].

Definition c6_asset : Asset :=
  mkAsset "a1" "p" "http://example.org/1.jpg" "" ∅
    (list_to_map ((λ n, (n, VStr "done")) <$> take 10 c6_names)) false false
    (fresh_asset_counts 2 0).

Definition c6_server : Server :=
  mkServer "p"
    (mkES (list_to_map ((λ n, ("p-" +:+ n, c6_task n)) <$> c6_names))
       {["a1" := c6_asset]} ∅ ∅ 0 (λ _, false)) [].

(** Every stored asset is a JSON document: no entry of its [SubmittedData]
    is an in-memory nil map. *)
Definition store_json (s : Server) : Prop :=
  ∀ id a, es_assets (EsConn s) !! id = Some a → json_asset a = a.

(** [x] is an unfinished assignment of the (project, task, worker) triple. *)
Definition unfinished_for (project taskId userId : string) (x : Assignment) : Prop :=
  Assignment_Project x = project ∧ Assignment_Task x = taskId
  ∧ Assignment_User x = userId ∧ Assignment_State x = "unfinished".

Definition c4_task : Task :=
  mkTask "p-oi" "p" "oi" "" "available" (mkAssignmentCriteria {["oi" := ∅]})
    (mkCompletionCriteria 2 2).

Definition c4_server : Server :=
  mkServer "p"
    (mkES {["p-oi" := c4_task]} {["a1" := c7_asset]} ∅ {["w1" := c9_user]} 0
       (λ _, false)) [].

(** A task "transcribe" whose criteria name the prerequisite "categorize"
    with an empty rule, and an asset that already has a categorize answer. *)
Definition c2_task : Task :=
  mkTask "p-transcribe" "p" "transcribe" "" "available"
    (mkAssignmentCriteria {["categorize" := ∅]}) (mkCompletionCriteria 2 2).

Definition c2_asset : Asset :=
  mkAsset "a1" "p" "http://example.org/1.jpg" ""  ∅
    {["categorize" := VMap {["category" := VStr "usable"]}; "transcribe" := VNil]}
    false false (fresh_asset_counts 0 0).

Definition c2_server : Server :=
  mkServer "p"
    (mkES {["p-transcribe" := c2_task]} {["a1" := c2_asset]} ∅ {["w1" := c9_user]} 0
       (λ _, false)) [].

(** A worker is given the only asset, skips it, and asks again. *)
Definition c3_first : res Assignment * Server := CreateAssignment "p-oi" "w1" c4_server.

Definition c3_skipped : res Assignment * Server :=
  match c3_first with
  | (Ok a, s) => UpdateAssignment (set_Assignment_State "skipped" a) s
  | (Err e, s) => (Err e, s)
  end.

Definition c3_second : res Assignment * Server :=
  CreateAssignment "p-oi" "w1" c3_skipped.2.

(** *** Notions for the consensus sweep *)

(** Only writes ([Index]) may fail. *)
Definition reads_ok (s : Server) : Prop :=
  ∀ r, es_fault (EsConn s) r = true → ∃ type id, r = RIndex type id.

(** Assignments and assets are stored under their own, non-empty ids. *)
Definition wf_assignments (s : Server) : Prop :=
  ∀ k x, es_assignments (EsConn s) !! k = Some x → Assignment_Id x = k ∧ k ≠ "".

Definition wf_assets (s : Server) : Prop :=
  ∀ k a, es_assets (EsConn s) !! k = Some a → Asset_Id a = k ∧ k ≠ "".

(** [x] is a finished assignment of the task on the asset. *)
Definition finished_for (project taskName assetId : string) (x : Assignment) : Prop :=
  Assignment_Task x = taskName ∧ Asset_Id (Assignment_Asset x) = assetId
  ∧ Assignment_Project x = project ∧ Assignment_State x = "finished".

(** The finished assignments of the task on the asset, as stored. *)
Definition finished_assignments (s : Server) (taskName assetId : string)
    : list (string * Assignment) :=
  all_hits (D:=Assignment)
    (asset_finished_query taskName assetId (ActiveProjectId s)) (EsConn s).

(** How many of the assignments carry the submitted data [v]. *)
Definition votes (v : SubmittedData) (l : list Assignment) : nat :=
  length (filter (λ x, Assignment_SubmittedData x = v) l).

(** The buckets the sweep of [task] walks through. *)
Definition sweep_buckets (s : Server) (taskName : string) (task : Task)
    : list assetBucket :=
  run_aggregation (D:=Assignment) (finished_query taskName (ActiveProjectId s))
    ["Asset"; "Id"] (Total (Task_CompletionCriteria task)) 50000 (EsConn s).

(** The stored form of an assignment the sweep has promoted. *)
Definition verified_doc (x : Assignment) : Assignment :=
  json_assignment (set_Assignment_State "verified" x).

(** What [verify_assignments] does to the assignment documents when the ids
    are not empty: each save either fails or replaces the document. *)
Definition verify_map (fault : request → bool) (l : list Assignment)
    (m : gmap string Assignment) : gmap string Assignment :=
  foldl (λ m x, if fault (RIndex "assignments" (Assignment_Id x)) then m
                else <[Assignment_Id x := verified_doc x]> m) m l.

(** [s'] comes from [s] by sweeping buckets whose ids are in [ids]: nothing
    but work items in [ids] and assignments on them has changed, and an
    assignment has changed only by being promoted. *)
Definition sweep_rel (ids : list string) (s s' : Server) : Prop :=
  ActiveProjectId s' = ActiveProjectId s
  ∧ es_tasks (EsConn s') = es_tasks (EsConn s)
  ∧ es_fault (EsConn s') = es_fault (EsConn s)
  ∧ (∀ k, k ∉ ids → es_assets (EsConn s') !! k = es_assets (EsConn s) !! k)
  ∧ (∀ k a', es_assets (EsConn s') !! k = Some a' →
       ∃ a, es_assets (EsConn s) !! k = Some a ∧ Asset_Id a' = Asset_Id a)
  ∧ (∀ k a, es_assets (EsConn s) !! k = Some a → is_Some (es_assets (EsConn s') !! k))
  ∧ (∀ k x, es_assignments (EsConn s) !! k = Some x →
       Asset_Id (Assignment_Asset x) ∉ ids → es_assignments (EsConn s') !! k = Some x)
  ∧ (∀ k x', es_assignments (EsConn s') !! k = Some x' →
       ∃ x, es_assignments (EsConn s) !! k = Some x ∧ (x' = x ∨ x' = verified_doc x)).

(** Between [s] and [s'] the work items differ at most at [aid], where the
    item is still there with the same id. *)
Definition assets_rel (aid : string) (s s' : Server) : Prop :=
  (∀ k, k ≠ aid → es_assets (EsConn s') !! k = es_assets (EsConn s) !! k)
  ∧ (∀ a', es_assets (EsConn s') !! aid = Some a' →
       ∃ a, es_assets (EsConn s) !! aid = Some a ∧ Asset_Id a' = Asset_Id a)
  ∧ (∀ a, es_assets (EsConn s) !! aid = Some a → is_Some (es_assets (EsConn s') !! aid)).

(** The state after the tracker loop of one bucket: the work item may have
    been rewritten, and the hits [l] have been saved as verified [n] times
    over. *)
Definition bucket_rel (aid : string) (l : list Assignment) (n : nat)
    (s s' : Server) : Prop :=
  ActiveProjectId s' = ActiveProjectId s
  ∧ es_tasks (EsConn s') = es_tasks (EsConn s)
  ∧ es_fault (EsConn s') = es_fault (EsConn s)
  ∧ assets_rel aid s s'
  ∧ es_assignments (EsConn s')
    = Nat.iter n (verify_map (es_fault (EsConn s)) l) (es_assignments (EsConn s)).

(** The trackers account for the assignments [seen] so far: one tracker per
    submitted value, holding the number of its votes as Go counts it. *)
Definition trackers_ok (sdt : list SubmittedDataTracker) (seen : list Assignment)
    : Prop :=
  NoDup (Tracker_Value <$> sdt)
  ∧ (∀ t, t ∈ sdt →
       Tracker_Count t = wrap (Z.of_nat (votes (Tracker_Value t) seen)))
  ∧ (∀ v, (0 < votes v seen)%nat ↔ v ∈ Tracker_Value <$> sdt).

(** The condition under which the sweep completes the work item [aid]: it
    exists, its finished assignments fit the page of the search, and some
    submitted value has at least [Matching] votes (and at least one). *)
Definition target_ok (s : Server) (taskName : string) (task : Task) (aid : string)
    : Prop :=
  is_Some (es_assets (EsConn s) !! aid)
  ∧ (length (finished_assignments s taskName aid) ≤ es_default_size)%nat
  ∧ ∃ v, (0 < votes v (finished_assignments s taskName aid).*2)%nat
         ∧ (Matching (Task_CompletionCriteria task)
            ≤ Z.of_nat (votes v (finished_assignments s taskName aid).*2))%Z.

(** The finished assignments of the task, on whatever work item. *)
Definition task_finished (s : Server) (taskName : string)
    : list (string * Assignment) :=
  all_hits (D:=Assignment) (finished_query taskName (ActiveProjectId s)) (EsConn s).

(** Executable forms of [wf_assignments] and [wf_assets]. *)
Definition wf_assignments_b (s : Server) : bool :=
  forallb (λ kx : string * Assignment,
             String.eqb (Assignment_Id kx.2) kx.1 && negb (String.eqb kx.1 ""))
    (map_to_list (es_assignments (EsConn s))).

Definition wf_assets_b (s : Server) : bool :=
  forallb (λ ka : string * Asset,
             String.eqb (Asset_Id ka.2) ka.1 && negb (String.eqb ka.1 ""))
    (map_to_list (es_assets (EsConn s))).

(** A task that asks for two matching answers; the work item "a1" has the
    finished answers usable, usable and blurry, the work item "a2" the
    finished answers usable and usable. *)
Definition c1_task : Task :=
  mkTask "p-oi" "p" "oi" "" "available" (mkAssignmentCriteria ∅)
    (mkCompletionCriteria 2 2).

Definition c1_asset (id : string) : Asset :=
  mkAsset id "p" ("http://example.org/" +:+ id) "" ∅ ∅ false false
    (fresh_asset_counts 3 0).

Definition c1_answer (quality : string) : SubmittedData :=
  Some {["quality" := VStr quality]}.

Definition c1_id (assetId userId : string) : string :=
  strings_Join ["p"; "p-oi"; assetId; userId] "HIVE".

Definition c1_assignment (assetId userId quality : string) : Assignment :=
  mkAssignment (c1_id assetId userId) userId "p" "p-oi" (c1_asset assetId)
    "finished" (c1_answer quality).

Definition c1_assignments : gmap string Assignment :=
  list_to_map
    ((λ x, (Assignment_Id x, x))
       <$> [c1_assignment "a1" "w1" "usable"; c1_assignment "a1" "w2" "usable";
            c1_assignment "a1" "w3" "blurry"; c1_assignment "a2" "w1" "usable";
            c1_assignment "a2" "w2" "usable"]).

Definition c1_store (fault : request → bool) : Server :=
  mkServer "p"
    (mkES {["p-oi" := c1_task]}
       (<["a1" := c1_asset "a1"]> {["a2" := c1_asset "a2"]})
       c1_assignments ∅ 0 fault) [].

Definition c1_server : Server := c1_store (λ _, false).

(** The same store when the write of the work item "a1" fails ... *)
Definition c8_write_fault (r : request) : bool :=
  match r with
  | RIndex type id => String.eqb type "assets" && String.eqb id "a1"
  | _ => false
  end.

Definition c8_server : Server := c1_store c8_write_fault.

(** ... and when the search for the assignments of "a1" fails. *)
Definition c8_search_fault (r : request) : bool :=
  match r with
  | RSearch type q =>
      match q_must q with
      | [_; Match _ v; _; _] => String.eqb type "assignments" && String.eqb v "a1"
      | _ => false
      end
  | _ => false
  end.

Definition c8_search_server : Server := c1_store c8_search_fault.

(** ** Helpers of the handlers *)

(** [appendIfMissing]: the slice itself when it holds the item. *)
Fixpoint appendIfMissing (slice : list string) (item : string) : list string :=
  match slice with
  | [] => [item]
  | ele :: rest =>
      if String.eqb ele item then slice else ele :: appendIfMissing rest item
  end.

(** The task id the handlers work with:
    [if !strings.HasPrefix(vars["task_id"], s.ActiveProjectId) && vars["task_id"] != ""]
    puts the project id and a dash in front. *)
Definition scoped_task_id (project task_id : string) : string :=
  if negb (String.prefix project task_id) && negb (String.eqb task_id "")
  then project +:+ "-" +:+ task_id
  else task_id.

(** [strings.Contains] *)
Fixpoint strings_Contains (s substr : string) : bool :=
  String.prefix substr s
  || match s with
     | EmptyString => false
     | String _ s' => strings_Contains s' substr
     end.

(** ** Enabling and disabling a task *)

Definition set_Task_CurrentState (state : string) (t : Task) : Task :=
  mkTask (Task_Id t) (Task_Project t) (Task_Name t) (Task_Description t) state
    (Task_AssignmentCriteria t) (Task_CompletionCriteria t).

(** [UpdateTaskState] writes the task back under [task.Id]. *)
Definition UpdateTaskState (taskId state : string) : M Task :=
  let* task := FindTask taskId in
  let task := set_Task_CurrentState state task in
  let* _ := Index (Task_Id task) task in
  let* _ := Refresh in
  ret task.

(** [DisableTaskHandler] and [EnableTaskHandler] on the project and task of
    the URL; [Ok] is the 200 response with the task, [Err] a 500. *)
Definition DisableTaskHandler (project_id task_id : string) : M Task :=
  let* _ := set_active_project project_id in
  let* project := active_project in
  UpdateTaskState (scoped_task_id project task_id) "waiting".

Definition EnableTaskHandler (project_id task_id : string) : M Task :=
  let* _ := set_active_project project_id in
  let* project := active_project in
  UpdateTaskState (scoped_task_id project task_id) "available".

(** A task that is disabled, and the store where it is. *)
Definition x_enabled_server : Server :=
  mkServer "p"
    (mkES {["p-oi" := c4_task]} {["a1" := c7_asset]} ∅ {["w1" := c9_user]} 0
       (λ _, false)) [].

(** ** Handlers of the allocation and of the user *)

(** [UserAssignmentHandler] on the project and task of the URL and the
    session cookie, if there is one. *)
Definition UserAssignmentHandler (project_id task_id : string)
    (cookie : option string) : M Assignment :=
  let* _ := set_active_project project_id in
  let* project := active_project in
  let taskId := scoped_task_id project task_id in
  match cookie with
  | None => fail (EMsg "http: named cookie not present")
  | Some userId => CreateAssignment taskId userId
  end.

(** [AssignAssetHandler]; [userId] is what [FindCookieValue] found, [""]
    without a cookie. *)
Definition AssignAssetHandler (project_id task_id asset_id userId : string)
    : M Assignment :=
  let* _ := set_active_project project_id in
  let* project := active_project in
  let taskId := scoped_task_id project task_id in
  if String.eqb userId "" then
    fail (EMsg "Assignments can't be created without a user.")
  else CreateAssetAssignment taskId userId asset_id.

(** [CreateExternalUser]: a new user that carries the external id. *)
Definition CreateExternalUser (externalId : string) : M User :=
  let* project := active_project in
  store_new_user (mkUser "" "" "" project externalId fresh_user_counts ∅ ∅ []).

(** [UserHandler]: the user of the session cookie, created when there is no
    record of one. *)
Definition UserHandler (project_id userId : string) : M User :=
  let* _ := set_active_project project_id in
  let* found := FindUser userId in
  match found with
  | Some user => ret user
  | None => CreateUserFromMissingCookieValue userId
  end.

(** ** Importing work items *)

Definition set_Asset_Id (id : string) (a : Asset) : Asset :=
  mkAsset id (Asset_Project a) (Asset_Url a) (Asset_Name a) (Asset_Metadata a)
    (Asset_SubmittedData a) (Asset_Favorited a) (Asset_Verified a) (Asset_Counts a).

(** [for _, task := range tasks { submittedData[task.Name] = nil }] *)
Definition import_submitted_data (tasks : list Task) : gmap string value :=
  foldl (λ m t, <[Task_Name t := VNil]> m) ∅ tasks.

(** The loop of [importAssets] over [newAssets]; [assets] is what has been
    imported so far.  Every [return] of the loop hands back [assets] next to
    the error. *)
Fixpoint import_assets_range (project : string) (submittedData : gmap string value)
    (newAssets assets : list Asset) : Server → (list Asset * option error) * Server :=
  match newAssets with
  | [] => λ s, ((assets, None), s)
  | asset :: rest =>
      if (String.length (Asset_Url asset) =? 0)%nat then
        λ s, ((assets, Some (EMsg "Sorry, all assets must specify a url.")), s)
      else
        let asset :=
          mkAsset (Asset_Id asset) project (Asset_Url asset) (Asset_Name asset)
            (Asset_Metadata asset) submittedData (Asset_Favorited asset)
            (Asset_Verified asset) (fresh_asset_counts 0 0) in
        λ s, match Index "" asset s with
             | (Err e, s1) => ((assets, Some e), s1)
             | (Ok id, s1) =>
                 let asset := set_Asset_Id id asset in
                 match Index (Asset_Id asset) asset s1 with
                 | (Err e, s2) => ((assets, Some e), s2)
                 | (Ok _, s2) =>
                     import_assets_range project submittedData rest
                       (assets ++ [asset]) s2
                 end
             end
  end.

(** [importAssets] returns the assets imported so far together with an
    [error]. *)
Definition importAssets (newAssets : list Asset)
    : Server → (list Asset * option error) * Server :=
  λ s,
    match FindTasks task_params s with
    | (Err e, s1) => (([], Some e), s1)
    | (Ok tasks, s1) =>
        match import_assets_range (ActiveProjectId s1) (import_submitted_data tasks)
                newAssets [] s1 with
        | ((assets, Some e), s2) => ((assets, Some e), s2)
        | ((assets, None), s2) =>
            match Refresh s2 with
            | (Err e, s3) => ((assets, Some e), s3)
            | (Ok _, s3) => ((assets, None), s3)
            end
        end
    end.

(** The work item [importAssets] makes of the imported [a0] under the id
    [id], and the work items it makes of a list when the store hands out ids
    from number [n] on. *)
Definition imported_asset (project : string) (submittedData : gmap string value)
    (id : string) (a0 : Asset) : Asset :=
  mkAsset id project (Asset_Url a0) (Asset_Name a0) (Asset_Metadata a0)
    submittedData (Asset_Favorited a0) (Asset_Verified a0) (fresh_asset_counts 0 0).

Fixpoint imported_assets (project : string) (submittedData : gmap string value)
    (n : nat) (l : list Asset) : list Asset :=
  match l with
  | [] => []
  | a0 :: l => imported_asset project submittedData (es_gen_id n) a0
               :: imported_assets project submittedData (S n) l
  end.

(** The server after these work items have been stored. *)
Definition import_store (assets : list Asset) (s : Server) : Server :=
  set_EsConn
    (mkES (es_tasks (EsConn s))
       (foldl (λ m a, <[Asset_Id a := a]> m) (es_assets (EsConn s)) assets)
       (es_assignments (EsConn s)) (es_users (EsConn s))
       (es_next_id (EsConn s) + length assets) (es_fault (EsConn s))) s.

(** Two work items to import, the second without a url. *)
Definition x_import : list Asset :=
  [mkAsset "" "" "http://example.org/1.jpg" "one" ∅ ∅ false false ∅;
   mkAsset "" "" "" "two" ∅ ∅ false false ∅;
   mkAsset "" "" "http://example.org/3.jpg" "three" ∅ ∅ false false ∅].

(** ** Paged lists *)

(** The pagination record of a response.  [Params] carries the numbers the
    strings [From] and [Size] of the source denote. *)
Record meta := mkMeta {
  Meta_Total : nat;
  Meta_From : nat;
  Meta_Size : nat
}.

(** [FindAssets]: one page of the work items of the active project; a work
    item without counts is given the counts of a new one. *)
Definition FindAssets (p : Params) : M (list Asset * meta) :=
  let* project := active_project in
  let* results := Search (D:=Asset) (tasks_query project p) in
  let m := mkMeta (Hits_Total results) (Params_From p) (Params_Size p) in
  ret ((λ asset, set_Asset_Counts (init_counts 0 0 (Asset_Counts asset)) asset)
         <$> (Hits_Hits results).*2,
       m).

(** [FindUsers] returns users, [meta] and [error].  A failed query gives an
    empty list and a nil error.  [tasks, m, err := s.FindTasks(taskParams)]
    assigns the named results [m] and [err] again: [FindTasks] never fills in
    its [meta], and the loop sets [err] to nil at every hit. *)
Definition FindUsers (p : Params)
    : Server → (list User * meta * option error) * Server :=
  λ s,
    match (let* project := active_project in
           Search (D:=User) (tasks_query project p)) s with
    | (Err _, s1) => (([], mkMeta 0 0 0, None), s1)
    | (Ok results, s1) =>
        let m := mkMeta (Hits_Total results) (Params_From p) (Params_Size p) in
        let '(tasks, m, err, s2) :=
          match FindTasks task_params s1 with
          | (Ok tasks, s2) => (tasks, mkMeta 0 0 0, None, s2)
          | (Err e, s2) => ([], mkMeta 0 0 0, Some e, s2)
          end in
        let users :=
          (λ user, set_User_Counts (fill_task_counts tasks (User_Counts user)) user)
            <$> (Hits_Hits results).*2 in
        ((users, m, match Hits_Hits results with [] => err | _ => None end), s2)
    end.

(** The query of [FindAssignments]: the project, and the task and the state
    when they are given. *)
Definition assignments_query (project task state : string) (p : Params) : query :=
  mkQuery
    ([Match ["Project"] project]
     ++ (if String.eqb task "" then [] else [Match ["Task"] task])
     ++ (if String.eqb state "" then [] else [Match ["State"] state]))
    [] (Params_From p) (Some (Params_Size p))
    (Some (Params_SortBy p, Params_SortDir p)).

(** [FindAssignments]; [task] and [state] are [p.Task] and [p.State]. *)
Definition FindAssignments (p : Params) (task state : string)
    : M (list Assignment * meta) :=
  let* _ := Refresh in
  let* project := active_project in
  let task := scoped_task_id project task in
  let* results := Search (D:=Assignment) (assignments_query project task state p) in
  ret ((Hits_Hits results).*2,
       mkMeta (Hits_Total results) (Params_From p) (Params_Size p)).

(** A skipped assignment on the work item of [c7_server], as a worker
    submits it. *)
Definition x_skipped : Assignment :=
  mkAssignment "pHIVEp-oiHIVEa1HIVEw1" "w1" "p" "p-oi" c7_asset "skipped" None.

Definition x_finished : Assignment :=
  mkAssignment "pHIVEp-oiHIVEa1HIVEw1" "w1" "p" "p-oi" c7_asset "finished"
    (c1_answer "usable").

(** The assignments [FindAssignmentAsset] reads the worker's earlier work
    items from. *)
Definition assigned_hits (task : Task) (user : User) (s : Server)
    : list (string * Assignment) :=
  Hits_Hits (run_search (D:=Assignment)
               (assigned_query task user (ActiveProjectId s)) (EsConn s)).

(** A worker with one counted assignment, whose assignment was stored under
    an id that is not made of four parts. *)
Definition x_legacy_user : User :=
  mkUser "w1" "Milo" "milo@example.org" "p" ""
    (<["Assignments" := 1]> fresh_user_counts) ∅ ∅ [].

Definition x_legacy_server : Server :=
  mkServer "p"
    (mkES {["p-oi" := c4_task]} {["a1" := c7_asset]}
       {["legacy-1" := mkAssignment "legacy-1" "w1" "p" "p-oi" c7_asset "finished" None]}
       {["w1" := x_legacy_user]} 0 (λ _, false)) [].

(** ** Creating tasks

    The id of a task is made of the project id and [strings.ToLower] of the
    task's name.  The definitions take that function as the parameter
    [ToLower]; what is proved below holds whatever it does to a name.  A nil
    [AssignmentCriteria.SubmittedData] is replaced by an empty map, which a
    [gmap] does not tell apart. *)

Definition set_Task_Id (id : string) (t : Task) : Task :=
  mkTask id (Task_Project t) (Task_Name t) (Task_Description t)
    (Task_CurrentState t) (Task_AssignmentCriteria t) (Task_CompletionCriteria t).

Definition set_Task_Project (project : string) (t : Task) : Task :=
  mkTask (Task_Id t) project (Task_Name t) (Task_Description t)
    (Task_CurrentState t) (Task_AssignmentCriteria t) (Task_CompletionCriteria t).

(** [CreateTask] on the decoded request body; it leaves [task.Project] as
    the body has it. *)
Definition CreateTask (ToLower : string → string) (body : Task) : M Task :=
  let* project := active_project in
  let task := set_Task_Id (strings_Join [project; ToLower (Task_Name body)] "-") body in
  let* _ := Index (Task_Id task) task in
  let* _ := Refresh in
  ret task.

(** The loop of [importTasks] over [newTasks]; [tasks] is what has been
    imported so far, and what every [return] of the loop hands back. *)
Fixpoint import_tasks_range (ToLower : string → string) (newTasks tasks : list Task)
    : Server → (list Task * option error) * Server :=
  match newTasks with
  | [] => λ s, ((tasks, None), s)
  | task :: rest =>
      if (String.length (Task_Name task) =? 0)%nat then
        λ s, ((tasks, Some (EMsg "Sorry, all tasks must specify a name.")), s)
      else
        λ s,
          let task := set_Task_Project (ActiveProjectId s) task in
          let task :=
            set_Task_Id
              (strings_Join [ActiveProjectId s; ToLower (Task_Name task)] "-") task in
          match Index (Task_Id task) task s with
          | (Err e, s1) => ((tasks, Some e), s1)
          | (Ok _, s1) => import_tasks_range ToLower rest (tasks ++ [task]) s1
          end
  end.

(** [importTasks] returns the tasks, a [meta] and an [error]; the [meta] is
    filled in only on the way out without an error. *)
Definition importTasks (ToLower : string → string) (newTasks : list Task)
    : Server → (list Task * meta * option error) * Server :=
  λ s,
    match import_tasks_range ToLower newTasks [] s with
    | ((tasks, Some e), s1) => ((tasks, mkMeta 0 0 0, Some e), s1)
    | ((tasks, None), s1) =>
        match Refresh s1 with
        | (Err e, s2) => ((tasks, mkMeta 0 0 0, Some e), s2)
        | (Ok _, s2) => ((tasks, mkMeta (length tasks) 0 (length tasks), None), s2)
        end
    end.

(** The task [importTasks] makes of the imported [t]. *)
Definition imported_task (ToLower : string → string) (project : string) (t : Task)
    : Task :=
  mkTask (strings_Join [project; ToLower (Task_Name t)] "-") project (Task_Name t)
    (Task_Description t) (Task_CurrentState t) (Task_AssignmentCriteria t)
    (Task_CompletionCriteria t).

(** The store after the tasks [l] have been written one after the other. *)
Definition tasks_store (l : list Task) (s : Server) : Server :=
  set_EsConn
    (with_docs (foldl (λ m t, <[Task_Id t := t]> m) (es_tasks (EsConn s)) l)
       (EsConn s)) s.

(** [strings.ToLower] on a name of ASCII characters, for the examples. *)
Fixpoint ascii_ToLower (x : string) : string :=
  match x with
  | EmptyString => EmptyString
  | String c rest =>
      let n := Ascii.nat_of_ascii c in
      String (if (65 <=? n)%nat && (n <=? 90)%nat then Ascii.ascii_of_nat (n + 32)
              else c)
        (ascii_ToLower rest)
  end.

Definition x_new_task (name : string) : Task :=
  mkTask "" "" name "" "available" (mkAssignmentCriteria ∅) (mkCompletionCriteria 2 2).

(** [UserCreateAssignmentHandler]: the posted assignment is stored with
    [UpdateAssignment], then the worker is given an assignment; [userId] is
    what [FindCookieValue] found, [""] without a cookie. *)
Definition UserCreateAssignmentHandler (project_id task_id userId : string)
    (body : Assignment) : M Assignment :=
  let* _ := set_active_project project_id in
  let* project := active_project in
  let taskId := scoped_task_id project task_id in
  let* _ := UpdateAssignment body in
  CreateAssignment taskId userId.

(** A worker who posts back the unfinished assignment on "a1". *)
Definition x_open_assignment : Assignment :=
  mkAssignment "pHIVEp-oiHIVEa1HIVEw1" "w1" "p" "p-oi" c7_asset "unfinished" None.

(** A work item whose two finished answers differ. *)
Definition x_split_server : Server :=
  mkServer "p"
    (mkES {["p-oi" := c1_task]} {["a1" := c1_asset "a1"]}
       (list_to_map
          ((λ x, (Assignment_Id x, x))
             <$> [c1_assignment "a1" "w1" "usable"; c1_assignment "a1" "w2" "blurry"]))
       ∅ 0 (λ _, false)) [].

(** ** Allocation on a store that has not refreshed

    [GetSource] and [ExistsBool] read a document as it was last written; a
    query ([Search], [Count]) sees the documents as of the store's last
    refresh.  The definitions above are the store that has refreshed before
    each query.  Here are the functions on the path of [CreateAssignment],
    none of which calls [Refresh], for a request the store serves without
    having refreshed: the queries run on [seen], the documents as the last
    refresh left them, while reads by id and writes go to the store as it
    is. *)
Module Unrefreshed.
Section Seen.
Variable seen : ES.

Definition Search `{DocType D} (q : query) : M (SearchResult D) :=
  let* _ := call (RSearch (type_name (D:=D)) q) in
  λ s, (Ok (run_search q seen), s).

Definition Count `{DocType D} : M nat :=
  let* _ := call (RCount (type_name (D:=D))) in
  λ s, (Ok (size (docs_of (D:=D) seen)), s).

Definition FindTasks (p : Params) : M (list Task) :=
  let* project := active_project in
  let* results := Search (tasks_query project p) in
  ret (Hits_Hits results).*2.

Definition store_new_user (user : User) : M User :=
  let* _ := attempt (FindTasks task_params) in
  let* id := Index (User_Id user) user in
  if String.eqb (User_Id user) "" then
    let user := set_User_Id id user in
    let* _ := Index (User_Id user) user in
    ret user
  else ret user.

Definition CreateUser (body : User) : M User :=
  let* project := active_project in
  store_new_user
    (mkUser (User_Id body) (User_Name body) (User_Email body) project
       (User_ExternalId body) fresh_user_counts ∅ (User_NewFavorites body)
       (User_VerifiedAssets body)).

Definition CreateUserFromMissingCookieValue (userId : string) : M User :=
  let* project := active_project in
  store_new_user (mkUser userId "" "" project "" fresh_user_counts ∅ ∅ []).

Definition FindUser (id : string) : M (option User) :=
  if String.eqb id "" then
    let* project := active_project in
    let* user := CreateUser (mkUser "" "" "" project "" ∅ ∅ ∅ []) in
    ret (Some user)
  else
    let* r := attempt (GetSource (D:=User) id) in
    match r with
    | Err e =>
        let* userExists := ExistsBool (D:=User) id in
        if userExists then fail e else ret None
    | Ok user =>
        let* t := attempt (FindTasks task_params) in
        match t with
        | Ok tasks =>
            ret (Some (set_User_Counts (fill_task_counts tasks (User_Counts user)) user))
        | Err _ => ret (Some user)
        end
    end.

Definition find_or_create_user (userId : string) : M User :=
  let* r := attempt (FindUser userId) in
  match r with
  | Ok (Some user) => ret user
  | _ =>
      let* c := attempt (CreateUserFromMissingCookieValue userId) in
      match c with
      | Ok user => ret user
      | Err _ =>
          fail (EMsg "Assignments can't be created without a user: failed creating a new anon user")
      end
  end.

Definition FindAssignmentAsset (task : Task) (user : User) : M Asset :=
  let* project := active_project in
  let* assetResults := Search (D:=Assignment) (assigned_query task user project) in
  match mapM (λ hit : string * Assignment, hit_asset_id hit.1)
          (Hits_Hits assetResults) with
  | None => fail EPanic
  | Some assetIds =>
      let* count := Count (D:=Asset) in
      let* results := Search (D:=Asset) (eligible_query task project assetIds count) in
      if (Hits_Total results =? 0)%nat then fail (EMsg "No assets found")
      else
        let* randomHit := Intn (length (Hits_Hits results)) in
        match Hits_Hits results !! randomHit with
        | Some hit => ret hit.2
        | None => fail EPanic
        end
  end.

Definition CreateAssignment (taskId userId : string) : M Assignment :=
  let* user := find_or_create_user userId in
  let* task := FindTask taskId in
  if negb (String.eqb (Task_CurrentState task) "available") then
    fail (EMsg "Invalid task")
  else
    let* project := active_project in
    let* results := Search (D:=Assignment) (unfinished_query project taskId userId) in
    if (0 <? Hits_Total results)%nat then
      match Hits_Hits results with
      | hit :: _ => ret hit.2
      | [] => fail EPanic
      end
    else
      let* assignmentAsset := FindAssignmentAsset task user in
      let counts := init_counts 0 0 (Asset_Counts assignmentAsset) in
      let counts := count_incr "Assignments" counts in
      let counts := count_incr "unfinished" counts in
      let assignmentAsset := set_Asset_Counts counts assignmentAsset in
      let* _ := Index (Asset_Id assignmentAsset) assignmentAsset in
      let assignmentId :=
        strings_Join [project; taskId; Asset_Id assignmentAsset; User_Id user] "HIVE" in
      let assignment :=
        mkAssignment assignmentId userId project taskId assignmentAsset
          "unfinished" None in
      let* _ := Index (Assignment_Id assignment) assignment in
      ret assignment.

End Seen.
End Unrefreshed.

(** Two work items the worker "w1" may be given for the task, and a random
    stream that draws 0 and then 1. *)
Definition c4_asset2 : Asset :=
  mkAsset "a2" "p" "http://example.org/2.jpg" "" ∅ {["oi" := VNil]} false false
    (fresh_asset_counts 0 0).

Definition c4_two_server : Server :=
  mkServer "p"
    (mkES {["p-oi" := c4_task]} (<["a1" := c7_asset]> {["a2" := c4_asset2]}) ∅
       {["w1" := c9_user]} 0 (λ _, false)) [0; 1]%nat.

(** The first request, and the second one served before and after the store
    has refreshed. *)
Definition c4_first : res Assignment * Server :=
  Unrefreshed.CreateAssignment (EsConn c4_two_server) "p-oi" "w1" c4_two_server.

Definition c4_second_unrefreshed : res Assignment * Server :=
  Unrefreshed.CreateAssignment (EsConn c4_two_server) "p-oi" "w1" c4_first.2.

Definition c4_second_refreshed : res Assignment * Server :=
  Unrefreshed.CreateAssignment (EsConn c4_first.2) "p-oi" "w1" c4_first.2.

(** A finished assignment that was posted without an id: [UpdateAssignment]
    stored it under the id the store generated, "es-0". *)
Definition c1_posted_without_id : Assignment :=
  mkAssignment "" "w2" "p" "p-oi" (c1_asset "a1") "finished" (c1_answer "usable").

Definition c1_without_id_server : Server :=
  mkServer "p"
    (mkES {["p-oi" := c1_task]} {["a1" := c1_asset "a1"]}
       (<[c1_id "a1" "w1" := c1_assignment "a1" "w1" "usable"]>
          {["es-0" := c1_posted_without_id]})
       ∅ 1 (λ _, false)) [].

(** * Properties *)

(** ** Go integers *)

Lemma wrap_small (z : Z) : (- 2 ^ 63 ≤ z < 2 ^ 63)%Z → wrap z = z.
Proof.
  intros Hz. unfold wrap.
  rewrite Z.mod_small; lia.
Qed.

Lemma wrap_add_l (a b : Z) : wrap (wrap a + b) = wrap (a + b).
Proof.
  unfold wrap.
  replace ((a + 2 ^ 63) mod 2 ^ 64 - 2 ^ 63 + b + 2 ^ 63)%Z
    with ((a + 2 ^ 63) mod 2 ^ 64 + b)%Z by lia.
  rewrite Zplus_mod_idemp_l.
  f_equal. f_equal. lia.
Qed.

Lemma wrap_add_r (a b : Z) : wrap (a + wrap b) = wrap (a + b).
Proof. rewrite (Z.add_comm a (wrap b)), wrap_add_l. f_equal. lia. Qed.

Lemma wrap_sub_l (a b : Z) : wrap (wrap a - b) = wrap (a - b).
Proof. unfold Z.sub. apply wrap_add_l. Qed.

Lemma wrap_wrap (a : Z) : wrap (wrap a) = wrap a.
Proof.
  replace (wrap a) with (wrap a + 0)%Z at 1 by lia.
  rewrite wrap_add_l. f_equal. lia.
Qed.

(** ** [collateSubmittedData] *)

Implicit Types (sdt : list SubmittedDataTracker) (item : SubmittedData).

Lemma DeepEqual_true a b : DeepEqual a b = true ↔ a = b.
Proof. unfold DeepEqual. apply bool_decide_eq_true. Qed.

Lemma DeepEqual_false a b : DeepEqual a b = false ↔ a ≠ b.
Proof. unfold DeepEqual. apply bool_decide_eq_false. Qed.

Lemma collate_range_fst sdt item f :
  (collate_range sdt item f).1 = bump item <$> sdt.
Proof.
  revert f. induction sdt as [|t sdt IH]; intros f; simpl; [done|].
  unfold bump at 1.
  destruct (DeepEqual (Tracker_Value t) item).
  - specialize (IH true). destruct (collate_range sdt item true). simpl in *. by f_equal.
  - specialize (IH f). destruct (collate_range sdt item f). simpl in *. by f_equal.
Qed.

Lemma collate_range_snd sdt item f :
  (collate_range sdt item f).2
  = f || bool_decide (item ∈ Tracker_Value <$> sdt).
Proof.
  revert f. induction sdt as [|t sdt IH]; intros f.
  - cbn [collate_range snd]. rewrite fmap_nil.
    rewrite (bool_decide_eq_false_2 (item ∈ [])); [|apply not_elem_of_nil].
    symmetry. apply orb_false_r.
  - cbn [collate_range]. rewrite fmap_cons.
    destruct (DeepEqual (Tracker_Value t) item) eqn:E.
    + specialize (IH true). destruct (collate_range sdt item true). cbn [snd] in *.
      apply DeepEqual_true in E. subst item.
      rewrite bool_decide_eq_true_2; [by rewrite orb_true_r | left].
    + specialize (IH f). destruct (collate_range sdt item f). cbn [snd] in *.
      rewrite IH. f_equal. apply DeepEqual_false in E.
      apply bool_decide_ext. rewrite elem_of_cons. naive_solver.
Qed.

Lemma collate_unfold sdt item :
  collateSubmittedData sdt item
  = if bool_decide (item ∈ Tracker_Value <$> sdt)
    then bump item <$> sdt
    else (bump item <$> sdt) ++ [mkTracker item 1].
Proof.
  unfold collateSubmittedData.
  pose proof (collate_range_fst sdt item false) as H1.
  pose proof (collate_range_snd sdt item false) as H2.
  destruct (collate_range sdt item false) as [l f]. simpl in *. by subst.
Qed.

Lemma bump_value item t : Tracker_Value (bump item t) = Tracker_Value t.
Proof. unfold bump. by destruct (DeepEqual _ _). Qed.

Lemma bump_values item sdt :
  Tracker_Value <$> (bump item <$> sdt) = Tracker_Value <$> sdt.
Proof.
  rewrite <- list_fmap_compose. apply list_fmap_ext. intros ? t _. apply bump_value.
Qed.

Lemma bump_absent item sdt :
  item ∉ Tracker_Value <$> sdt → bump item <$> sdt = sdt.
Proof.
  induction sdt as [|t sdt IH]; simpl; [done|].
  rewrite not_elem_of_cons. intros [Hne Hnin].
  unfold bump at 1. destruct (DeepEqual _ _) eqn:E.
  - apply DeepEqual_true in E. congruence.
  - f_equal. by apply IH.
Qed.

Lemma pairwise_distinct_NoDup sdt :
  pairwise_distinct sdt ↔ NoDup (Tracker_Value <$> sdt).
Proof.
  rewrite NoDup_alt. unfold pairwise_distinct. split.
  - intros H i j v Hi Hj.
    rewrite list_lookup_fmap in Hi, Hj.
    destruct (sdt !! i) as [ti|] eqn:Ei; [|done].
    destruct (sdt !! j) as [tj|] eqn:Ej; [|done].
    simpl in *. destruct (decide (i = j)) as [|Hne]; [done|].
    specialize (H i j ti tj Ei Ej Hne). apply DeepEqual_false in H. congruence.
  - intros H i j ti tj Hi Hj Hne. apply DeepEqual_false. intros Heq.
    apply Hne, (H i j (Tracker_Value ti)); rewrite list_lookup_fmap.
    + by rewrite Hi.
    + rewrite Hj. simpl. by rewrite Heq.
Qed.

Lemma matching_absent item sdt :
  item ∉ Tracker_Value <$> sdt → matching_trackers sdt item = [].
Proof.
  unfold matching_trackers. induction sdt as [|t sdt IH]; simpl; [done|].
  rewrite not_elem_of_cons. intros [Hne Hnin].
  rewrite filter_cons_False; [by apply IH|].
  intros H. apply Is_true_true, DeepEqual_true in H. congruence.
Qed.

Lemma matching_once item sdt :
  NoDup (Tracker_Value <$> sdt) → item ∈ Tracker_Value <$> sdt →
  length (matching_trackers sdt item) = 1%nat.
Proof.
  unfold matching_trackers. induction sdt as [|t sdt IH]; simpl.
  - intros _ H. by apply elem_of_nil in H.
  - rewrite NoDup_cons, elem_of_cons. intros [Hnin Hnd] Hin.
    destruct (decide (Tracker_Value t = item)) as [Heq|Hne].
    + rewrite filter_cons_True by (by apply Is_true_true, DeepEqual_true).
      subst item. simpl. f_equal.
      fold (matching_trackers sdt (Tracker_Value t)).
      by rewrite matching_absent.
    + rewrite filter_cons_False.
      * apply IH; [done|]. destruct Hin as [?|?]; [congruence|done].
      * intros H. by apply Is_true_true, DeepEqual_true in H.
Qed.

Lemma matching_values item sdt sdt' :
  Tracker_Value <$> sdt' = Tracker_Value <$> sdt →
  length (matching_trackers sdt' item) = length (matching_trackers sdt item).
Proof.
  unfold matching_trackers. revert sdt'.
  induction sdt as [|t sdt IH]; intros [|t' sdt']; simpl; try done.
  intros [= Hv Hrest].
  destruct (DeepEqual (Tracker_Value t) item) eqn:E.
  - rewrite !filter_cons_True by (apply Is_true_true; congruence).
    simpl. f_equal. by apply IH.
  - rewrite !filter_cons_False by (rewrite Is_true_true; congruence).
    by apply IH.
Qed.

Lemma go_sum_app sdt t :
  go_sum (sdt ++ [t]) = int_add (go_sum sdt) (Tracker_Count t).
Proof.
  unfold go_sum, int_add. induction sdt as [|t' sdt IH]; simpl.
  - unfold int_add. f_equal. lia.
  - fold go_sum in *. rewrite IH. unfold int_add.
    rewrite wrap_add_r, wrap_add_l. f_equal. lia.
Qed.

Lemma go_sum_wrap sdt : wrap (go_sum sdt) = go_sum sdt.
Proof.
  destruct sdt; simpl; [by apply wrap_small; lia|]. unfold int_add. apply wrap_wrap.
Qed.

Lemma go_sum_bump item sdt :
  NoDup (Tracker_Value <$> sdt) → item ∈ Tracker_Value <$> sdt →
  go_sum (bump item <$> sdt) = int_add (go_sum sdt) 1.
Proof.
  induction sdt as [|t sdt IH]; simpl.
  - intros _ H. by apply elem_of_nil in H.
  - rewrite NoDup_cons, elem_of_cons. intros [Hnin Hnd] Hin. fold_fmap.
    unfold bump at 1. destruct (DeepEqual (Tracker_Value t) item) eqn:E.
    + apply DeepEqual_true in E. subst item. simpl.
      rewrite bump_absent by done. unfold int_add.
      rewrite wrap_add_l, wrap_add_l. f_equal. lia.
    + apply DeepEqual_false in E.
      rewrite IH; [|done|destruct Hin as [?|?]; [congruence|done]].
      unfold int_add. rewrite wrap_add_r, wrap_add_l. f_equal. lia.
Qed.

Lemma count_sum_app sdt t :
  count_sum (sdt ++ [t]) = (count_sum sdt + Tracker_Count t)%Z.
Proof. unfold count_sum. induction sdt; simpl; lia. Qed.

Lemma count_sum_bump item sdt :
  NoDup (Tracker_Value <$> sdt) → item ∈ Tracker_Value <$> sdt →
  (∀ t, t ∈ sdt → (- 2 ^ 63 ≤ Tracker_Count t < max_int)%Z) →
  count_sum (bump item <$> sdt) = (count_sum sdt + 1)%Z.
Proof.
  induction sdt as [|t sdt IH]; simpl.
  - intros _ H. by apply elem_of_nil in H.
  - rewrite NoDup_cons, elem_of_cons. intros [Hnin Hnd] Hin Hrange. fold_fmap.
    unfold bump at 1. destruct (DeepEqual (Tracker_Value t) item) eqn:E.
    + apply DeepEqual_true in E. subst item. simpl.
      rewrite bump_absent by done. unfold int_add.
      rewrite wrap_small; [lia|].
      specialize (Hrange t ltac:(left)). unfold max_int in Hrange. lia.
    + apply DeepEqual_false in E.
      rewrite IH; [lia|done|destruct Hin as [?|?]; [congruence|done]|].
      intros t' Ht'. apply Hrange. by right.
Qed.

(** C10.  [collateSubmittedData] keeps the tracker values pairwise distinct:
    for a tracker list whose values are pairwise not deep-equal and any new
    item, the returned list again has pairwise not deep-equal values, the sum
    of the counts (as Go adds them) grows by exactly one, and exactly one
    tracker of the result holds a value deep-equal to the item.  When the
    counts are below the largest [int], the sum grows by one as an integer
    too. *)
Theorem collateSubmittedData_invariant
    (sdt : list SubmittedDataTracker) (item : SubmittedData) :
  pairwise_distinct sdt →
  pairwise_distinct (collateSubmittedData sdt item)
  ∧ go_sum (collateSubmittedData sdt item) = int_add (go_sum sdt) 1
  ∧ length (matching_trackers (collateSubmittedData sdt item) item) = 1%nat
  ∧ ((∀ t, t ∈ sdt → (- 2 ^ 63 ≤ Tracker_Count t < max_int)%Z) →
     count_sum (collateSubmittedData sdt item) = (count_sum sdt + 1)%Z).
Proof.
  intros Hd. apply pairwise_distinct_NoDup in Hd.
  rewrite collate_unfold. case_bool_decide as Hin.
  - split; [|split; [|split]].
    + apply pairwise_distinct_NoDup. by rewrite bump_values.
    + by apply go_sum_bump.
    + rewrite (matching_values item sdt) by apply bump_values.
      by apply matching_once.
    + intros Hr. by apply count_sum_bump.
  - rewrite bump_absent by done.
    split; [|split; [|split]].
    + apply pairwise_distinct_NoDup. rewrite fmap_app. simpl.
      apply NoDup_app. split; [done|]. split; [|apply NoDup_singleton].
      intros v Hv Hv'. apply list_elem_of_singleton in Hv'. by subst.
    + by rewrite go_sum_app.
    + unfold matching_trackers. rewrite filter_app.
      fold (matching_trackers sdt item). rewrite matching_absent by done.
      rewrite filter_cons_True; [done|]. simpl. by apply Is_true_true, DeepEqual_true.
    + intros _. by rewrite count_sum_app.
Qed.

Lemma collateSubmittedData_invariant_witness :
  let sdt := [mkTracker (Some {["category" := VStr "usable"]}) 1;
              mkTracker None 2] in
  let item : SubmittedData := Some {["category" := VStr "usable"]} in
  pairwise_distinct sdt
  ∧ go_sum (collateSubmittedData sdt item) = 4%Z
  ∧ length (matching_trackers (collateSubmittedData sdt item) item) = 1%nat.
Proof.
  intros sdt item.
  assert (Hd : pairwise_distinct sdt).
  { apply pairwise_distinct_NoDup. subst sdt. rewrite !fmap_cons, fmap_nil.
    apply NoDup_cons. split; [|apply NoDup_singleton].
    rewrite list_elem_of_singleton. discriminate. }
  split; [exact Hd|].
  destruct (collateSubmittedData_invariant sdt item Hd) as (_ & Hs & Hm & _).
  split; [|exact Hm].
  rewrite Hs. vm_compute. reflexivity.
Defined.

(** ** Rules for [wp] *)

Lemma wp_mono {A} (m : M A) (Q Q' : res A → Server → Prop) s :
  wp m Q' s → (∀ r s', Q' r s' → Q r s') → wp m Q s.
Proof. unfold wp. auto. Qed.

Lemma wp_ret {A} (a : A) Q s : Q (Ok a) s → wp (ret a) Q s.
Proof. done. Qed.

Lemma wp_fail {A} e (Q : res A → Server → Prop) s : Q (Err e) s → wp (fail e) Q s.
Proof. done. Qed.

Lemma wp_bind {A B} (m : M A) (k : A → M B) Q s :
  wp m (λ r s', match r with Ok a => wp (k a) Q s' | Err e => Q (Err e) s' end) s →
  wp (bind m k) Q s.
Proof. unfold wp, bind. by destruct (m s) as [[a|e] s']. Qed.

Lemma wp_attempt {A} (m : M A) Q s :
  wp m (λ r s', Q (Ok r) s') s → wp (attempt m) Q s.
Proof. unfold wp, attempt. by destruct (m s). Qed.

Lemma wp_active_project Q s :
  Q (Ok (ActiveProjectId s)) s → wp active_project Q s.
Proof. done. Qed.

Lemma wp_set_active_project p Q s :
  Q (Ok tt) (set_ActiveProjectId p s) → wp (set_active_project p) Q s.
Proof. done. Qed.

Lemma wp_call r Q s :
  (es_fault (EsConn s) r = true → Q (Err EStore) s) →
  (es_fault (EsConn s) r = false → Q (Ok tt) s) →
  wp (call r) Q s.
Proof. unfold wp, call. destruct (es_fault _ _); auto. Qed.

Lemma wp_GetSource `{DocType D} (id : string) (Q : res D → Server → Prop) s :
  (es_fault (EsConn s) (RGetSource (type_name (D:=D)) id) = true → Q (Err EStore) s) →
  (es_fault (EsConn s) (RGetSource (type_name (D:=D)) id) = false →
   match docs_of (EsConn s) !! id with
   | Some d => Q (Ok d) s
   | None => Q (Err ENotFound) s
   end) →
  wp (GetSource id) Q s.
Proof.
  intros Hf Hok. unfold GetSource. apply wp_bind, wp_call; [done|].
  intros Hnf. specialize (Hok Hnf). unfold wp. by destruct (_ !! id).
Qed.

Lemma wp_ExistsBool `{DocType D} (id : string) Q s :
  (es_fault (EsConn s) (RExists (type_name (D:=D)) id) = true → Q (Ok false) s) →
  (es_fault (EsConn s) (RExists (type_name (D:=D)) id) = false →
   Q (Ok (bool_decide (is_Some (docs_of (D:=D) (EsConn s) !! id)))) s) →
  wp (ExistsBool (D:=D) id) Q s.
Proof. intros Hf Hok. unfold wp, ExistsBool. destruct (es_fault _ _); auto. Qed.

Lemma wp_Index `{DocType D} (id : string) (d : D) Q s :
  (es_fault (EsConn s) (RIndex (type_name (D:=D)) id) = true → Q (Err EStore) s) →
  (es_fault (EsConn s) (RIndex (type_name (D:=D)) id) = false →
   Q (Ok (store_doc id d (EsConn s)).1) (set_EsConn (store_doc id d (EsConn s)).2 s)) →
  wp (Index id d) Q s.
Proof.
  intros Hf Hok. unfold Index. apply wp_bind, wp_call; [done|]. intros Hnf. by apply Hok.
Qed.

Lemma wp_Search `{DocType D} (q : query) (Q : res (SearchResult D) → Server → Prop) s :
  (es_fault (EsConn s) (RSearch (type_name (D:=D)) q) = true → Q (Err EStore) s) →
  (es_fault (EsConn s) (RSearch (type_name (D:=D)) q) = false →
   Q (Ok (run_search q (EsConn s))) s) →
  wp (Search q) Q s.
Proof.
  intros Hf Hok. unfold Search. apply wp_bind, wp_call; [done|]. intros Hnf. by apply Hok.
Qed.

Lemma wp_SearchAggs `{DocType D} (q : query) group min_doc_count size Q s :
  (es_fault (EsConn s) (RSearch (type_name (D:=D)) q) = true → Q (Err EStore) s) →
  (es_fault (EsConn s) (RSearch (type_name (D:=D)) q) = false →
   Q (Ok (run_aggregation (D:=D) q group min_doc_count size (EsConn s))) s) →
  wp (SearchAggs (D:=D) q group min_doc_count size) Q s.
Proof.
  intros Hf Hok. unfold SearchAggs. apply wp_bind, wp_call; [done|]. intros Hnf. by apply Hok.
Qed.

Lemma wp_Count `{DocType D} Q s :
  (es_fault (EsConn s) (RCount (type_name (D:=D))) = true → Q (Err EStore) s) →
  (es_fault (EsConn s) (RCount (type_name (D:=D))) = false →
   Q (Ok (size (docs_of (D:=D) (EsConn s)))) s) →
  wp (Count (D:=D)) Q s.
Proof.
  intros Hf Hok. unfold Count. apply wp_bind, wp_call; [done|]. intros Hnf. by apply Hok.
Qed.

Lemma wp_Refresh Q s :
  (es_fault (EsConn s) RRefresh = true → Q (Err EStore) s) →
  (es_fault (EsConn s) RRefresh = false → Q (Ok tt) s) →
  wp Refresh Q s.
Proof. apply wp_call. Qed.

Lemma wp_Intn n Q s :
  (∀ i rest, Q (Ok i) (mkServer (ActiveProjectId s) (EsConn s) rest)) →
  Q (Ok 0%nat) s →
  wp (Intn n) Q s.
Proof. intros H1 H2. unfold wp, Intn. destruct (Rand s); [done|apply H1]. Qed.

(** One step of symbolic execution. *)
Ltac wp_step :=
  lazymatch goal with
  | |- wp (bind _ _) _ _ => apply wp_bind
  | |- wp (ret _) _ _ => apply wp_ret
  | |- wp (fail _) _ _ => apply wp_fail
  | |- wp (attempt _) _ _ => apply wp_attempt
  | |- wp active_project _ _ => apply wp_active_project
  | |- wp (set_active_project _) _ _ => apply wp_set_active_project
  | |- wp (GetSource _) _ _ => apply wp_GetSource; intros ?
  | |- wp (FindTask _) _ _ => apply wp_GetSource; intros ?
  | |- wp (FindAsset _) _ _ => apply wp_GetSource; intros ?
  | |- wp (ExistsBool _) _ _ => apply wp_ExistsBool; intros ?
  | |- wp (Index _ _) _ _ => apply wp_Index; intros ?
  | |- wp (Search _) _ _ => apply wp_Search; intros ?
  | |- wp (SearchAggs _ _ _ _) _ _ => apply wp_SearchAggs; intros ?
  | |- wp Count _ _ => apply wp_Count; intros ?
  | |- wp Refresh _ _ => apply wp_Refresh; intros ?
  | |- wp (Intn _) _ _ => apply wp_Intn; [intros ? ?|]
  | |- wp (let _ := _ in _) _ _ => cbv zeta
  | |- wp (if ?b then _ else _) _ _ => destruct b eqn:?
  | |- wp (match ?x with _ => _ end) _ _ => destruct x eqn:?
  | |- match ?x with _ => _ end => destruct x eqn:?
  end; cbv beta iota.

(** ** Projections of the store after a write *)

Ltac store_proj := intros; unfold store_doc; by destruct (String.eqb _ _).
Lemma store_Task_tasks (id : string) (d : Task) e :
  es_tasks (store_doc id d e).2 = <[(store_doc id d e).1 := doc_json d]> (es_tasks e).
Proof. store_proj. Qed.
Lemma store_Task_assets (id : string) (d : Task) e :
  es_assets (store_doc id d e).2 = es_assets e.
Proof. store_proj. Qed.
Lemma store_Task_assignments (id : string) (d : Task) e :
  es_assignments (store_doc id d e).2 = es_assignments e.
Proof. store_proj. Qed.
Lemma store_Task_users (id : string) (d : Task) e :
  es_users (store_doc id d e).2 = es_users e.
Proof. store_proj. Qed.
Lemma store_Task_fault (id : string) (d : Task) e :
  es_fault (store_doc id d e).2 = es_fault e.
Proof. store_proj. Qed.
Lemma store_Asset_tasks (id : string) (d : Asset) e :
  es_tasks (store_doc id d e).2 = es_tasks e.
Proof. store_proj. Qed.
Lemma store_Asset_assets (id : string) (d : Asset) e :
  es_assets (store_doc id d e).2 = <[(store_doc id d e).1 := doc_json d]> (es_assets e).
Proof. store_proj. Qed.
Lemma store_Asset_assignments (id : string) (d : Asset) e :
  es_assignments (store_doc id d e).2 = es_assignments e.
Proof. store_proj. Qed.
Lemma store_Asset_users (id : string) (d : Asset) e :
  es_users (store_doc id d e).2 = es_users e.
Proof. store_proj. Qed.
Lemma store_Asset_fault (id : string) (d : Asset) e :
  es_fault (store_doc id d e).2 = es_fault e.
Proof. store_proj. Qed.
Lemma store_Assignment_tasks (id : string) (d : Assignment) e :
  es_tasks (store_doc id d e).2 = es_tasks e.
Proof. store_proj. Qed.
Lemma store_Assignment_assets (id : string) (d : Assignment) e :
  es_assets (store_doc id d e).2 = es_assets e.
Proof. store_proj. Qed.
Lemma store_Assignment_assignments (id : string) (d : Assignment) e :
  es_assignments (store_doc id d e).2 = <[(store_doc id d e).1 := doc_json d]> (es_assignments e).
Proof. store_proj. Qed.
Lemma store_Assignment_users (id : string) (d : Assignment) e :
  es_users (store_doc id d e).2 = es_users e.
Proof. store_proj. Qed.
Lemma store_Assignment_fault (id : string) (d : Assignment) e :
  es_fault (store_doc id d e).2 = es_fault e.
Proof. store_proj. Qed.
Lemma store_User_tasks (id : string) (d : User) e :
  es_tasks (store_doc id d e).2 = es_tasks e.
Proof. store_proj. Qed.
Lemma store_User_assets (id : string) (d : User) e :
  es_assets (store_doc id d e).2 = es_assets e.
Proof. store_proj. Qed.
Lemma store_User_assignments (id : string) (d : User) e :
  es_assignments (store_doc id d e).2 = es_assignments e.
Proof. store_proj. Qed.
Lemma store_User_users (id : string) (d : User) e :
  es_users (store_doc id d e).2 = <[(store_doc id d e).1 := doc_json d]> (es_users e).
Proof. store_proj. Qed.
Lemma store_User_fault (id : string) (d : User) e :
  es_fault (store_doc id d e).2 = es_fault e.
Proof. store_proj. Qed.
Lemma store_doc_id `{DocType D} (id : string) (d : D) e :
  id ≠ "" → (store_doc id d e).1 = id.
Proof.
  intros Hne. unfold store_doc. destruct (String.eqb id "") eqn:E; [|done].
  by apply String.eqb_eq in E.
Qed.

Lemma EsConn_set e s : EsConn (set_EsConn e s) = e.
Proof. done. Qed.

Lemma ActiveProjectId_set_EsConn e s : ActiveProjectId (set_EsConn e s) = ActiveProjectId s.
Proof. done. Qed.

Lemma EsConn_set_ActiveProjectId p s : EsConn (set_ActiveProjectId p s) = EsConn s.
Proof. done. Qed.

Create Rewrite HintDb store.
#[global] Hint Rewrite EsConn_set ActiveProjectId_set_EsConn EsConn_set_ActiveProjectId : store.
#[global] Hint Rewrite store_Task_tasks store_Task_assets store_Task_assignments store_Task_users store_Task_fault store_Asset_tasks store_Asset_assets store_Asset_assignments store_Asset_users store_Asset_fault
  store_Assignment_tasks store_Assignment_assets store_Assignment_assignments store_Assignment_users store_Assignment_fault store_User_tasks store_User_assets store_User_assignments store_User_users store_User_fault : store.

Lemma same_but_users_refl s : same_but_users s s.
Proof. by repeat split. Qed.

Lemma same_but_users_trans s1 s2 s3 :
  same_but_users s1 s2 → same_but_users s2 s3 → same_but_users s1 s3.
Proof. unfold same_but_users. intros (?&?&?&?&?) (?&?&?&?&?). repeat split; congruence. Qed.

Lemma same_but_users_store (id : string) (u : User) s :
  same_but_users s (set_EsConn (store_doc id u (EsConn s)).2 s).
Proof. unfold same_but_users. by autorewrite with store. Qed.

Lemma same_but_users_rand s r :
  same_but_users s (mkServer (ActiveProjectId s) (EsConn s) r).
Proof. by repeat split. Qed.

Lemma healthy_same s s' : same_but_users s s' → healthy s → healthy s'.
Proof. intros (_&_&_&_&Hf) H r. rewrite Hf. apply H. Qed.

Ltac solve_same :=
  match goal with
  | |- same_but_users ?s ?s => apply same_but_users_refl
  | H : same_but_users ?s ?s' |- same_but_users ?s ?s' => exact H
  | |- same_but_users ?s (set_EsConn (store_doc _ _ (EsConn ?s1)).2 ?s1) =>
      eapply same_but_users_trans; [|apply same_but_users_store]; solve_same
  | |- same_but_users ?s (mkServer (ActiveProjectId ?s1) (EsConn ?s1) _) =>
      eapply same_but_users_trans; [|apply same_but_users_rand]; solve_same
  | H : same_but_users ?s1 ?s' |- same_but_users ?s ?s' =>
      eapply same_but_users_trans; [|exact H]; solve_same
  end.

(** A store call cannot have failed in a healthy state. *)
Ltac healthy_contra :=
  autorewrite with store in *;
  match goal with
  | H : es_fault (EsConn ?s') _ = true, Hh : healthy ?s' |- _ =>
      rewrite Hh in H; discriminate
  | H : es_fault (EsConn ?s') _ = true, Hh : healthy ?s |- _ =>
      let Hh' := fresh in
      assert (healthy s') as Hh' by (eapply healthy_same; [|exact Hh]; solve_same);
      rewrite Hh' in H; discriminate
  end.

(** ** Looking a user up or creating one *)

Ltac wp_use lem := eapply wp_mono; [apply lem | cbv beta; intros ? ?].

(** Closes a goal [same_but_users s s' ∧ (healthy s → ∃ x, r = Ok x)]. *)
Ltac frame_leaf :=
  split; [solve_same | let Hh := fresh "Hh" in intros Hh; first [by eauto | healthy_contra]].

Lemma FindTasks_spec p s :
  wp (FindTasks p) (λ r s', s' = s ∧ (healthy s → ∃ l, r = Ok l)) s.
Proof.
  unfold FindTasks. repeat wp_step; (split; [done|]); intros Hh; eauto.
  healthy_contra.
Qed.

Lemma store_new_user_spec u s :
  wp (store_new_user u)
    (λ r s', same_but_users s s' ∧ (healthy s → ∃ u', r = Ok u')) s.
Proof.
  unfold store_new_user. wp_step. wp_step. wp_use FindTasks_spec. intros [-> _].
  repeat wp_step; frame_leaf.
Qed.

Lemma CreateUser_spec body s :
  wp (CreateUser body)
    (λ r s', same_but_users s s' ∧ (healthy s → ∃ u', r = Ok u')) s.
Proof. unfold CreateUser. repeat wp_step. apply store_new_user_spec. Qed.

Lemma CreateUserFromMissingCookieValue_spec userId s :
  wp (CreateUserFromMissingCookieValue userId)
    (λ r s', same_but_users s s' ∧ (healthy s → ∃ u', r = Ok u')) s.
Proof. unfold CreateUserFromMissingCookieValue. repeat wp_step. apply store_new_user_spec. Qed.

Lemma FindUser_spec id s :
  wp (FindUser id)
    (λ r s', same_but_users s s' ∧ (healthy s → ∃ o, r = Ok o)) s.
Proof.
  unfold FindUser. wp_step.
  - wp_step. wp_step. wp_step. wp_use CreateUser_spec. intros [Hs Hh].
    destruct r as [u|e]; [wp_step|]; (split; [done|]); intros H';
      destruct (Hh H') as [? ?]; simplify_eq; eauto.
  - wp_step. wp_step. wp_step.
    + repeat wp_step; frame_leaf.
    + wp_step.
      * wp_step. wp_step. wp_use FindTasks_spec. intros [-> _].
        repeat wp_step; frame_leaf.
      * repeat wp_step; try frame_leaf.
        exfalso. match goal with H : bool_decide _ = true |- _ =>
          apply bool_decide_eq_true in H; rewrite Heqo in H; by destruct H end.
Qed.

Lemma find_or_create_user_spec userId s :
  wp (find_or_create_user userId)
    (λ r s', same_but_users s s' ∧ (healthy s → ∃ user, r = Ok user)) s.
Proof.
  unfold find_or_create_user. wp_step. wp_step. wp_use FindUser_spec. intros [Hs Hh].
  assert (Hcreate :
    wp (let* c := attempt (CreateUserFromMissingCookieValue userId) in
        match c with
        | Ok user => ret user
        | Err _ =>
            fail (EMsg "Assignments can't be created without a user: failed creating a new anon user")
        end)
      (λ r0 s'0, same_but_users s s'0 ∧ (healthy s → ∃ user, r0 = Ok user)) s').
  { wp_step. wp_step. wp_use CreateUserFromMissingCookieValue_spec. intros [Hs' Hh'].
    destruct r0 as [u|e]; wp_step; (split; [by eapply same_but_users_trans|]);
      intros H'; eauto.
    destruct (Hh' (healthy_same _ _ Hs H')) as [? ?]. done. }
  destruct r as [[u|]|e]; [wp_step; eauto|done|done].
Qed.

(** ** Allocation and the state of the task *)

(** The request without an asset hint ([CreateAssignment]) keeps the
    precondition on the task: if the task is not in state "available" the
    request fails, no assignment is created and no work-item counts change.
    When no call into the store fails, the error is "Invalid task". *)
Theorem CreateAssignment_task_unavailable
    (s : Server) (taskId userId : string) (task : Task) :
  es_tasks (EsConn s) !! taskId = Some task →
  Task_CurrentState task ≠ "available" →
  (∃ e, (CreateAssignment taskId userId s).1 = Err e
        ∧ (healthy s → e = EMsg "Invalid task"))
  ∧ es_assignments (EsConn (CreateAssignment taskId userId s).2)
    = es_assignments (EsConn s)
  ∧ es_assets (EsConn (CreateAssignment taskId userId s).2) = es_assets (EsConn s).
Proof.
  intros Htask Hstate.
  change (wp (CreateAssignment taskId userId)
            (λ r s', (∃ e, r = Err e ∧ (healthy s → e = EMsg "Invalid task"))
                     ∧ es_assignments (EsConn s') = es_assignments (EsConn s)
                     ∧ es_assets (EsConn s') = es_assets (EsConn s)) s).
  unfold CreateAssignment. wp_step. wp_use find_or_create_user_spec.
  intros [Hs Hh]. pose proof Hs as (Hp & Ht & Ha & Hx & Hf).
  destruct r as [user|e].
  - wp_step. wp_step.
    + split; [|done]. eexists. split; [done|]. intros H'.
      pose proof (healthy_same _ _ Hs H'). healthy_contra.
    + change (docs_of (EsConn s') !! taskId) with (es_tasks (EsConn s') !! taskId).
      rewrite Ht, Htask. wp_step.
      * wp_step. split; [|done]. eauto.
      * exfalso. apply negb_false_iff, String.eqb_eq in Heqb. done.
  - split; [|done]. eexists. split; [done|]. intros H'.
    destruct (Hh H') as [? ?]. done.
Qed.

Lemma CreateAssignment_task_unavailable_witness :
  es_tasks (EsConn c7_server) !! "p-oi" = Some c7_task
  ∧ Task_CurrentState c7_task ≠ "available"
  ∧ (∃ e, (CreateAssignment "p-oi" "w1" c7_server).1 = Err e
          ∧ (healthy c7_server → e = EMsg "Invalid task")).
Proof.
  assert (H1 : es_tasks (EsConn c7_server) !! "p-oi" = Some c7_task) by reflexivity.
  assert (H2 : Task_CurrentState c7_task ≠ "available") by (simpl; discriminate).
  split; [exact H1|]. split; [exact H2|].
  exact (proj1 (CreateAssignment_task_unavailable c7_server "p-oi" "w1" c7_task H1 H2)).
Defined.

(** C7 fails for a request with an asset hint.  [CreateAssetAssignment]
    never loads the task, so it has no check of the task's state, the check
    [CreateAssignment] makes.  Here the task is in state "waiting" (what
    [DisableTaskHandler] sets to make it unavailable for assignment): the
    request succeeds, stores a new unfinished assignment and raises the
    Assignments count of the work item from 0 to 1. *)
Lemma CreateAssetAssignment_ignores_task_state :
  Task_CurrentState c7_task = "waiting"
  ∧ es_tasks (EsConn c7_server) !! "p-oi" = Some c7_task
  ∧ match CreateAssetAssignment "p-oi" "w1" "a1" c7_server with
    | (Ok a, s') =>
        Assignment_State a = "unfinished"
        ∧ Assignment_State <$> es_assignments (EsConn s') !! Assignment_Id a
          = Some "unfinished"
        ∧ es_assignments (EsConn c7_server) !! Assignment_Id a = None
        ∧ (λ x, count_get (Asset_Counts x) "Assignments")
            <$> es_assets (EsConn s') !! "a1" = Some 1%Z
        ∧ (λ x, count_get (Asset_Counts x) "Assignments")
            <$> es_assets (EsConn c7_server) !! "a1" = Some 0%Z
    | (Err _, _) => False
    end.
Proof. vm_compute. repeat split; reflexivity. Qed.

(** ** What a search returns *)

Lemma sort_hits_perm `{DocType D} (q : query) (l : list (string * D)) :
  sort_hits q l ≡ₚ l.
Proof.
  unfold sort_hits. destruct (q_sort q) as [[f dir]|]; [|done].
  destruct (String.eqb dir "desc"); apply merge_sort_Permutation.
Qed.

Lemma elem_of_all_hits `{DocType D} (q : query) e id (d : D) :
  (id, d) ∈ all_hits q e ↔ docs_of e !! id = Some d ∧ matches q d = true.
Proof.
  unfold all_hits. rewrite list_elem_of_filter, elem_of_map_to_list. simpl.
  rewrite Is_true_true. tauto.
Qed.

Lemma run_search_hits `{DocType D} (q : query) e id (d : D) :
  (id, d) ∈ Hits_Hits (run_search q e) →
  docs_of e !! id = Some d ∧ matches q d = true.
Proof.
  unfold run_search. simpl. intros Hin.
  apply subseteq_take, subseteq_drop in Hin.
  rewrite sort_hits_perm in Hin. by apply elem_of_all_hits.
Qed.

(** ** The counts of a work item *)

Lemma lookup_fresh_asset_counts_size a u : size (fresh_asset_counts a u) ≠ 0%nat.
Proof.
  unfold fresh_asset_counts. intros Hs. apply map_size_empty_inv in Hs.
  by apply insert_non_empty in Hs.
Qed.

Lemma count_get_incr_eq k (c : Counts) :
  count_get (count_incr k c) k = int_add (count_get c k) 1.
Proof. unfold count_incr, count_get at 1. by rewrite lookup_insert_eq. Qed.

Lemma count_get_incr_ne k k' (c : Counts) :
  k ≠ k' → count_get (count_incr k c) k' = count_get c k'.
Proof. intros. unfold count_incr, count_get. by rewrite lookup_insert_ne. Qed.

Lemma count_get_decr_eq k (c : Counts) :
  count_get (count_decr k c) k = int_sub (count_get c k) 1.
Proof. unfold count_decr, count_get at 1. by rewrite lookup_insert_eq. Qed.

Lemma count_get_decr_ne k k' (c : Counts) :
  k ≠ k' → count_get (count_decr k c) k' = count_get c k'.
Proof. intros. unfold count_decr, count_get. by rewrite lookup_insert_ne. Qed.

Ltac counts_simpl :=
  repeat first
    [ rewrite count_get_incr_eq
    | rewrite count_get_decr_eq
    | rewrite count_get_incr_ne by discriminate
    | rewrite count_get_decr_ne by discriminate ].

(** Arithmetic modulo the size of [int]. *)
Ltac wrap_lia :=
  unfold int_add, int_sub, wrap in *;
  change (2 ^ 63)%Z with 9223372036854775808%Z in *;
  change (2 ^ 64)%Z with 18446744073709551616%Z in *;
  Z.to_euclidean_division_equations; lia.

Lemma counts_invariant_create (c : Counts) :
  (size c ≠ 0%nat → counts_invariant c) →
  counts_invariant (count_incr "unfinished" (count_incr "Assignments" (init_counts 0 0 c))).
Proof.
  intros Hc. unfold init_counts. destruct (size c =? 0)%nat eqn:E.
  - vm_compute. reflexivity.
  - apply Nat.eqb_neq in E. specialize (Hc E).
    unfold counts_invariant in *. counts_simpl. rewrite Hc. wrap_lia.
Qed.

Lemma counts_invariant_update (st : string) (c : Counts) :
  st = "finished" ∨ st = "skipped" →
  (size c ≠ 0%nat → counts_invariant c) →
  counts_invariant (count_decr "unfinished" (count_incr st (init_counts 1 1 c))).
Proof.
  intros Hst Hc. unfold init_counts. destruct (size c =? 0)%nat eqn:E.
  - destruct Hst as [-> | ->]; vm_compute; reflexivity.
  - apply Nat.eqb_neq in E. specialize (Hc E).
    unfold counts_invariant in *.
    destruct Hst as [-> | ->]; counts_simpl; rewrite Hc; wrap_lia.
Qed.

Lemma store_counts_ok_same s s' :
  same_but_users s s' → store_counts_ok s → store_counts_ok s'.
Proof. intros (_&_&Ha&_) H id a. rewrite Ha. apply H. Qed.

Lemma store_counts_ok_asset (id : string) (a : Asset) s :
  store_counts_ok s → asset_counts_ok a →
  store_counts_ok (set_EsConn (store_doc id a (EsConn s)).2 s).
Proof.
  intros Hs Ha id' a'. autorewrite with store.
  destruct (decide ((store_doc id a (EsConn s)).1 = id')) as [->|Hne].
  - rewrite lookup_insert_eq. intros [= <-]. exact Ha.
  - rewrite lookup_insert_ne by done. apply Hs.
Qed.

Lemma store_counts_ok_assignment (id : string) (x : Assignment) s :
  store_counts_ok s → store_counts_ok (set_EsConn (store_doc id x (EsConn s)).2 s).
Proof. intros Hs id' a'. autorewrite with store. apply Hs. Qed.

Lemma asset_counts_ok_create (a : Asset) :
  asset_counts_ok a →
  asset_counts_ok
    (set_Asset_Counts
       (count_incr "unfinished" (count_incr "Assignments" (init_counts 0 0 (Asset_Counts a))))
       a).
Proof. intros Ha _. by apply counts_invariant_create. Qed.

Lemma asset_counts_ok_update (st : string) (a : Asset) :
  st = "finished" ∨ st = "skipped" →
  asset_counts_ok a →
  asset_counts_ok
    (set_Asset_Counts
       (count_decr "unfinished" (count_incr st (init_counts 1 1 (Asset_Counts a)))) a).
Proof. intros Hst Ha _. by apply counts_invariant_update. Qed.

(** ** The lifecycle keeps the counts invariant *)

Lemma FindAssignmentAsset_spec task user s :
  wp (FindAssignmentAsset task user)
    (λ r s', same_but_users s s'
             ∧ ∀ a, r = Ok a → ∃ id, es_assets (EsConn s) !! id = Some a) s.
Proof.
  unfold FindAssignmentAsset.
  repeat wp_step; (split; [solve_same|]); intros a' Heq; simplify_eq.
  all: match goal with
       | H : Hits_Hits (run_search ?q ?e) !! _ = Some ?hit |- _ =>
           apply list_elem_of_lookup_2 in H; destruct hit as [id a];
           apply run_search_hits in H as [H _]; by exists id
       end.
Qed.

(** Uses the specification of the function the execution has reached. *)
Ltac wp_spec :=
  lazymatch goal with
  | |- wp (FindTasks _) _ _ => wp_use FindTasks_spec; intros [-> _]
  | |- wp (FindUser _) _ _ => wp_use FindUser_spec; intros [? ?]
  | |- wp (find_or_create_user _) _ _ => wp_use find_or_create_user_spec; intros [? ?]
  | |- wp (FindAssignmentAsset _ _) _ _ => wp_use FindAssignmentAsset_spec; intros [? ?]
  end.

Ltac wp_go := repeat first [wp_step | wp_spec].

Ltac counts_ok :=
  match goal with
  | |- store_counts_ok _ => assumption
  | |- asset_counts_ok _ => assumption
  | |- asset_counts_ok (set_Asset_Counts (count_incr _ (count_incr _ (init_counts 0 0 _))) _) =>
      apply asset_counts_ok_create; counts_ok
  | |- asset_counts_ok (set_Asset_Counts (count_decr _ (count_incr _ (init_counts 1 1 _))) _) =>
      apply asset_counts_ok_update; [assumption | counts_ok]
  | |- store_counts_ok (set_EsConn (store_doc _ _ (EsConn _)).2 _) =>
      first [ apply store_counts_ok_asset; counts_ok
            | apply store_counts_ok_assignment; counts_ok
            | eapply store_counts_ok_same; [apply same_but_users_store|]; counts_ok ]
  | H : same_but_users ?s ?s' |- store_counts_ok ?s' =>
      eapply store_counts_ok_same; [exact H|]; counts_ok
  | Hok : store_counts_ok ?s, H : es_assets (EsConn ?s) !! _ = Some ?a
    |- asset_counts_ok ?a => eapply Hok; exact H
  | Hok : store_counts_ok ?s, H : docs_of (EsConn ?s) !! _ = Some ?a
    |- asset_counts_ok ?a => eapply Hok; exact H
  end.

Lemma CreateAssignment_counts taskId userId s :
  store_counts_ok s → store_counts_ok (CreateAssignment taskId userId s).2.
Proof.
  intros Hok.
  change (wp (CreateAssignment taskId userId) (λ _ s', store_counts_ok s') s).
  unfold CreateAssignment. wp_step. wp_spec.
  assert (Hok' : store_counts_ok s') by counts_ok.
  wp_go; try counts_ok.
  all: match goal with
       | H : ∀ a, Ok ?x = Ok a → _ |- _ => destruct (H x eq_refl) as [? ?]
       end.
  all: counts_ok.
Qed.

Lemma CreateAssetAssignment_counts taskId userId assetId s :
  store_counts_ok s → store_counts_ok (CreateAssetAssignment taskId userId assetId s).2.
Proof.
  intros Hok.
  change (wp (CreateAssetAssignment taskId userId assetId) (λ _ s', store_counts_ok s') s).
  unfold CreateAssetAssignment. wp_step. wp_spec.
  assert (Hok' : store_counts_ok s') by counts_ok.
  wp_go; try counts_ok.
  all: counts_ok.
Qed.

Lemma UpdateAssignment_counts assignment s :
  Assignment_State assignment = "finished" ∨ Assignment_State assignment = "skipped" →
  store_counts_ok s → store_counts_ok (UpdateAssignment assignment s).2.
Proof.
  intros Hst Hok.
  change (wp (UpdateAssignment assignment) (λ _ s', store_counts_ok s') s).
  unfold UpdateAssignment. wp_go; counts_ok.
Qed.

(** C5.  Once the counts of a work item are initialized they satisfy
    [Assignments == finished + skipped + unfinished], and every lifecycle
    operation keeps it so: creating an assignment without an asset hint,
    creating one with a hint, and submitting a finished or a skipped
    assignment. *)
Theorem lifecycle_counts_invariant (s : Server) :
  store_counts_ok s →
  (∀ taskId userId, store_counts_ok (CreateAssignment taskId userId s).2)
  ∧ (∀ taskId userId assetId,
       store_counts_ok (CreateAssetAssignment taskId userId assetId s).2)
  ∧ (∀ assignment,
       Assignment_State assignment = "finished"
       ∨ Assignment_State assignment = "skipped" →
       store_counts_ok (UpdateAssignment assignment s).2).
Proof.
  intros Hok. split; [|split].
  - intros. by apply CreateAssignment_counts.
  - intros. by apply CreateAssetAssignment_counts.
  - intros. by apply UpdateAssignment_counts.
Qed.

Lemma lifecycle_counts_invariant_witness :
  store_counts_ok c7_server
  ∧ store_counts_ok (CreateAssetAssignment "p-oi" "w1" "a1" c7_server).2.
Proof.
  assert (H : store_counts_ok c7_server).
  { intros id a Hl _.
    change (es_assets (EsConn c7_server)) with ({["a1" := c7_asset]} : gmap string Asset) in Hl.
    apply lookup_singleton_Some in Hl as [_ <-]. vm_compute. reflexivity. }
  split; [exact H|].
  exact (proj1 (proj2 (lifecycle_counts_invariant c7_server H)) "p-oi" "w1" "a1").
Defined.

(** ** Favorites *)

Lemma es_gen_id_nonempty n : es_gen_id n ≠ "".
Proof. unfold es_gen_id. done. Qed.

Lemma FindUser_existing id s u :
  healthy s → id ≠ "" → es_users (EsConn s) !! id = Some u →
  wp (FindUser id)
    (λ r s', s' = s ∧ ∃ c, r = Ok (Some (set_User_Counts c u))) s.
Proof.
  intros Hh Hid Hu. unfold FindUser.
  destruct (String.eqb id "") eqn:E; [by apply String.eqb_eq in E|].
  wp_step. wp_step. wp_step; [healthy_contra|].
  change (docs_of (EsConn s) !! id) with (es_users (EsConn s) !! id). rewrite Hu.
  wp_step. wp_step. wp_spec. wp_step; wp_step; (split; [done|]).
  - eauto.
  - exists (User_Counts u). by destruct u.
Qed.

Lemma size_json_favorites (f : gmap string Asset) :
  size (json_asset <$> f) = size f.
Proof. apply map_size_fmap. Qed.

(** One toggle, for a user and an asset that are stored under their ids. *)
Lemma FavoriteHandler_spec project_id asset_id userId s u a :
  healthy s → userId ≠ "" →
  es_users (EsConn s) !! userId = Some u → User_Id u = userId →
  es_assets (EsConn s) !! asset_id = Some a → Asset_Id a = asset_id →
  wp (FavoriteHandler project_id asset_id userId)
    (λ r s',
       healthy s'
       ∧ ∃ u' a',
           es_users (EsConn s') !! userId = Some u' ∧ User_Id u' = userId
           ∧ es_assets (EsConn s') !! asset_id = Some a' ∧ Asset_Id a' = asset_id
           ∧ count_get (User_Counts u') "Favorites"
             = Z.of_nat (size (User_Favorites u'))
           ∧ match User_Favorites u !! asset_id with
             | Some _ =>
                 r = Ok (mkFavoriteResponse asset_id "unfavorited")
                 ∧ dom (User_Favorites u') = dom (User_Favorites u) ∖ {[asset_id]}
             | None =>
                 r = Ok (mkFavoriteResponse asset_id "favorited")
                 ∧ dom (User_Favorites u') = {[asset_id]} ∪ dom (User_Favorites u)
             end) s.
Proof.
  intros Hh Hid Hu Huid Ha Haid. unfold FavoriteHandler.
  wp_step. wp_step. wp_step. wp_step; [healthy_contra|].
  change (docs_of (EsConn (set_ActiveProjectId project_id s)) !! asset_id)
    with (es_assets (EsConn s) !! asset_id). rewrite Ha.
  wp_step. wp_step.
  eapply wp_mono; [apply (FindUser_existing userId _ u); done|].
  cbv beta. intros r s' [-> [c ->]]. cbv beta iota.
  set (s0 := set_ActiveProjectId project_id s).
  assert (Hh0 : healthy s0) by done.
  simpl User_Favorites. rewrite Haid.
  assert (Hstore : ∀ (a1 : Asset) (u1 : User) (act : string),
    Asset_Id a1 = asset_id → User_Id u1 = userId →
    count_get (User_Counts u1) "Favorites" = Z.of_nat (size (User_Favorites u1)) →
    wp (let* _ := Index asset_id a1 in
        let* _ := Index userId u1 in
        ret (mkFavoriteResponse asset_id act))
      (λ r s',
         healthy s'
         ∧ ∃ u' a',
             es_users (EsConn s') !! userId = Some u' ∧ User_Id u' = userId
             ∧ es_assets (EsConn s') !! asset_id = Some a' ∧ Asset_Id a' = asset_id
             ∧ count_get (User_Counts u') "Favorites"
               = Z.of_nat (size (User_Favorites u'))
             ∧ r = Ok (mkFavoriteResponse asset_id act)
             ∧ dom (User_Favorites u') = dom (User_Favorites u1)) s0).
  { intros a1 u1 act Ha1 Hu1 Hc.
    wp_step. wp_step; [healthy_contra|]. wp_step. wp_step; [healthy_contra|]. wp_step.
    split; [intros r; autorewrite with store; apply Hh0|].
    exists (json_user u1).
    destruct (decide (asset_id = "")) as [He|Hne].
    - exists a. autorewrite with store.
      rewrite (store_doc_id userId) by done. rewrite lookup_insert_eq.
      unfold store_doc at 1. subst asset_id. rewrite He. simpl String.eqb. cbv iota.
      rewrite lookup_insert_ne by apply es_gen_id_nonempty.
      change (es_assets (EsConn s0)) with (es_assets (EsConn s)).
      rewrite <- He at 1. rewrite Ha. simpl.
      rewrite size_json_favorites, dom_fmap_L. done.
    - exists (json_asset a1). autorewrite with store.
      rewrite (store_doc_id userId) by done.
      rewrite (store_doc_id asset_id) by done.
      rewrite !lookup_insert_eq. simpl.
      rewrite size_json_favorites, dom_fmap_L. done. }
  destruct (User_Favorites u !! asset_id) as [old|] eqn:Hfav; cbv beta iota zeta;
    simpl Asset_Id; simpl User_Id; rewrite ?Haid, ?Huid.
  - eapply wp_mono; [apply Hstore; simpl; try done|].
    + unfold count_get. by rewrite lookup_insert_eq.
    + cbv beta. intros r s' (Hh' & u' & a' & H1 & H2 & H3 & H4 & H5 & H6 & H7).
      split; [done|]. exists u', a'. do 6 (split; [done|]).
      rewrite H7. simpl. by rewrite dom_delete_L.
  - eapply wp_mono; [apply Hstore; simpl; try done|].
    + unfold count_get. by rewrite lookup_insert_eq.
    + cbv beta. intros r s' (Hh' & u' & a' & H1 & H2 & H3 & H4 & H5 & H6 & H7).
      split; [done|]. exists u', a'. do 6 (split; [done|]).
      rewrite H7. simpl. by rewrite dom_insert_L.
Qed.

(** C9.  For a worker and an asset (both stored under their ids), toggling the
    favorite twice brings the worker's favorites back to the membership they
    started with; the reported [Action] alternates between "favorited" and
    "unfavorited", starting with "favorited" exactly when the asset was not a
    favorite; and after each toggle [Counts["Favorites"]] of the worker is the
    number of entries of the favorites collection. *)
Theorem FavoriteHandler_toggle_twice
    (project_id asset_id userId : string) (s : Server) (u : User) (a : Asset) :
  healthy s → userId ≠ "" →
  es_users (EsConn s) !! userId = Some u → User_Id u = userId →
  es_assets (EsConn s) !! asset_id = Some a → Asset_Id a = asset_id →
  let out1 := FavoriteHandler project_id asset_id userId s in
  let out2 := FavoriteHandler project_id asset_id userId out1.2 in
  ∃ u1 u2 act1 act2,
    es_users (EsConn out1.2) !! userId = Some u1
    ∧ es_users (EsConn out2.2) !! userId = Some u2
    ∧ out1.1 = Ok (mkFavoriteResponse asset_id act1)
    ∧ out2.1 = Ok (mkFavoriteResponse asset_id act2)
    ∧ (match User_Favorites u !! asset_id with
       | Some _ => act1 = "unfavorited" ∧ act2 = "favorited"
       | None => act1 = "favorited" ∧ act2 = "unfavorited"
       end)
    ∧ dom (User_Favorites u2) = dom (User_Favorites u)
    ∧ count_get (User_Counts u1) "Favorites" = Z.of_nat (size (User_Favorites u1))
    ∧ count_get (User_Counts u2) "Favorites" = Z.of_nat (size (User_Favorites u2)).
Proof.
  intros Hh Hid Hu Huid Ha Haid out1 out2.
  pose proof (FavoriteHandler_spec project_id asset_id userId s u a
                Hh Hid Hu Huid Ha Haid) as H1.
  unfold wp in H1. fold out1 in H1.
  destruct H1 as (Hh1 & u1 & a1 & Hu1 & Huid1 & Ha1 & Haid1 & Hc1 & Hact1).
  pose proof (FavoriteHandler_spec project_id asset_id userId out1.2 u1 a1
                Hh1 Hid Hu1 Huid1 Ha1 Haid1) as H2.
  unfold wp in H2. fold out2 in H2.
  destruct H2 as (Hh2 & u2 & a2 & Hu2 & Huid2 & Ha2 & Haid2 & Hc2 & Hact2).
  destruct (User_Favorites u !! asset_id) as [old|] eqn:Hfav.
  - destruct Hact1 as [Hr1 Hd1].
    assert (Hnot : User_Favorites u1 !! asset_id = None).
    { apply not_elem_of_dom. rewrite Hd1. set_solver. }
    rewrite Hnot in Hact2. destruct Hact2 as [Hr2 Hd2].
    exists u1, u2, "unfavorited", "favorited". repeat split; try done.
    rewrite Hd2, Hd1. apply (elem_of_dom_2 (D:=gset string)) in Hfav.
    apply set_eq. intros x. destruct (decide (x = asset_id)); set_solver.
  - destruct Hact1 as [Hr1 Hd1].
    assert (Hin : is_Some (User_Favorites u1 !! asset_id)).
    { apply elem_of_dom. rewrite Hd1. set_solver. }
    destruct Hin as [new Hnew]. rewrite Hnew in Hact2. destruct Hact2 as [Hr2 Hd2].
    exists u1, u2, "favorited", "unfavorited". repeat split; try done.
    rewrite Hd2, Hd1. apply (not_elem_of_dom (D:=gset string)) in Hfav. set_solver.
Qed.

Lemma FavoriteHandler_toggle_twice_witness :
  let out1 := FavoriteHandler "p" "a1" "w1" c9_server in
  let out2 := FavoriteHandler "p" "a1" "w1" out1.2 in
  healthy c9_server
  ∧ out1.1 = Ok (mkFavoriteResponse "a1" "favorited")
  ∧ out2.1 = Ok (mkFavoriteResponse "a1" "unfavorited").
Proof.
  intros out1 out2.
  assert (Hh : healthy c9_server) by (intros r; reflexivity).
  split; [exact Hh|].
  destruct (FavoriteHandler_toggle_twice "p" "a1" "w1" c9_server c9_user c7_asset
              Hh ltac:(discriminate) eq_refl eq_refl eq_refl eq_refl)
    as (u1 & u2 & act1 & act2 & _ & _ & H1 & H2 & [-> ->] & _).
  split; [exact H1|exact H2].
Defined.

(** ** [CompleteAsset] and the [Verified] flag *)

Lemma tasks_query_matches project p (t : Task) :
  matches (tasks_query project p) t = true ↔ Task_Project t = project.
Proof.
  unfold matches, tasks_query. simpl.
  rewrite andb_true_r, andb_true_r, bool_decide_eq_true, list_elem_of_singleton. done.
Qed.

Lemma elem_of_project_tasks s t :
  t ∈ project_tasks s
  ↔ ∃ id, es_tasks (EsConn s) !! id = Some t ∧ Task_Project t = ActiveProjectId s.
Proof.
  unfold project_tasks. rewrite list_elem_of_fmap. split.
  - intros [[id t'] [-> Hin]]. apply elem_of_all_hits in Hin as [Hl Hm].
    exists id. split; [done|]. by apply tasks_query_matches in Hm.
  - intros [id [Hl Hp]]. exists (id, t). split; [done|].
    apply elem_of_all_hits. split; [done|]. by apply tasks_query_matches.
Qed.

Lemma project_task_page_all s :
  (length (project_tasks s) ≤ 10)%nat → project_task_page s ≡ₚ project_tasks s.
Proof.
  unfold project_tasks, project_task_page, run_search. rewrite length_fmap. simpl.
  intros Hlen. rewrite drop_0, take_ge.
  - by rewrite sort_hits_perm.
  - by rewrite sort_hits_perm.
Qed.

Lemma FindTasks_page s :
  healthy s →
  wp (FindTasks task_params) (λ r s', s' = s ∧ r = Ok (project_task_page s)) s.
Proof. intros Hh. unfold FindTasks. repeat wp_step; [healthy_contra|done]. Qed.

Lemma Index_run `{DocType D} (id : string) (d : D) s :
  healthy s →
  Index id d s
  = (Ok (store_doc id d (EsConn s)).1, set_EsConn (store_doc id d (EsConn s)).2 s).
Proof. intros Hh. unfold Index, bind, call. by rewrite Hh. Qed.

Lemma FindTasks_run p s :
  healthy s →
  FindTasks p s
  = (Ok (Hits_Hits (run_search (tasks_query (ActiveProjectId s) p) (EsConn s))).*2, s).
Proof.
  intros Hh. unfold FindTasks, bind, active_project, Search, bind, call, ret. simpl.
  by rewrite Hh.
Qed.

(** C6, as the code has it.  When [CompleteAsset] runs for a stored work
    item and no store call fails, it records the winning value under the
    task's name, and it returns the work item and stores it (under its id;
    under a generated id when the id is empty) with the same [Verified]
    flag.  The flag is true if and only if every task on the page [FindTasks]
    returns (the first ten tasks of the project by name) has an entry that is
    not [== nil] on the work item once the value is recorded, that is, if
    and only if every other task on the page had such an entry before: the
    entry just recorded never is [== nil].  When the recorded value is not a
    nil map and the work item was stored as JSON, the stored work item is
    the returned one, so that its flag is true if and only if every task on
    the page has a non-null entry on the stored work item; a nil map counts
    for the flag and is stored as null.  For a project of at most ten tasks
    the page holds every task of the project. *)
Theorem CompleteAsset_verified
    (s : Server) (assetId : string) (task : Task) (submittedData : SubmittedData)
    (a0 : Asset) :
  healthy s →
  es_assets (EsConn s) !! assetId = Some a0 →
  let key := if String.eqb assetId "" then es_gen_id (es_next_id (EsConn s))
             else assetId in
  ∃ asset s',
    CompleteAsset assetId task submittedData s = (Ok asset, s')
    ∧ Asset_SubmittedData asset
      = <[Task_Name task := sd_interface submittedData]> (Asset_SubmittedData a0)
    ∧ es_assets (EsConn s') = <[key := json_asset asset]> (es_assets (EsConn s))
    ∧ Asset_Verified (json_asset asset) = Asset_Verified asset
    ∧ (Asset_Verified asset = true
       ↔ ∀ t, t ∈ project_task_page s →
              is_nil (map_get (Asset_SubmittedData asset) (Task_Name t)) = false)
    ∧ (Asset_Verified asset = true
       ↔ ∀ t, t ∈ project_task_page s → Task_Name t ≠ Task_Name task →
              is_nil (map_get (Asset_SubmittedData a0) (Task_Name t)) = false)
    ∧ (submittedData ≠ None → json_asset a0 = a0 →
       json_asset asset = asset
       ∧ (Asset_Verified (json_asset asset) = true
          ↔ ∀ t, t ∈ project_task_page s →
                 is_nil (map_get (Asset_SubmittedData (json_asset asset)) (Task_Name t))
                 = false))
    ∧ ((length (project_tasks s) ≤ 10)%nat →
       (Asset_Verified asset = true
        ↔ ∀ id t, es_tasks (EsConn s) !! id = Some t →
                  Task_Project t = ActiveProjectId s →
                  is_nil (map_get (Asset_SubmittedData asset) (Task_Name t)) = false)).
Proof.
  intros Hh Ha key.
  set (sd := <[Task_Name task := sd_interface submittedData]> (Asset_SubmittedData a0)).
  set (v := forallb (λ t, negb (is_nil (map_get sd (Task_Name t)))) (project_task_page s)).
  set (asset := set_Asset_Verified v (set_Asset_SubmittedData sd a0)).
  assert (Hv : v = true ↔ ∀ t, t ∈ project_task_page s →
                               is_nil (map_get sd (Task_Name t)) = false).
  { unfold v. rewrite forallb_forall. split.
    - intros H t Ht. apply list_elem_of_In, H in Ht. by apply negb_true_iff in Ht.
    - intros H t Ht. apply list_elem_of_In, H in Ht. by apply negb_true_iff. }
  assert (Hown : is_nil (map_get sd (Task_Name task)) = false).
  { unfold sd, map_get. rewrite lookup_insert_eq. by destruct submittedData. }
  exists asset,
    (set_EsConn (with_docs (<[key := json_asset asset]> (es_assets (EsConn s)))
                   (if String.eqb assetId "" then bump_next_id (EsConn s) else EsConn s))
       s).
  split; [|split; [done|split; [|split; [done|split; [exact Hv|split; [|split]]]]]].
  - unfold CompleteAsset, FindAsset, GetSource, bind, call. rewrite Hh.
    change (docs_of (EsConn s) !! assetId) with (es_assets (EsConn s) !! assetId).
    rewrite Ha. cbv beta iota zeta. rewrite FindTasks_run by done.
    fold (project_task_page s). fold sd.
    assert (Hsd : Asset_SubmittedData (set_Asset_SubmittedData sd a0) = sd) by done.
    rewrite Hsd. fold v. fold asset. rewrite Index_run by done. unfold ret, store_doc.
    subst key. by destruct (String.eqb assetId "").
  - subst key. by destruct (String.eqb assetId "").
  - change (Asset_Verified asset) with v. rewrite Hv. split.
    + intros H t Ht Hne. specialize (H t Ht). unfold sd, map_get in H.
      by rewrite lookup_insert_ne in H.
    + intros H t Ht. destruct (decide (Task_Name t = Task_Name task)) as [->|Hne];
        [done|]. unfold sd, map_get. rewrite lookup_insert_ne by done. by apply H.
  - intros Hsome Hjson.
    assert (Hj : json_asset asset = asset).
    { unfold json_asset, asset. cbn [Asset_SubmittedData set_Asset_Verified
                                       set_Asset_SubmittedData].
      assert (Hsdj : json_value <$> sd = sd).
      { unfold sd. rewrite fmap_insert.
        apply (f_equal Asset_SubmittedData) in Hjson. cbn in Hjson. rewrite Hjson.
        by destruct submittedData. }
      rewrite Hsdj. by destruct a0. }
    split; [exact Hj|]. rewrite Hj. exact Hv.
  - intros Hlen. change (Asset_Verified asset) with v. rewrite Hv. split.
    + intros H id t Hl Hp. apply H. rewrite (project_task_page_all s Hlen).
      apply elem_of_project_tasks. eauto.
    + intros H t Ht. rewrite (project_task_page_all s Hlen) in Ht.
      apply elem_of_project_tasks in Ht as [id [Hl Hp]]. eauto.
Qed.

Lemma CompleteAsset_verified_witness :
  healthy c7_server
  ∧ ∃ asset s',
      CompleteAsset "a1" c7_task (Some {["category" := VStr "usable"]}) c7_server
      = (Ok asset, s')
      ∧ Asset_Verified asset = true
      ∧ Asset_Verified <$> es_assets (EsConn s') !! "a1" = Some true.
Proof.
  assert (Hh : healthy c7_server) by (intros r; reflexivity).
  split; [exact Hh|].
  destruct (CompleteAsset_verified c7_server "a1" c7_task
              (Some {["category" := VStr "usable"]}) c7_asset Hh eq_refl)
    as (asset & s' & Hrun & Hsd & Hst & Hsv & Hv & _).
  exists asset, s'. split; [exact Hrun|].
  assert (Hver : Asset_Verified asset = true).
  { apply Hv. intros t Ht. rewrite Hsd.
    assert (Hpage : project_task_page c7_server = [c7_task]) by (vm_compute; reflexivity).
    rewrite Hpage in Ht. apply list_elem_of_singleton in Ht. subst t.
    vm_compute. reflexivity. }
  split; [exact Hver|].
  rewrite Hst. cbn [String.eqb]. rewrite lookup_insert_eq. cbn [fmap option_fmap option_map].
  by rewrite Hsv, Hver.
Defined.

(** C6 as stated fails for a project of more than ten tasks: [FindTasks] is
    asked for ten.  Here the project has eleven tasks, the asset has data for
    the first ten once "t00" is recorded and none for "t10", and [Verified]
    is set to true. *)
Lemma CompleteAsset_eleven_tasks :
  es_tasks (EsConn c6_server) !! "p-t10" = Some (c6_task "t10")
  ∧ Task_Project (c6_task "t10") = ActiveProjectId c6_server
  ∧ match CompleteAsset "a1" (c6_task "t00") (Some {["category" := VStr "usable"]})
            c6_server with
    | (Ok asset, _) =>
        is_nil (map_get (Asset_SubmittedData asset) "t10") = true
        ∧ Asset_Verified asset = true
    | (Err _, _) => False
    end.
Proof. vm_compute. repeat split; reflexivity. Qed.

(** ** Allocation is idempotent while an assignment is unfinished *)

Lemma matches_unfinished_query project taskId userId (x : Assignment) :
  matches (unfinished_query project taskId userId) x = true
  ↔ unfinished_for project taskId userId x.
Proof.
  unfold matches, unfinished_query, unfinished_for. simpl.
  rewrite !andb_true_r, !andb_true_iff, !bool_decide_eq_true. tauto.
Qed.

Lemma run_search_ext `{DocType D} (q : query) e e' :
  docs_of (D:=D) e = docs_of e' → run_search (D:=D) q e = run_search q e'.
Proof. intros He. unfold run_search, all_hits. by rewrite He. Qed.

Lemma NoDup_all_hits `{DocType D} (q : query) e : NoDup (all_hits (D:=D) q e).
Proof. unfold all_hits. apply NoDup_filter, NoDup_map_to_list. Qed.

Lemma NoDup_all_equal {A} (x : A) (l : list A) :
  NoDup l → (∀ y, y ∈ l → y = x) → x ∈ l → l = [x].
Proof.
  intros Hnd Hall Hin. destruct l as [|a l]; [by apply elem_of_nil in Hin|].
  assert (a = x) as -> by (apply Hall; left).
  destruct l as [|b l]; [done|].
  assert (b = x) as -> by (apply Hall; right; left).
  apply NoDup_cons in Hnd as [Hnin _]. exfalso. apply Hnin. left.
Qed.

Lemma all_hits_insert_fresh `{DocType D} (q : query) e e' id (d : D) :
  all_hits q e = [] → matches q d = true →
  docs_of e' = <[id := d]> (docs_of e) →
  all_hits q e' = [(id, d)].
Proof.
  intros Hnone Hm He. apply NoDup_all_equal.
  - apply NoDup_all_hits.
  - intros [k d'] Hin. apply elem_of_all_hits in Hin as [Hl Hm'].
    rewrite He in Hl. destruct (decide (id = k)) as [->|Hne].
    + rewrite lookup_insert_eq in Hl. by simplify_eq.
    + rewrite lookup_insert_ne in Hl by done.
      assert (Hin : (k, d') ∈ all_hits q e) by (by apply elem_of_all_hits).
      rewrite Hnone in Hin. by apply elem_of_nil in Hin.
  - apply elem_of_all_hits. rewrite He, lookup_insert_eq. done.
Qed.

Lemma run_search_single `{DocType D} (q : query) e (p : string * D) :
  q_from q = 0%nat → q_size q = None → q_sort q = None →
  all_hits q e = [p] → Hits_Hits (run_search q e) = [p].
Proof.
  intros Hf Hs Hso Hall. unfold run_search, sort_hits. simpl.
  by rewrite Hall, Hf, Hs, Hso.
Qed.

Lemma run_search_head `{DocType D} (q : query) e :
  q_from q = 0%nat → q_size q = None → q_sort q = None →
  (0 < Hits_Total (run_search q e))%nat →
  ∃ p rest, Hits_Hits (run_search q e) = p :: rest ∧ p ∈ all_hits q e.
Proof.
  intros Hf Hs Hso. unfold run_search, sort_hits. simpl. rewrite Hf, Hs, Hso. simpl.
  destruct (all_hits q e) as [|p l]; simpl; [lia|]. intros _.
  exists p, (take 9 l). split; [done|left].
Qed.

Lemma run_search_total_pos `{DocType D} (q : query) e (p : string * D) rest :
  Hits_Hits (run_search q e) = p :: rest → (0 < Hits_Total (run_search q e))%nat.
Proof.
  intros Hh. assert (Hin : p ∈ Hits_Hits (run_search q e)) by (rewrite Hh; left).
  unfold run_search in *. simpl in *.
  apply subseteq_take, subseteq_drop in Hin. rewrite sort_hits_perm in Hin.
  destruct (all_hits q e); [by apply elem_of_nil in Hin|simpl; lia].
Qed.

Lemma strings_Join_HIVE a b c d : strings_Join [a; b; c; d] "HIVE" ≠ "".
Proof. simpl. destruct a; done. Qed.

Lemma json_value_idemp v : json_value (json_value v) = json_value v.
Proof. by destruct v. Qed.

Lemma json_asset_counts c a :
  json_asset a = a → json_asset (set_Asset_Counts c a) = set_Asset_Counts c a.
Proof. unfold json_asset. destruct a. simpl. by intros [= ->]. Qed.

(** With an unfinished assignment at the head of the search, [CreateAssignment]
    returns it and writes no work item and no assignment. *)
Lemma CreateAssignment_existing taskId userId s task k x rest :
  healthy s →
  es_tasks (EsConn s) !! taskId = Some task →
  Task_CurrentState task = "available" →
  Hits_Hits (run_search (unfinished_query (ActiveProjectId s) taskId userId) (EsConn s))
  = (k, x) :: rest →
  wp (CreateAssignment taskId userId) (λ r s', r = Ok x ∧ same_but_users s s') s.
Proof.
  intros Hh Htask Hav Hhits. unfold CreateAssignment. wp_step.
  wp_use find_or_create_user_spec. intros [Hs Hok].
  destruct (Hok Hh) as [user ->]. pose proof Hs as (Hp & Ht & Ha & Hx & Hf).
  pose proof (healthy_same _ _ Hs Hh) as Hh'.
  wp_step. wp_step; [healthy_contra|].
  change (docs_of (EsConn s') !! taskId) with (es_tasks (EsConn s') !! taskId).
  rewrite Ht, Htask. cbv beta iota. rewrite Hav. simpl negb. cbv iota.
  wp_step. wp_step. wp_step. wp_step; [healthy_contra|].
  rewrite Hp. rewrite (run_search_ext _ (EsConn s') (EsConn s)) by exact Hx.
  rewrite Hhits.
  assert (Htot : (0 <? Hits_Total (run_search (D:=Assignment)
            (unfinished_query (ActiveProjectId s) taskId userId) (EsConn s)))%nat = true).
  { apply Nat.ltb_lt. eapply run_search_total_pos. exact Hhits. }
  rewrite Htot. wp_step. done.
Qed.

(** What a successful [CreateAssignment] leaves behind: the assignment it
    returned heads the search for unfinished assignments of the triple. *)
Lemma CreateAssignment_first taskId userId s :
  healthy s → store_json s →
  wp (CreateAssignment taskId userId)
    (λ r s1, ∀ x1, r = Ok x1 →
       healthy s1
       ∧ (∃ task, es_tasks (EsConn s1) !! taskId = Some task
                  ∧ Task_CurrentState task = "available")
       ∧ ∃ k rest,
           Hits_Hits (run_search (unfinished_query (ActiveProjectId s1) taskId userId)
                        (EsConn s1)) = (k, x1) :: rest) s.
Proof.
  intros Hh Hjson. unfold CreateAssignment. wp_step.
  wp_use find_or_create_user_spec. intros [Hs Hok].
  destruct (Hok Hh) as [user ->]. pose proof Hs as (Hp & Ht & Ha & Hx & Hf).
  pose proof (healthy_same _ _ Hs Hh) as Hh'. clear Hok.
  wp_step. wp_step; [healthy_contra|].
  change (docs_of (EsConn s') !! taskId) with (es_tasks (EsConn s') !! taskId).
  destruct (es_tasks (EsConn s') !! taskId) as [task|] eqn:Htask; [|done].
  cbv beta iota.
  destruct (String.eqb (Task_CurrentState task) "available") eqn:Hav;
    simpl negb; cbv iota; [|by wp_step].
  apply String.eqb_eq in Hav.
  wp_step. wp_step. wp_step. wp_step; [healthy_contra|].
  set (q := unfinished_query (ActiveProjectId s') taskId userId).
  destruct (0 <? Hits_Total (run_search (D:=Assignment) q (EsConn s')))%nat eqn:Htot.
  - destruct (Hits_Hits (run_search (D:=Assignment) q (EsConn s'))) as [|[k x] rest] eqn:Hhits;
      wp_step; [done|].
    intros x1 [= <-]. split; [done|]. split; [eauto|]. eauto.
  - apply Nat.ltb_ge in Htot.
    assert (Hnone : all_hits (D:=Assignment) q (EsConn s') = []).
    { unfold run_search in Htot. simpl in Htot.
      destruct (all_hits (D:=Assignment) q (EsConn s')); [done|simpl in Htot; lia]. }
    wp_step. wp_use FindAssignmentAsset_spec. intros [Hs2 Hin].
    destruct r as [a|e]; [|done]. destruct (Hin a eq_refl) as [aid Haid].
    rewrite Ha in Haid. apply Hjson in Haid.
    pose proof Hs2 as (Hp2 & Ht2 & Ha2 & Hx2 & Hf2).
    pose proof (healthy_same _ _ Hs2 Hh') as Hh2.
    cbv beta iota zeta. wp_step. wp_step; [healthy_contra|].
    wp_step. wp_step; [healthy_contra|]. wp_step.
    intros x1 [= <-].
    split; [intros r; autorewrite with store; apply Hh2|].
    split.
    { exists task. autorewrite with store. by rewrite Ht2. }
    autorewrite with store. rewrite Hp2. fold q.
    set (c := count_incr "unfinished"
                (count_incr "Assignments" (init_counts 0 0 (Asset_Counts a)))).
    set (x1 := mkAssignment
                 (strings_Join [ActiveProjectId s'; taskId;
                                Asset_Id (set_Asset_Counts c a); User_Id user] "HIVE")
                 userId (ActiveProjectId s') taskId (set_Asset_Counts c a)
                 "unfinished" None).
    assert (Hx1 : json_assignment x1 = x1).
    { unfold json_assignment, x1. simpl. unfold set_Assignment_Asset. simpl.
      by rewrite json_asset_counts. }
    exists (Assignment_Id x1), []. apply run_search_single; try done.
    eapply all_hits_insert_fresh; [exact Hnone| |].
    + apply matches_unfinished_query. done.
    + simpl docs_of. autorewrite with store.
      rewrite store_doc_id by apply strings_Join_HIVE.
      simpl doc_json. rewrite Hx1. by rewrite Hx2.
Qed.

(** Allocation on a store that has refreshed before each search, as the
    calls of the store are defined above.  (1) When the task is available and
    the search finds an unfinished assignment for (project, task, worker),
    [CreateAssignment] returns an unfinished assignment of that triple just
    as it is stored, and leaves the assignments and the work items as they
    were.  (2) Hence, when the store has refreshed between two calls, so that
    the search of the second call sees what the first call wrote, the two
    calls return the same assignment and the second call creates nothing.
    [CreateAssignment] itself does not refresh: see
    [CreateAssignment_twice_unrefreshed] for the second call on a store that
    has not. *)
Theorem CreateAssignment_idempotent (s : Server) (taskId userId : string) :
  healthy s →
  (∀ task k x0,
     es_tasks (EsConn s) !! taskId = Some task →
     Task_CurrentState task = "available" →
     es_assignments (EsConn s) !! k = Some x0 →
     unfinished_for (ActiveProjectId s) taskId userId x0 →
     ∃ k' x,
       (CreateAssignment taskId userId s).1 = Ok x
       ∧ es_assignments (EsConn s) !! k' = Some x
       ∧ unfinished_for (ActiveProjectId s) taskId userId x
       ∧ es_assignments (EsConn (CreateAssignment taskId userId s).2)
         = es_assignments (EsConn s)
       ∧ es_assets (EsConn (CreateAssignment taskId userId s).2)
         = es_assets (EsConn s))
  ∧ (store_json s →
     ∀ x1, (CreateAssignment taskId userId s).1 = Ok x1 →
       let s1 := (CreateAssignment taskId userId s).2 in
       (CreateAssignment taskId userId s1).1 = Ok x1
       ∧ es_assignments (EsConn (CreateAssignment taskId userId s1).2)
         = es_assignments (EsConn s1)
       ∧ es_assets (EsConn (CreateAssignment taskId userId s1).2)
         = es_assets (EsConn s1)).
Proof.
  intros Hh. split.
  - intros task k x0 Htask Hav Hx0 Hun.
    set (q := unfinished_query (ActiveProjectId s) taskId userId).
    assert (Hin0 : (k, x0) ∈ all_hits (D:=Assignment) q (EsConn s)).
    { apply elem_of_all_hits. split; [done|]. by apply matches_unfinished_query. }
    destruct (run_search_head (D:=Assignment) q (EsConn s)) as ([k' x] & rest & Hhits & Hin);
      try done.
    { unfold run_search. simpl.
      destruct (all_hits (D:=Assignment) q (EsConn s));
        [by apply elem_of_nil in Hin0|simpl; lia]. }
    apply elem_of_all_hits in Hin as [Hl Hm]. apply matches_unfinished_query in Hm.
    pose proof (CreateAssignment_existing taskId userId s task k' x rest
                  Hh Htask Hav Hhits) as Hrun.
    unfold wp in Hrun. destruct Hrun as [Hr (_ & _ & Ha & Hx & _)].
    exists k', x. done.
  - intros Hjson x1 Hr1 s1.
    pose proof (CreateAssignment_first taskId userId s Hh Hjson) as H1.
    unfold wp in H1. specialize (H1 x1 Hr1). fold s1 in H1.
    destruct H1 as (Hh1 & (task & Htask & Hav) & k & rest & Hhits).
    pose proof (CreateAssignment_existing taskId userId s1 task k x1 rest
                  Hh1 Htask Hav Hhits) as Hrun.
    unfold wp in Hrun. destruct Hrun as [Hr (_ & _ & Ha & Hx & _)]. done.
Qed.

Lemma CreateAssignment_idempotent_witness :
  healthy c4_server
  ∧ ∃ x1,
      (CreateAssignment "p-oi" "w1" c4_server).1 = Ok x1
      ∧ (CreateAssignment "p-oi" "w1" (CreateAssignment "p-oi" "w1" c4_server).2).1
        = Ok x1.
Proof.
  assert (Hh : healthy c4_server) by (intros r; reflexivity).
  assert (Hjson : store_json c4_server).
  { intros id a Hl.
    change (es_assets (EsConn c4_server)) with ({["a1" := c7_asset]} : gmap string Asset) in Hl.
    apply lookup_singleton_Some in Hl as [_ <-]. vm_compute. reflexivity. }
  split; [exact Hh|].
  assert (∃ x1, (CreateAssignment "p-oi" "w1" c4_server).1 = Ok x1) as [x1 Hx1]
    by (vm_compute; eexists; reflexivity).
  exists x1. split; [exact Hx1|].
  exact (proj1 (proj2 (CreateAssignment_idempotent c4_server "p-oi" "w1" Hh) Hjson x1 Hx1)).
Defined.

(** ** Allocation twice in a row *)

(** When the store has refreshed, a query sees the documents as they are:
    the queries of [Unrefreshed] on the store itself, and the functions that
    only read, are the ones defined first. *)
Lemma Search_refreshed `{DocType D} (q : query) (s : Server) :
  Unrefreshed.Search (EsConn s) q s = Search q s.
Proof. unfold Unrefreshed.Search, Search, bind, call. by destruct (es_fault _ _). Qed.

Lemma Count_refreshed `{DocType D} (s : Server) :
  Unrefreshed.Count (D:=D) (EsConn s) s = Count (D:=D) s.
Proof. unfold Unrefreshed.Count, Count, bind, call. by destruct (es_fault _ _). Qed.

Lemma FindTasks_refreshed (p : Params) (s : Server) :
  Unrefreshed.FindTasks (EsConn s) p s = FindTasks p s.
Proof.
  unfold Unrefreshed.FindTasks, FindTasks, bind, active_project.
  by rewrite Search_refreshed.
Qed.

Lemma FindAssignmentAsset_refreshed (task : Task) (user : User) (s : Server) :
  Unrefreshed.FindAssignmentAsset (EsConn s) task user s
  = FindAssignmentAsset task user s.
Proof.
  unfold Unrefreshed.FindAssignmentAsset, FindAssignmentAsset,
    Unrefreshed.Search, Unrefreshed.Count, Search, Count, bind, active_project, call.
  repeat match goal with
         | |- context [es_fault ?e ?r] => destruct (es_fault e r); try done
         | |- context [mapM ?f ?l] => destruct (mapM f l); try done
         end.
Qed.

(** The first of the two requests does not depend on it either: none of its
    queries comes after one of its own writes. *)
Lemma CreateAssignment_first_refreshed :
  c4_first = CreateAssignment "p-oi" "w1" c4_two_server.
Proof. vm_compute. reflexivity. Qed.

(** C4 fails when the second request comes before the store has refreshed.
    [CreateAssignment] looks for the unfinished assignment with a search and
    returns without refreshing, so the search of the second request does not
    see the assignment the first request wrote: the second request draws a
    work item again and creates a second unfinished assignment for the same
    project, task and worker.  Once the store has refreshed, the same request
    returns the first assignment and creates nothing. *)
Lemma CreateAssignment_twice_unrefreshed :
  match c4_first, c4_second_unrefreshed with
  | (Ok x1, s1), (Ok x2, s2) =>
      unfinished_for "p" "p-oi" "w1" x1 ∧ unfinished_for "p" "p-oi" "w1" x2
      ∧ Assignment_Id x1 = "pHIVEp-oiHIVEa1HIVEw1"
      ∧ Assignment_Id x2 = "pHIVEp-oiHIVEa2HIVEw1"
      ∧ size (es_assignments (EsConn c4_two_server)) = 0%nat
      ∧ size (es_assignments (EsConn s1)) = 1%nat
      ∧ size (es_assignments (EsConn s2)) = 2%nat
      ∧ Assignment_State <$> es_assignments (EsConn s2) !! Assignment_Id x1
        = Some "unfinished"
      ∧ Assignment_State <$> es_assignments (EsConn s2) !! Assignment_Id x2
        = Some "unfinished"
  | _, _ => False
  end
  ∧ c4_second_refreshed.1 = c4_first.1
  ∧ es_assignments (EsConn c4_second_refreshed.2) = es_assignments (EsConn c4_first.2).
Proof.
  split; [vm_compute; repeat split; reflexivity|].
  split; vm_compute; reflexivity.
Qed.

(** ** Eligibility: the empty rule and the excluded assets *)

(** Whatever prerequisite an empty rule is filed under, the clause it yields
    names the task being assigned. *)
Lemma criteria_clauses_empty_rule (task : Task) (taskName : string) :
  AC_SubmittedData (Task_AssignmentCriteria task) !! taskName = Some ∅ →
  Missing ["SubmittedData"; Task_Name task] ∈ criteria_clauses task.
Proof.
  intros Hl. unfold criteria_clauses.
  apply list_elem_of_join. exists [Missing ["SubmittedData"; Task_Name task]].
  split; [left|]. apply list_elem_of_fmap. exists (taskName, ∅).
  split; [done|]. by apply elem_of_map_to_list.
Qed.

(** C2 fails on the code.  The task "transcribe" has the empty rule for the
    prerequisite "categorize"; the predicate built asks for
    [SubmittedData.transcribe] to be missing, and the asset that already has a
    categorize answer is handed out. *)
Theorem FindAssignmentAsset_empty_rule_names_own_task :
  AC_SubmittedData (Task_AssignmentCriteria c2_task) !! "categorize" = Some ∅
  ∧ criteria_clauses c2_task = [Missing ["SubmittedData"; "transcribe"]]
  ∧ is_nil (map_get (Asset_SubmittedData c2_asset) "categorize") = false
  ∧ match FindAssignmentAsset c2_task c9_user c2_server with
    | (Ok a, _) => Asset_Id a = "a1" ∧ Asset_SubmittedData a = Asset_SubmittedData c2_asset
    | (Err _, _) => False
    end.
Proof. vm_compute. repeat split; reflexivity. Qed.

(** C3 fails on the code.  The worker "w1" has no finished assignment, so
    [Counts["Assignments"]] is 0 and the query for the assets already assigned
    asks for a page of size 0.  After skipping asset "a1" the worker is given
    "a1" again for the same task. *)
Theorem FindAssignmentAsset_reissues_skipped_asset :
  match c3_first, c3_skipped with
  | (Ok a, _), (Ok _, s) =>
      Asset_Id (Assignment_Asset a) = "a1"
      ∧ (Assignment_State <$> es_assignments (EsConn s) !! Assignment_Id a) = Some "skipped"
      ∧ ((λ x, (Assignment_Project x, Assignment_Task x, Assignment_User x))
           <$> es_assignments (EsConn s) !! Assignment_Id a) = Some ("p", "p-oi", "w1")
      ∧ match c3_second with
        | (Ok a', _) =>
            Asset_Id (Assignment_Asset a') = "a1"
            ∧ Assignment_Task a' = "p-oi" ∧ Assignment_User a' = "w1"
        | (Err _, _) => False
        end
  | _, _ => False
  end.
Proof. vm_compute. repeat split; reflexivity. Qed.

(** ** The consensus sweep *)

(** *** Promoting the assignments of a work item *)

Lemma set_EsConn_assignments_id s :
  set_EsConn (with_docs (D:=Assignment) (es_assignments (EsConn s)) (EsConn s)) s = s.
Proof. by destruct s as [p [] r]. Qed.

Lemma set_EsConn_twice_assignments (m m' : gmap string Assignment) s :
  set_EsConn
    (with_docs m' (EsConn (set_EsConn (with_docs m (EsConn s)) s)))
    (set_EsConn (with_docs m (EsConn s)) s)
  = set_EsConn (with_docs m' (EsConn s)) s.
Proof. by destruct s as [p [] r]. Qed.

Lemma verified_doc_id x : Assignment_Id (verified_doc x) = Assignment_Id x.
Proof. done. Qed.

Lemma verified_doc_state x : Assignment_State (verified_doc x) = "verified".
Proof. done. Qed.

Lemma verified_doc_asset_id x :
  Asset_Id (Assignment_Asset (verified_doc x)) = Asset_Id (Assignment_Asset x).
Proof. done. Qed.

Lemma verify_assignments_run l s :
  (∀ x, x ∈ l → Assignment_Id x ≠ "") →
  verify_assignments l s
  = (Ok tt,
     set_EsConn
       (with_docs (verify_map (es_fault (EsConn s)) l (es_assignments (EsConn s)))
          (EsConn s)) s).
Proof.
  revert s. induction l as [|x l IH]; intros s Hid.
  - cbn [verify_assignments verify_map foldl]. by rewrite set_EsConn_assignments_id.
  - assert (Hx : Assignment_Id x ≠ "") by (apply Hid; left).
    assert (Hl : ∀ y, y ∈ l → Assignment_Id y ≠ "") by (intros y Hy; apply Hid; by right).
    cbn [verify_assignments verify_map foldl].
    unfold bind at 1, attempt, Index, bind, call.
    change (type_name (D:=Assignment)) with "assignments".
    change (Assignment_Id (set_Assignment_State "verified" x)) with (Assignment_Id x).
    destruct (es_fault (EsConn s) (RIndex "assignments" (Assignment_Id x))) eqn:Hf.
    + by rewrite IH.
    + cbn [fst snd]. rewrite IH by done.
      unfold store_doc. apply String.eqb_neq in Hx. rewrite Hx. cbn [fst snd].
      simpl docs_of. simpl doc_json. fold (verified_doc x).
      rewrite set_EsConn_twice_assignments. by destruct s as [p [] r].
Qed.

Lemma verify_map_cons fault x l (m : gmap string Assignment) :
  verify_map fault (x :: l) m
  = verify_map fault l
      (if fault (RIndex "assignments" (Assignment_Id x)) then m
       else <[Assignment_Id x := verified_doc x]> m).
Proof. done. Qed.

Lemma verify_map_other fault l (m : gmap string Assignment) k :
  k ∉ Assignment_Id <$> l → verify_map fault l m !! k = m !! k.
Proof.
  revert m. induction l as [|x l IH]; intros m Hk; [done|].
  rewrite fmap_cons, not_elem_of_cons in Hk. destruct Hk as [Hne Hk].
  rewrite verify_map_cons, IH by done.
  destruct (fault _); [done|]. by rewrite lookup_insert_ne.
Qed.

Lemma verify_map_cases fault l (m : gmap string Assignment) k :
  verify_map fault l m !! k = m !! k
  ∨ ∃ x, x ∈ l ∧ Assignment_Id x = k ∧ verify_map fault l m !! k = Some (verified_doc x).
Proof.
  revert m. induction l as [|x l IH]; intros m; [by left|].
  rewrite verify_map_cons.
  destruct (IH (if fault (RIndex "assignments" (Assignment_Id x)) then m
                else <[Assignment_Id x := verified_doc x]> m)) as [Heq|(y & Hy & Hid & Hl)].
  - rewrite Heq. destruct (fault _); [by left|].
    destruct (decide (Assignment_Id x = k)) as [<-|Hne].
    + right. exists x. rewrite lookup_insert_eq. split; [left|done].
    + left. by rewrite lookup_insert_ne.
  - right. exists y. split; [by right|done].
Qed.

Lemma verify_map_hit fault l (m : gmap string Assignment) x :
  NoDup (Assignment_Id <$> l) → x ∈ l →
  fault (RIndex "assignments" (Assignment_Id x)) = false →
  verify_map fault l m !! Assignment_Id x = Some (verified_doc x).
Proof.
  revert m. induction l as [|y l IH]; intros m Hnd Hin Hf.
  - by apply elem_of_nil in Hin.
  - rewrite fmap_cons, NoDup_cons in Hnd. destruct Hnd as [Hnin Hnd].
    rewrite verify_map_cons.
    apply elem_of_cons in Hin as [->|Hin].
    + rewrite verify_map_other by done. rewrite Hf. by rewrite lookup_insert_eq.
    + by apply IH.
Qed.

(** *** Completing a work item *)

(** A read cannot have failed when only writes fail. *)
Ltac reads_contra :=
  autorewrite with store in *;
  match goal with
  | Hr : reads_ok ?s, H : es_fault (EsConn ?s) ?r = true |- _ =>
      destruct (Hr r H) as (? & ? & ?); discriminate
  end.

Lemma assets_rel_refl aid s : assets_rel aid s s.
Proof. unfold assets_rel. eauto. Qed.

Lemma assets_rel_trans aid s1 s2 s3 :
  assets_rel aid s1 s2 → assets_rel aid s2 s3 → assets_rel aid s1 s3.
Proof.
  intros (H1 & H2 & H3) (H1' & H2' & H3'). split; [|split].
  - intros k Hk. by rewrite H1', H1.
  - intros a' Ha'. destruct (H2' a' Ha') as (a2 & Ha2 & Hid).
    destruct (H2 a2 Ha2) as (a1 & Ha1 & Hid'). exists a1. split; [done|congruence].
  - intros a Ha. destruct (H3 a Ha) as [a2 Ha2]. by eapply H3'.
Qed.

Lemma CompleteAsset_spec aid task v s :
  reads_ok s → es_assets (EsConn s) !! "" = None →
  wp (CompleteAsset aid task v)
    (λ r s',
       (∃ e, r = Err e ∧ s' = s
             ∧ (es_assets (EsConn s) !! aid = None
                ∨ es_fault (EsConn s) (RIndex "assets" aid) = true))
       ∨ (∃ a0 a, r = Ok a ∧ es_assets (EsConn s) !! aid = Some a0
                  ∧ es_fault (EsConn s) (RIndex "assets" aid) = false
                  ∧ Asset_Id a = Asset_Id a0
                  ∧ s' = set_EsConn
                           (with_docs (<[aid := json_asset a]> (es_assets (EsConn s)))
                              (EsConn s)) s)) s.
Proof.
  intros Hr Hempty. unfold CompleteAsset. wp_step. wp_step; [reads_contra|].
  change (docs_of (EsConn s) !! aid) with (es_assets (EsConn s) !! aid).
  destruct (es_assets (EsConn s) !! aid) as [a0|] eqn:Ha0; cbv beta iota zeta.
  - assert (Hne : aid ≠ "") by (intros ->; congruence).
    wp_step. unfold FindTasks. repeat wp_step; try reads_contra.
    + left. eexists. split; [done|]. split; [done|]. by right.
    + right. eexists a0, _. split; [done|]. split; [done|]. split; [done|].
      split; [done|]. unfold store_doc. apply String.eqb_neq in Hne. by rewrite Hne.
  - left. eexists. split; [done|]. split; [done|]. by left.
Qed.

Lemma bucket_rel_refl aid l s : bucket_rel aid l 0 s s.
Proof. unfold bucket_rel. repeat split; try done; apply assets_rel_refl. Qed.

(** The state after one successful [CompleteAsset] and the promotion that
    follows it. *)
Lemma bucket_rel_step aid l a a0 s :
  aid ≠ "" → es_assets (EsConn s) !! aid = Some a0 → Asset_Id a = Asset_Id a0 →
  let s1 := set_EsConn
              (with_docs (<[aid := json_asset a]> (es_assets (EsConn s))) (EsConn s)) s in
  let s2 := set_EsConn
              (with_docs (verify_map (es_fault (EsConn s1)) l (es_assignments (EsConn s1)))
                 (EsConn s1)) s1 in
  bucket_rel aid l 1 s s2
  ∧ es_assets (EsConn s2) !! "" = es_assets (EsConn s) !! ""
  ∧ es_fault (EsConn s2) = es_fault (EsConn s).
Proof.
  intros Hne Ha0 Hid s1 s2. split; [|split].
  - unfold bucket_rel. split; [done|]. split; [done|]. split; [done|]. split; [|done].
    split; [|split].
    + intros k Hk. simpl. by rewrite lookup_insert_ne.
    + simpl. rewrite lookup_insert_eq. intros a' [= <-]. exists a0. done.
    + simpl. rewrite lookup_insert_eq. eauto.
  - simpl. by rewrite lookup_insert_ne.
  - done.
Qed.

Lemma bucket_rel_trans aid l n1 n2 s1 s2 s3 :
  bucket_rel aid l n1 s1 s2 → bucket_rel aid l n2 s2 s3 →
  bucket_rel aid l (n2 + n1) s1 s3.
Proof.
  intros (Hp & Ht & Hf & Ha & Hx) (Hp' & Ht' & Hf' & Ha' & Hx').
  unfold bucket_rel. split; [congruence|]. split; [congruence|]. split; [congruence|].
  split; [by eapply assets_rel_trans|].
  rewrite Hx', Hf, Hx. by rewrite Nat.iter_add.
Qed.

Lemma complete_trackers_spec aid task l trackers assets s :
  reads_ok s → es_assets (EsConn s) !! "" = None →
  (∀ x, x ∈ l → Assignment_Id x ≠ "") →
  wp (complete_trackers aid task l trackers assets)
    (λ r s',
       ∃ new n,
         r = Ok (assets ++ new)
         ∧ bucket_rel aid l n s s'
         ∧ n = length new
         ∧ (∀ a, a ∈ new →
              es_fault (EsConn s) (RIndex "assets" aid) = false
              ∧ ∃ a0, es_assets (EsConn s) !! aid = Some a0 ∧ Asset_Id a = Asset_Id a0)
         ∧ ((∃ t, t ∈ trackers
                  ∧ (Matching (Task_CompletionCriteria task) ≤ Tracker_Count t)%Z) →
            is_Some (es_assets (EsConn s) !! aid) →
            es_fault (EsConn s) (RIndex "assets" aid) = false →
            new ≠ [])) s.
Proof.
  intros Hr Hempty Hids. revert assets s Hr Hempty.
  induction trackers as [|t ts IH]; intros assets s Hr Hempty.
  - cbn [complete_trackers]. wp_step. exists [], 0%nat.
    rewrite app_nil_r. split; [done|]. split; [apply bucket_rel_refl|]. split; [done|].
    split; [by intros a Ha; apply elem_of_nil in Ha|].
    intros (t & Ht & _). by apply elem_of_nil in Ht.
  - cbn [complete_trackers].
    destruct (Matching (Task_CompletionCriteria task) <=? Tracker_Count t)%Z eqn:Hq.
    + wp_step. wp_step. eapply wp_mono; [by apply CompleteAsset_spec|]. cbv beta.
      intros r s1 [(e & -> & -> & Hfail)|(a0 & a & -> & Ha0 & Hf & Hid & ->)]; cbv beta iota.
      * eapply wp_mono; [by apply IH|]. cbv beta.
        intros r s' (new & n & -> & Hrel & Hn & Hnew & _).
        exists new, n. repeat (split; [done|]).
        intros _ [a0 Ha0] Hf. destruct Hfail; congruence.
      * assert (Hne : aid ≠ "") by (intros ->; congruence).
        wp_step. unfold wp at 1. rewrite verify_assignments_run by done. cbn [fst snd].
        destruct (bucket_rel_step aid l a a0 s Hne Ha0 Hid) as (Hrel1 & He1 & Hf1).
        match goal with |- wp _ _ ?s2 => set (s2' := s2) in * end.
        eapply wp_mono.
        { apply IH.
          - intros r Hfr. apply Hr. by rewrite <- Hf1.
          - by rewrite He1. }
        cbv beta. intros r s' (new & n & -> & Hrel & Hn & Hnew & _).
        exists (a :: new), (S n).
        split; [by rewrite <- app_assoc|].
        split; [replace (S n) with (n + 1)%nat by lia; by eapply bucket_rel_trans|].
        split; [simpl; by rewrite Hn|]. split; [|done].
        intros a' Ha'. apply elem_of_cons in Ha' as [->|Ha'].
        -- split; [done|]. eauto.
        -- split; [done|]. destruct (Hnew a' Ha') as (_ & a1 & Ha1 & Hid1).
           destruct Hrel1 as (_ & _ & _ & (_ & H2 & _) & _).
           destruct (H2 a1 Ha1) as (a2 & Ha2 & Hid2). exists a2. split; [done|congruence].
    + eapply wp_mono; [by apply IH|]. cbv beta.
      intros r s' (new & n & -> & Hrel & Hn & Hnew & Hpos).
      exists new, n. repeat (split; [done|]).
      intros (t' & Ht' & Hq') Hex Hf. apply Hpos; try done.
      apply elem_of_cons in Ht' as [->|Ht']; [|eauto].
      apply Z.leb_gt in Hq. lia.
Qed.

(** *** Collating the votes *)

Lemma votes_app v l1 l2 : votes v (l1 ++ l2) = (votes v l1 + votes v l2)%nat.
Proof. unfold votes. by rewrite filter_app, length_app. Qed.

Lemma votes_one v x :
  votes v [x] = if decide (Assignment_SubmittedData x = v) then 1%nat else 0%nat.
Proof.
  unfold votes. destruct (decide (Assignment_SubmittedData x = v)).
  - by rewrite filter_cons_True.
  - by rewrite filter_cons_False.
Qed.

Lemma votes_le v l : (votes v l ≤ length l)%nat.
Proof. unfold votes. apply length_filter. Qed.

Lemma votes_perm v l1 l2 : l1 ≡ₚ l2 → votes v l1 = votes v l2.
Proof. intros Hp. unfold votes. by rewrite Hp. Qed.

Lemma bump_elem item t sdt :
  t ∈ bump item <$> sdt → ∃ t0, t0 ∈ sdt ∧ t = bump item t0.
Proof. intros Ht. apply list_elem_of_fmap in Ht as (t0 & -> & Ht0). eauto. Qed.

Lemma trackers_ok_step sdt seen x :
  trackers_ok sdt seen →
  trackers_ok (collateSubmittedData sdt (Assignment_SubmittedData x)) (seen ++ [x]).
Proof.
  intros (Hnd & Hcount & Hcover). set (item := Assignment_SubmittedData x).
  rewrite collate_unfold. case_bool_decide as Hin.
  - split; [by rewrite bump_values|]. split.
    + intros t Ht. apply bump_elem in Ht as (t0 & Ht0 & ->).
      rewrite bump_value, votes_app, votes_one. fold item. unfold bump.
      destruct (DeepEqual (Tracker_Value t0) item) eqn:E.
      * apply DeepEqual_true in E. simpl. rewrite (Hcount t0 Ht0).
        rewrite decide_True by done. unfold int_add. rewrite wrap_add_l.
        f_equal. lia.
      * apply DeepEqual_false in E. rewrite (Hcount t0 Ht0).
        rewrite decide_False by done. f_equal. lia.
    + intros v. rewrite bump_values, <- Hcover, votes_app, votes_one. fold item.
      destruct (decide (item = v)) as [<-|Hne]; [|by rewrite Nat.add_0_r].
      apply Hcover in Hin. lia.
  - rewrite bump_absent by done.
    assert (Hzero : votes item seen = 0%nat).
    { destruct (votes item seen) eqn:E; [done|]. exfalso. apply Hin, Hcover. lia. }
    split; [|split].
    + rewrite fmap_app. simpl. apply NoDup_app. split; [done|].
      split; [|apply NoDup_singleton].
      intros v Hv Hv'. apply list_elem_of_singleton in Hv'. by subst.
    + intros t Ht. apply elem_of_app in Ht as [Ht|Ht].
      * rewrite votes_app, votes_one. fold item. rewrite decide_False.
        -- rewrite Nat.add_0_r. by apply Hcount.
        -- intros Heq. apply Hin. rewrite Heq. by apply list_elem_of_fmap_2.
      * apply list_elem_of_singleton in Ht. subst t. simpl.
        rewrite votes_app, votes_one, Hzero. fold item. rewrite decide_True by done.
        by rewrite wrap_small by lia.
    + intros v. rewrite fmap_app, elem_of_app, <- Hcover, votes_app, votes_one.
      fold item. simpl. rewrite list_elem_of_singleton.
      destruct (decide (item = v)) as [<-|Hne].
      * split; [by right|lia].
      * rewrite Nat.add_0_r. split; [by left|]. intros [?|?]; [done|congruence].
Qed.

Lemma trackers_ok_foldl l sdt seen :
  trackers_ok sdt seen →
  trackers_ok
    (foldl (λ sdt a, collateSubmittedData sdt (Assignment_SubmittedData a)) sdt l)
    (seen ++ l).
Proof.
  revert sdt seen. induction l as [|x l IH]; intros sdt seen Hok.
  - by rewrite app_nil_r.
  - simpl. replace (seen ++ x :: l) with ((seen ++ [x]) ++ l) by (by rewrite <- app_assoc).
    apply IH. by apply trackers_ok_step.
Qed.

Lemma collate_all_ok l : trackers_ok (collate_all l) l.
Proof.
  unfold collate_all. apply (trackers_ok_foldl l [] []).
  split; [apply NoDup_nil_2|]. split.
  - intros t Ht. by apply elem_of_nil in Ht.
  - intros v. simpl. split; [unfold votes; simpl; lia|]. intros Hv. by apply elem_of_nil in Hv.
Qed.

(** A value with votes has its tracker, holding the number of its votes. *)
Lemma collate_all_votes v l :
  (Z.of_nat (length l) < 2 ^ 63)%Z → (0 < votes v l)%nat →
  ∃ t, t ∈ collate_all l ∧ Tracker_Value t = v
       ∧ Tracker_Count t = Z.of_nat (votes v l).
Proof.
  intros Hlen Hv. destruct (collate_all_ok l) as (_ & Hcount & Hcover).
  apply Hcover in Hv. apply list_elem_of_fmap in Hv as (t & -> & Ht).
  exists t. split; [done|]. split; [done|].
  rewrite (Hcount t Ht). apply wrap_small.
  pose proof (votes_le (Tracker_Value t) l). lia.
Qed.

(** *** The frame of the sweep *)

Lemma json_asset_idemp a : json_asset (json_asset a) = json_asset a.
Proof.
  unfold json_asset. destruct a. simpl. unfold set_Asset_SubmittedData. simpl. f_equal.
  rewrite <- map_fmap_compose. apply map_fmap_ext. intros k v _. apply json_value_idemp.
Qed.

Lemma verified_doc_idemp x : verified_doc (verified_doc x) = verified_doc x.
Proof.
  unfold verified_doc, json_assignment, set_Assignment_Asset, set_Assignment_State.
  simpl. by rewrite json_asset_idemp.
Qed.

Lemma sweep_rel_refl ids s : sweep_rel ids s s.
Proof. unfold sweep_rel. repeat split; eauto. Qed.

Lemma sweep_rel_trans ids1 ids2 s1 s2 s3 :
  sweep_rel ids1 s1 s2 → sweep_rel ids2 s2 s3 → sweep_rel (ids1 ++ ids2) s1 s3.
Proof.
  intros (Hp & Ht & Hf & H4 & H5 & H6 & H8 & H9)
         (Hp' & Ht' & Hf' & H4' & H5' & H6' & H8' & H9').
  unfold sweep_rel. split; [congruence|]. split; [congruence|]. split; [congruence|].
  split; [|split; [|split; [|split]]].
  - intros k Hk. rewrite not_elem_of_app in Hk. destruct Hk. by rewrite H4', H4.
  - intros k a' Ha'. destruct (H5' k a' Ha') as (a2 & Ha2 & Hid).
    destruct (H5 k a2 Ha2) as (a1 & Ha1 & Hid'). exists a1. split; [done|congruence].
  - intros k a Ha. destruct (H6 k a Ha) as [a2 Ha2]. by eapply H6'.
  - intros k x Hx Hk. rewrite not_elem_of_app in Hk. destruct Hk. eauto.
  - intros k x' Hx'. destruct (H9' k x' Hx') as (x2 & Hx2 & Hc2).
    destruct (H9 k x2 Hx2) as (x1 & Hx1 & Hc1). exists x1. split; [done|].
    destruct Hc2 as [->| ->]; [done|]. destruct Hc1 as [->| ->]; [by right|].
    right. apply verified_doc_idemp.
Qed.

Lemma sweep_rel_wf ids s s' :
  sweep_rel ids s s' → wf_assignments s → wf_assignments s'.
Proof.
  intros (_ & _ & _ & _ & _ & _ & _ & H9) Hwf k x' Hx'.
  destruct (H9 k x' Hx') as (x & Hx & Hc). destruct (Hwf k x Hx) as [Hid Hk].
  split; [|done]. by destruct Hc as [->| ->].
Qed.

Lemma sweep_rel_reads ids s s' : sweep_rel ids s s' → reads_ok s → reads_ok s'.
Proof. intros (_ & _ & Hf & _) Hr r. rewrite Hf. apply Hr. Qed.

Lemma sweep_rel_no_empty ids s s' :
  sweep_rel ids s s' → es_assets (EsConn s) !! "" = None →
  es_assets (EsConn s') !! "" = None.
Proof.
  intros (_ & _ & _ & _ & H5 & _) He.
  destruct (es_assets (EsConn s') !! "") as [a'|] eqn:E; [|done].
  destruct (H5 _ _ E) as (a & Ha & _). congruence.
Qed.

Lemma iter_verify_other fault l n (m : gmap string Assignment) k :
  k ∉ Assignment_Id <$> l → Nat.iter n (verify_map fault l) m !! k = m !! k.
Proof.
  intros Hk. induction n as [|n IH]; [done|].
  simpl. by rewrite verify_map_other.
Qed.

Lemma iter_verify_cases fault l n (m : gmap string Assignment) k :
  Nat.iter n (verify_map fault l) m !! k = m !! k
  ∨ ∃ x, x ∈ l ∧ Assignment_Id x = k
         ∧ Nat.iter n (verify_map fault l) m !! k = Some (verified_doc x).
Proof.
  induction n as [|n IH]; [by left|]. simpl.
  destruct (verify_map_cases fault l (Nat.iter n (verify_map fault l) m) k)
    as [Heq|Hhit]; [|by right].
  rewrite Heq. exact IH.
Qed.

Lemma iter_verify_hit fault l n (m : gmap string Assignment) x :
  (0 < n)%nat → NoDup (Assignment_Id <$> l) → x ∈ l →
  fault (RIndex "assignments" (Assignment_Id x)) = false →
  Nat.iter n (verify_map fault l) m !! Assignment_Id x = Some (verified_doc x).
Proof.
  intros Hn Hnd Hin Hf. destruct n as [|n]; [lia|]. simpl. by apply verify_map_hit.
Qed.

(** The loop over the trackers of one bucket stays within the frame. *)
Lemma bucket_rel_sweep aid l n s s' :
  bucket_rel aid l n s s' → wf_assignments s →
  (∀ x, x ∈ l → ∃ k, es_assignments (EsConn s) !! k = Some x
                     ∧ Asset_Id (Assignment_Asset x) = aid) →
  sweep_rel [aid] s s'.
Proof.
  intros (Hp & Ht & Hf & (Ha1 & Ha2 & Ha3) & Hx) Hwf Hl.
  assert (Hstored : ∀ y, y ∈ l → es_assignments (EsConn s) !! Assignment_Id y = Some y).
  { intros y Hy. destruct (Hl y Hy) as (k & Hk & _).
    destruct (Hwf k y Hk) as [<- _]. done. }
  unfold sweep_rel. do 3 (split; [done|]). split; [|split; [|split; [|split]]].
  - intros k Hk. apply Ha1. intros ->. apply Hk. left.
  - intros k a' Ha'. destruct (decide (k = aid)) as [->|Hne]; [by apply Ha2|].
    rewrite Ha1 in Ha' by done. eauto.
  - intros k a Ha. destruct (decide (k = aid)) as [->|Hne]; [by eapply Ha3|].
    rewrite Ha1 by done. eauto.
  - intros k x Hk Hid. rewrite Hx, iter_verify_other; [done|].
    intros Hin. apply list_elem_of_fmap in Hin as (y & -> & Hy).
    rewrite (Hstored y Hy) in Hk. simplify_eq.
    destruct (Hl x Hy) as (_ & _ & Haid). apply Hid. rewrite Haid. left.
  - intros k x' Hx'. rewrite Hx in Hx'.
    destruct (iter_verify_cases (es_fault (EsConn s)) l n (es_assignments (EsConn s)) k)
      as [Heq|(y & Hy & <- & Heq)].
    + rewrite Heq in Hx'. eauto.
    + rewrite Heq in Hx'. simplify_eq. exists y. split; [by apply Hstored|by right].
Qed.

(** *** The finished assignments of a work item *)

Lemma matches_asset_finished_query taskName aid project (x : Assignment) :
  matches (asset_finished_query taskName aid project) x = true
  ↔ finished_for project taskName aid x.
Proof.
  unfold matches, asset_finished_query, finished_for. simpl.
  rewrite !andb_true_r, !andb_true_iff, !bool_decide_eq_true. tauto.
Qed.

Lemma elem_of_finished_assignments s taskName aid k x :
  (k, x) ∈ finished_assignments s taskName aid
  ↔ es_assignments (EsConn s) !! k = Some x
    ∧ finished_for (ActiveProjectId s) taskName aid x.
Proof.
  unfold finished_assignments.
  by rewrite elem_of_all_hits, matches_asset_finished_query.
Qed.

Lemma finished_assignments_sweep ids s s' taskName aid :
  sweep_rel ids s s' → aid ∉ ids →
  finished_assignments s' taskName aid ≡ₚ finished_assignments s taskName aid.
Proof.
  intros (Hp & _ & _ & _ & _ & _ & H8 & H9) Hnin.
  apply NoDup_Permutation; [apply NoDup_all_hits..|].
  intros [k x]. rewrite !elem_of_finished_assignments, Hp. split.
  - intros [Hk Hfin]. destruct (H9 k x Hk) as (x0 & Hx0 & [->| ->]); [done|].
    destruct Hfin as (_ & _ & _ & Hst). by rewrite verified_doc_state in Hst.
  - intros [Hk Hfin]. split; [|done]. apply H8; [done|].
    destruct Hfin as (_ & -> & _). done.
Qed.

Lemma target_ok_sweep ids s s' taskName task aid :
  sweep_rel ids s s' → aid ∉ ids →
  target_ok s taskName task aid → target_ok s' taskName task aid.
Proof.
  intros Hrel Hnin (Ha & Hlen & v & Hpos & Hv).
  pose proof (finished_assignments_sweep ids s s' taskName aid Hrel Hnin) as Hperm.
  assert (Hvotes : votes v (finished_assignments s' taskName aid).*2
                   = votes v (finished_assignments s taskName aid).*2).
  { apply votes_perm. by rewrite Hperm. }
  split; [|split].
  - destruct Ha as [a Ha]. destruct Hrel as (_ & _ & _ & _ & _ & H6 & _). by eapply H6.
  - by rewrite Hperm.
  - exists v. by rewrite Hvotes.
Qed.

(** A search without [size] returns all hits when they fit the page. *)
Lemma run_search_all s taskName aid :
  (length (finished_assignments s taskName aid) ≤ es_default_size)%nat →
  Hits_Hits (run_search (D:=Assignment)
               (asset_finished_query taskName aid (ActiveProjectId s)) (EsConn s))
  = finished_assignments s taskName aid.
Proof.
  intros Hlen. unfold run_search, finished_assignments in *. simpl.
  unfold sort_hits. simpl. by rewrite take_ge.
Qed.

Lemma finished_assignments_ids s taskName aid :
  wf_assignments s →
  Assignment_Id <$> (finished_assignments s taskName aid).*2
  = (finished_assignments s taskName aid).*1.
Proof.
  intros Hwf. rewrite <- list_fmap_compose. apply list_fmap_ext.
  intros i [k x] Hi. simpl.
  apply list_elem_of_lookup_2, elem_of_finished_assignments in Hi as [Hk _].
  by destruct (Hwf k x Hk).
Qed.

Lemma NoDup_finished_assignments_ids s taskName aid :
  wf_assignments s →
  NoDup (Assignment_Id <$> (finished_assignments s taskName aid).*2).
Proof.
  intros Hwf. rewrite finished_assignments_ids by done.
  unfold finished_assignments, all_hits.
  eapply (sublist_NoDup _ ((map_to_list (es_assignments (EsConn s))).*1)).
  - apply NoDup_fst_map_to_list.
  - apply fmap_sublist, sublist_filter.
Qed.

(** *** One bucket of the sweep *)

Lemma target_ok_tracker s taskName task aid :
  target_ok s taskName task aid →
  ∃ t, t ∈ collate_all (finished_assignments s taskName aid).*2
       ∧ (Matching (Task_CompletionCriteria task) ≤ Tracker_Count t)%Z.
Proof.
  intros (_ & Hlen & v & Hpos & Hv).
  destruct (collate_all_votes v (finished_assignments s taskName aid).*2)
    as (t & Ht & _ & Hc); [|done|].
  - rewrite length_fmap. unfold es_default_size in Hlen. lia.
  - exists t. split; [done|]. by rewrite Hc.
Qed.

Lemma bucket_rel_verified aid n s s1 taskName k x :
  bucket_rel aid (finished_assignments s taskName aid).*2 n s s1 →
  wf_assignments s → (0 < n)%nat →
  (k, x) ∈ finished_assignments s taskName aid →
  es_fault (EsConn s) (RIndex "assignments" k) = false →
  es_assignments (EsConn s1) !! k = Some (verified_doc x).
Proof.
  intros (_ & _ & _ & _ & Hx) Hwf Hn Hin Hf.
  pose proof Hin as Hin'. apply elem_of_finished_assignments in Hin' as [Hk _].
  destruct (Hwf k x Hk) as [Hid _]. subst k. rewrite Hx.
  apply iter_verify_hit; [done|by apply NoDup_finished_assignments_ids| |done].
  apply list_elem_of_fmap. by exists (Assignment_Id x, x).
Qed.

Lemma finished_assignments_stored s taskName aid x :
  x ∈ (Hits_Hits (run_search (D:=Assignment)
                    (asset_finished_query taskName aid (ActiveProjectId s))
                    (EsConn s))).*2 →
  ∃ k, es_assignments (EsConn s) !! k = Some x
       ∧ Asset_Id (Assignment_Asset x) = aid.
Proof.
  intros Hin. apply list_elem_of_fmap in Hin as ([k y] & -> & Hin). simpl.
  apply run_search_hits in Hin as [Hk Hm].
  apply matches_asset_finished_query in Hm as (_ & Ha & _). eauto.
Qed.

(** *** The loop over the buckets *)

(** The sweep over distinct buckets never fails when reads work: it stays
    within the frame, returns only work items it has written, and completes
    every bucket that reaches the threshold on a work item as in
    [target_ok], unless the write of the work item fails. *)
Lemma complete_buckets_spec task taskName bs assets s :
  reads_ok s → wf_assignments s → es_assets (EsConn s) !! "" = None →
  NoDup (Bucket_Id <$> bs) →
  wp (complete_buckets task taskName bs assets)
    (λ r s',
       ∃ new,
         r = Ok (assets ++ new)
         ∧ sweep_rel (Bucket_Id <$> bs) s s'
         ∧ (∀ a, a ∈ new →
              ∃ b a0, b ∈ bs
                ∧ es_fault (EsConn s) (RIndex "assets" (Bucket_Id b)) = false
                ∧ es_assets (EsConn s) !! Bucket_Id b = Some a0
                ∧ Asset_Id a = Asset_Id a0)
         ∧ (∀ b, b ∈ bs →
              (Matching (Task_CompletionCriteria task) ≤ Bucket_Count b)%Z →
              target_ok s taskName task (Bucket_Id b) →
              es_fault (EsConn s) (RIndex "assets" (Bucket_Id b)) = false →
              (∃ a a0, a ∈ new ∧ es_assets (EsConn s) !! Bucket_Id b = Some a0
                       ∧ Asset_Id a = Asset_Id a0)
              ∧ ∀ k x, (k, x) ∈ finished_assignments s taskName (Bucket_Id b) →
                       es_fault (EsConn s) (RIndex "assignments" k) = false →
                       es_assignments (EsConn s') !! k = Some (verified_doc x))) s.
Proof.
  revert assets s. induction bs as [|b bs IH]; intros assets s Hr Hwf He Hnd.
  - cbn [complete_buckets]. wp_step. exists []. rewrite app_nil_r.
    split; [done|]. split; [apply sweep_rel_refl|].
    split; intros ? Hin; by apply elem_of_nil in Hin.
  - rewrite fmap_cons in Hnd. apply NoDup_cons in Hnd as [Hnin Hnd].
    cbn [complete_buckets].
    destruct (Matching (Task_CompletionCriteria task) <=? Bucket_Count b)%Z eqn:Hq.
    + wp_step. wp_step. wp_step. wp_step; [reads_contra|]. wp_step.
      pose proof (finished_assignments_stored s taskName (Bucket_Id b)) as Hl.
      eapply wp_mono.
      { apply complete_trackers_spec; [done|done|].
        intros x Hx. destruct (Hl x Hx) as (k & Hk & _).
        destruct (Hwf k x Hk) as [-> Hne]. done. }
      cbv beta. intros r s1 (new1 & n & -> & Hb & Hn & Hnew1 & Hpos). cbv beta iota.
      pose proof (bucket_rel_sweep _ _ _ _ _ Hb Hwf Hl) as Hs1.
      eapply wp_mono.
      { apply IH; [by eapply sweep_rel_reads|by eapply sweep_rel_wf
                  |by eapply sweep_rel_no_empty|done]. }
      cbv beta. intros r s' (new2 & -> & Hs2 & Hnew2 & Hpos2).
      exists (new1 ++ new2). rewrite app_assoc. split; [done|].
      split; [exact (sweep_rel_trans _ _ _ _ _ Hs1 Hs2)|]. split.
      * intros a Ha. apply elem_of_app in Ha as [Ha|Ha].
        -- destruct (Hnew1 a Ha) as (Hf & a0 & Ha0 & Hid).
           exists b, a0. split; [left|]. done.
        -- destruct (Hnew2 a Ha) as (b' & a1 & Hb' & Hf & Ha1 & Hid).
           destruct Hs1 as (_ & _ & Hfault & _ & H5 & _).
           destruct (H5 _ _ Ha1) as (a0 & Ha0 & Hid').
           exists b', a0. split; [by right|]. rewrite <- Hfault.
           split; [done|]. split; [done|]. congruence.
      * intros b' Hb' Hq' Ht Hf. apply elem_of_cons in Hb' as [->|Hb'].
        -- destruct Ht as (Ha & Hlen & Hv).
           assert (Hne : new1 ≠ []).
           { apply Hpos; [|done|done]. rewrite run_search_all by done.
             apply target_ok_tracker. by split. }
           split.
           ++ destruct new1 as [|a new1]; [done|].
              destruct (Hnew1 a) as (_ & a0 & Ha0 & Hid); [left|].
              exists a, a0. split; [left|]. done.
           ++ intros k x Hin Hfk. rewrite run_search_all in Hb by done.
              assert (Hv1 : es_assignments (EsConn s1) !! k = Some (verified_doc x)).
              { eapply bucket_rel_verified; [exact Hb|done| |done|done].
                subst n. destruct new1; [done|simpl; lia]. }
              destruct Hs2 as (_ & _ & _ & _ & _ & _ & H8 & _). apply H8; [done|].
              rewrite verified_doc_asset_id.
              apply elem_of_finished_assignments in Hin as (_ & _ & -> & _). done.
        -- assert (Hne : Bucket_Id b' ∉ [Bucket_Id b]).
           { intros Hin. apply list_elem_of_singleton in Hin. apply Hnin.
             rewrite <- Hin. apply list_elem_of_fmap. by exists b'. }
           destruct (Hpos2 b' Hb' Hq') as [(a & a1 & Ha & Ha1 & Hid) Hver].
           { by eapply target_ok_sweep. }
           { destruct Hs1 as (_ & _ & -> & _). done. }
           split.
           ++ destruct Hs1 as (_ & _ & _ & _ & H5 & _).
              destruct (H5 _ _ Ha1) as (a0 & Ha0 & Hid').
              exists a, a0. split; [apply elem_of_app; by right|].
              split; [done|congruence].
           ++ intros k x Hin Hfk. apply Hver.
              ** by rewrite (finished_assignments_sweep _ _ _ _ _ Hs1 Hne).
              ** destruct Hs1 as (_ & _ & -> & _). done.
    + eapply wp_mono; [by apply IH|].
      cbv beta. intros r s' (new & -> & Hs & Hnew & Hpos).
      exists new. split; [done|].
      split; [exact (sweep_rel_trans [Bucket_Id b] _ _ _ _ (sweep_rel_refl _ s) Hs)|].
      split.
      * intros a Ha. destruct (Hnew a Ha) as (b' & a0 & Hb' & Hrest).
        exists b', a0. split; [by right|done].
      * intros b' Hb' Hq' Ht Hf. apply elem_of_cons in Hb' as [->|Hb'].
        -- apply Z.leb_gt in Hq. lia.
        -- by apply Hpos.
Qed.

(** *** The buckets of the aggregation *)

Lemma length_remove_dups (l : list string) :
  (length (remove_dups l) ≤ length l)%nat.
Proof.
  induction l as [|x l IH]; [done|]. simpl.
  destruct (decide_rel elem_of x l); simpl; lia.
Qed.

Lemma NoDup_agg_buckets keys m size : NoDup (Bucket_Id <$> agg_buckets keys m size).
Proof.
  unfold agg_buckets.
  eapply sublist_NoDup; [|apply fmap_sublist, sublist_take].
  rewrite merge_sort_Permutation.
  eapply sublist_NoDup; [|apply fmap_sublist, sublist_filter].
  rewrite <- list_fmap_compose.
  change (Bucket_Id ∘ _) with (@id string).
  rewrite list_fmap_id. apply NoDup_remove_dups.
Qed.

Lemma elem_of_agg_buckets keys m size k :
  (length (remove_dups keys) ≤ size)%nat → k ∈ keys →
  (m ≤ Z.of_nat (length (filter (λ k', k' = k) keys)))%Z →
  mkBucket k (Z.of_nat (length (filter (λ k', k' = k) keys)))
  ∈ agg_buckets keys m size.
Proof.
  intros Hsize Hk Hm. unfold agg_buckets. rewrite take_ge.
  - rewrite merge_sort_Permutation. apply list_elem_of_filter. split; [done|].
    apply list_elem_of_fmap. exists k. split; [done|]. by apply elem_of_remove_dups.
  - rewrite merge_sort_Permutation.
    etrans; [apply length_filter|]. by rewrite length_fmap.
Qed.

Lemma sweep_keys (l : list (string * Assignment)) :
  omap (λ kd, group_key ["Asset"; "Id"] kd.2) l
  = (λ kd, Asset_Id (Assignment_Asset kd.2)) <$> l.
Proof. induction l as [|kd l IH]; [done|]. simpl. by f_equal. Qed.

Lemma matches_finished_query taskName project (x : Assignment) :
  matches (finished_query taskName project) x = true
  ↔ Assignment_Task x = taskName ∧ Assignment_Project x = project
    ∧ Assignment_State x = "finished".
Proof.
  unfold matches, finished_query. simpl.
  rewrite !andb_true_r, !andb_true_iff, !bool_decide_eq_true. tauto.
Qed.

Lemma finished_assignments_filter s taskName aid :
  finished_assignments s taskName aid
  = filter (λ kd, Asset_Id (Assignment_Asset kd.2) = aid) (task_finished s taskName).
Proof.
  unfold finished_assignments, task_finished, all_hits.
  rewrite list_filter_filter. apply list_filter_iff. intros [k x]. simpl.
  rewrite !Is_true_true, matches_asset_finished_query, matches_finished_query.
  unfold finished_for. tauto.
Qed.

Lemma sweep_count s taskName aid :
  length (filter (λ k', k' = aid)
            ((λ kd : string * Assignment, Asset_Id (Assignment_Asset kd.2))
               <$> task_finished s taskName))
  = length (finished_assignments s taskName aid).
Proof.
  rewrite finished_assignments_filter.
  induction (task_finished s taskName) as [|kd l IH]; [done|].
  rewrite fmap_cons, !filter_cons. simpl.
  destruct (decide (Asset_Id (Assignment_Asset kd.2) = aid)); simpl; by rewrite IH.
Qed.

Lemma NoDup_sweep_buckets s taskName task :
  NoDup (Bucket_Id <$> sweep_buckets s taskName task).
Proof. apply NoDup_agg_buckets. Qed.

(** A work item with enough finished assignments has its bucket. *)
Lemma sweep_buckets_target s taskName task aid :
  (length (task_finished s taskName) ≤ 50000)%nat →
  finished_assignments s taskName aid ≠ [] →
  (Total (Task_CompletionCriteria task)
   ≤ Z.of_nat (length (finished_assignments s taskName aid)))%Z →
  mkBucket aid (Z.of_nat (length (finished_assignments s taskName aid)))
  ∈ sweep_buckets s taskName task.
Proof.
  intros Hsize Hne Htot. unfold sweep_buckets, run_aggregation.
  fold (task_finished s taskName). rewrite sweep_keys.
  rewrite <- (sweep_count s taskName aid) in *.
  apply elem_of_agg_buckets; [| |done].
  - etrans; [|exact Hsize].
    etrans; [apply length_remove_dups|]. by rewrite length_fmap.
  - destruct (filter _ (_ <$> task_finished s taskName)) as [|k' r] eqn:E.
    + exfalso. apply Hne. apply nil_length_inv.
      by rewrite <- sweep_count, E.
    + assert (Hin : k' ∈ filter (λ k', k' = aid)
                ((λ kd : string * Assignment, Asset_Id (Assignment_Asset kd.2))
                   <$> task_finished s taskName)) by (rewrite E; left).
      apply list_elem_of_filter in Hin as [-> Hin]. done.
Qed.

(** *** The whole sweep *)

(** When reads work and the task exists, [CompleteTask] returns its list
    with a nil error, whatever writes fail on the way. *)
Lemma CompleteTask_spec taskId task s :
  reads_ok s → wf_assignments s → wf_assets s →
  es_tasks (EsConn s) !! (ActiveProjectId s +:+ "-" +:+ taskId) = Some task →
  ∃ assets s',
    CompleteTask taskId s = ((assets, None), s')
    ∧ sweep_rel
        (Bucket_Id <$> sweep_buckets s (ActiveProjectId s +:+ "-" +:+ taskId) task) s s'
    ∧ (∀ a, a ∈ assets →
         ∃ b a0, b ∈ sweep_buckets s (ActiveProjectId s +:+ "-" +:+ taskId) task
           ∧ es_fault (EsConn s) (RIndex "assets" (Bucket_Id b)) = false
           ∧ es_assets (EsConn s) !! Bucket_Id b = Some a0
           ∧ Asset_Id a = Asset_Id a0)
    ∧ (∀ b, b ∈ sweep_buckets s (ActiveProjectId s +:+ "-" +:+ taskId) task →
         (Matching (Task_CompletionCriteria task) ≤ Bucket_Count b)%Z →
         target_ok s (ActiveProjectId s +:+ "-" +:+ taskId) task (Bucket_Id b) →
         es_fault (EsConn s) (RIndex "assets" (Bucket_Id b)) = false →
         (∃ a a0, a ∈ assets ∧ es_assets (EsConn s) !! Bucket_Id b = Some a0
                  ∧ Asset_Id a = Asset_Id a0)
         ∧ ∀ k x,
             (k, x) ∈ finished_assignments s (ActiveProjectId s +:+ "-" +:+ taskId)
                        (Bucket_Id b) →
             es_fault (EsConn s) (RIndex "assignments" k) = false →
             es_assignments (EsConn s') !! k = Some (verified_doc x)).
Proof.
  intros Hr Hwf Hwfa Htask.
  assert (He : es_assets (EsConn s) !! "" = None).
  { destruct (es_assets (EsConn s) !! "") as [a|] eqn:E; [|done].
    by destruct (Hwfa _ _ E) as [_ Hne]. }
  assert (Hsweep : wp (complete_task_sweep taskId)
            (λ r s', ∃ new, r = Ok ([] ++ new)
               ∧ sweep_rel (Bucket_Id <$> sweep_buckets s
                              (ActiveProjectId s +:+ "-" +:+ taskId) task) s s'
               ∧ (∀ a, a ∈ new →
                    ∃ b a0, b ∈ sweep_buckets s (ActiveProjectId s +:+ "-" +:+ taskId) task
                      ∧ es_fault (EsConn s) (RIndex "assets" (Bucket_Id b)) = false
                      ∧ es_assets (EsConn s) !! Bucket_Id b = Some a0
                      ∧ Asset_Id a = Asset_Id a0)
               ∧ (∀ b, b ∈ sweep_buckets s (ActiveProjectId s +:+ "-" +:+ taskId) task →
                    (Matching (Task_CompletionCriteria task) ≤ Bucket_Count b)%Z →
                    target_ok s (ActiveProjectId s +:+ "-" +:+ taskId) task (Bucket_Id b) →
                    es_fault (EsConn s) (RIndex "assets" (Bucket_Id b)) = false →
                    (∃ a a0, a ∈ new ∧ es_assets (EsConn s) !! Bucket_Id b = Some a0
                             ∧ Asset_Id a = Asset_Id a0)
                    ∧ ∀ k x,
                        (k, x) ∈ finished_assignments s
                                   (ActiveProjectId s +:+ "-" +:+ taskId) (Bucket_Id b) →
                        es_fault (EsConn s) (RIndex "assignments" k) = false →
                        es_assignments (EsConn s') !! k = Some (verified_doc x))) s).
  { unfold complete_task_sweep. wp_step. wp_step. wp_step.
    wp_step; [reads_contra|].
    change (docs_of (EsConn s) !! (ActiveProjectId s +:+ "-" +:+ taskId))
      with (es_tasks (EsConn s) !! (ActiveProjectId s +:+ "-" +:+ taskId)).
    rewrite Htask. wp_step. wp_step; [reads_contra|].
    apply complete_buckets_spec; [done|done|done|apply NoDup_sweep_buckets]. }
  unfold wp in Hsweep. unfold CompleteTask.
  destruct (complete_task_sweep taskId s) as [r s1]. simpl in Hsweep.
  destruct Hsweep as (new & -> & Hrel & Hnew & Hpos). simpl.
  unfold Refresh, call.
  destruct (es_fault (EsConn s1) RRefresh) eqn:Hf.
  { destruct Hrel as (_ & _ & Hfault & _). rewrite Hfault in Hf.
    destruct (Hr _ Hf) as (? & ? & ?). discriminate. }
  exists new, s1. done.
Qed.

Lemma wf_assignments_check s : wf_assignments_b s = true → wf_assignments s.
Proof.
  unfold wf_assignments_b. rewrite forallb_forall. intros Hall k x Hk.
  specialize (Hall (k, x)). simpl in Hall.
  rewrite andb_true_iff, negb_true_iff, String.eqb_eq, String.eqb_neq in Hall.
  apply Hall, list_elem_of_In. by apply elem_of_map_to_list.
Qed.

Lemma wf_assets_check s : wf_assets_b s = true → wf_assets s.
Proof.
  unfold wf_assets_b. rewrite forallb_forall. intros Hall k x Hk.
  specialize (Hall (k, x)). simpl in Hall.
  rewrite andb_true_iff, negb_true_iff, String.eqb_eq, String.eqb_neq in Hall.
  apply Hall, list_elem_of_In. by apply elem_of_map_to_list.
Qed.

Lemma healthy_reads_ok s : healthy s → reads_ok s.
Proof. intros Hh r Hr. rewrite Hh in Hr. discriminate. Qed.

(** ** The consensus sweep promotes every finished assignment of the item *)

(** C1 (as the code has it).  When no store call fails, every assignment
    and every work item is stored under its own [Id], which is not empty,
    the task exists and has at most 50000 finished assignments (the size of
    the aggregation), the work item [aid] exists with at most ten finished
    assignments of the task (the page of the search), some submitted value
    among them has at least [Matching] votes, and the item has at least
    [Total] finished assignments (so the aggregation returns its bucket),
    then [CompleteTask] stores every finished assignment of the work item as
    verified, whatever data it submitted: also the assignments outside the
    winning partition. *)
Theorem CompleteTask_verifies_every_finished taskId task aid s :
  healthy s → wf_assignments s → wf_assets s →
  es_tasks (EsConn s) !! (ActiveProjectId s +:+ "-" +:+ taskId) = Some task →
  target_ok s (ActiveProjectId s +:+ "-" +:+ taskId) task aid →
  (Total (Task_CompletionCriteria task)
   ≤ Z.of_nat (length (finished_assignments s
                         (ActiveProjectId s +:+ "-" +:+ taskId) aid)))%Z →
  (length (task_finished s (ActiveProjectId s +:+ "-" +:+ taskId)) ≤ 50000)%nat →
  ∀ k x,
    es_assignments (EsConn s) !! k = Some x →
    finished_for (ActiveProjectId s) (ActiveProjectId s +:+ "-" +:+ taskId) aid x →
    es_assignments (EsConn (CompleteTask taskId s).2) !! k = Some (verified_doc x)
    ∧ Assignment_State (verified_doc x) = "verified"
    ∧ Assignment_SubmittedData (verified_doc x) = Assignment_SubmittedData x.
Proof.
  intros Hh Hwf Hwfa Htask Htarget Htot Hsize k x Hk Hfin.
  split; [|done].
  destruct (CompleteTask_spec taskId task s) as (assets & s' & Hrun & _ & _ & Hpos);
    [by apply healthy_reads_ok|done..|].
  rewrite Hrun. simpl.
  set (taskName := ActiveProjectId s +:+ "-" +:+ taskId) in *.
  assert (Hin : (k, x) ∈ finished_assignments s taskName aid)
    by by apply elem_of_finished_assignments.
  pose proof Htarget as (_ & _ & v & _ & Hv).
  pose proof (votes_le v (finished_assignments s taskName aid).*2) as Hle.
  rewrite length_fmap in Hle.
  destruct (Hpos (mkBucket aid (Z.of_nat (length (finished_assignments s taskName aid)))))
    as [_ Hver]; simpl; [|lia|done|apply Hh|].
  - apply sweep_buckets_target; [done| |done].
    intros Hnil. rewrite Hnil in Hin. by apply elem_of_nil in Hin.
  - apply Hver; [done|apply Hh].
Qed.

Lemma CompleteTask_verifies_every_finished_witness :
  healthy c1_server
  ∧ target_ok c1_server "p-oi" c1_task "a1"
  ∧ Assignment_SubmittedData (c1_assignment "a1" "w3" "blurry") = c1_answer "blurry"
  ∧ es_assignments (EsConn (CompleteTask "oi" c1_server).2) !! c1_id "a1" "w3"
    = Some (verified_doc (c1_assignment "a1" "w3" "blurry")).
Proof.
  assert (Hh : healthy c1_server) by (intros r; reflexivity).
  assert (Hwf : wf_assignments c1_server)
    by (apply wf_assignments_check; vm_compute; reflexivity).
  assert (Hwfa : wf_assets c1_server)
    by (apply wf_assets_check; vm_compute; reflexivity).
  assert (Ht : target_ok c1_server "p-oi" c1_task "a1").
  { split; [by eexists; vm_compute|]. split.
    - apply Nat.leb_le. vm_compute. reflexivity.
    - exists (c1_answer "usable"). split.
      + apply Nat.ltb_lt. vm_compute. reflexivity.
      + apply Z.leb_le. vm_compute. reflexivity. }
  split; [exact Hh|]. split; [exact Ht|]. split; [reflexivity|].
  refine (proj1 (CompleteTask_verifies_every_finished "oi" c1_task "a1" c1_server
                   Hh Hwf Hwfa _ Ht _ _ (c1_id "a1" "w3")
                   (c1_assignment "a1" "w3" "blurry") _ _)).
  - vm_compute. reflexivity.
  - apply Z.leb_le. vm_compute. reflexivity.
  - apply Nat.leb_le. vm_compute. reflexivity.
  - vm_compute. reflexivity.
  - repeat split.
Defined.

(** The work item "a1" has two answers "usable" and one answer "blurry";
    with [Matching = 2] the sweep leaves the assignment with the answer
    "blurry" verified, not finished. *)
Lemma CompleteTask_promotes_losing_answer :
  Matching (Task_CompletionCriteria c1_task) = 2%Z
  ∧ votes (c1_answer "usable") (finished_assignments c1_server "p-oi" "a1").*2 = 2%nat
  ∧ es_assignments (EsConn c1_server) !! c1_id "a1" "w3"
    = Some (c1_assignment "a1" "w3" "blurry")
  ∧ Assignment_State (c1_assignment "a1" "w3" "blurry") = "finished"
  ∧ Assignment_SubmittedData (c1_assignment "a1" "w3" "blurry") ≠ c1_answer "usable"
  ∧ Assignment_State
      <$> es_assignments (EsConn (CompleteTask "oi" c1_server).2) !! c1_id "a1" "w3"
    = Some "verified".
Proof.
  split; [reflexivity|]. split; [vm_compute; reflexivity|].
  split; [vm_compute; reflexivity|]. split; [reflexivity|].
  split; [|vm_compute; reflexivity].
  unfold c1_assignment, c1_answer. simpl. intros H.
  apply (f_equal (λ o, o ≫= (λ m : gmap string value, m !! "quality"))) in H.
  vm_compute in H. discriminate.
Qed.

(** Why the assignments have to be stored under their own ids: the sweep
    saves a hit under the [Id] inside the document.  An assignment stored
    under a generated id with an empty [Id] is written once more, as
    verified, under a new generated id, and the document the search found
    stays finished. *)
Lemma CompleteTask_assignment_without_id :
  es_assignments (EsConn c1_without_id_server) !! "es-0" = Some c1_posted_without_id
  ∧ finished_for "p" "p-oi" "a1" c1_posted_without_id
  ∧ votes (c1_answer "usable")
      (finished_assignments c1_without_id_server "p-oi" "a1").*2 = 2%nat
  ∧ Assignment_State
      <$> es_assignments (EsConn (CompleteTask "oi" c1_without_id_server).2) !! "es-0"
    = Some "finished"
  ∧ Assignment_State
      <$> es_assignments (EsConn (CompleteTask "oi" c1_without_id_server).2) !! "es-1"
    = Some "verified"
  ∧ Assignment_State
      <$> es_assignments (EsConn (CompleteTask "oi" c1_without_id_server).2)
            !! c1_id "a1" "w1"
    = Some "verified".
Proof. vm_compute. repeat split; reflexivity. Qed.

(** ** Failures during the consensus sweep *)

(** C8 (as the code has it).  When the task exists and only writes to the
    store fail, [CompleteTask] does not abort: it returns its list of work
    items with a nil error.  Every work item in the list was written without
    a failure, and every bucket that reaches the threshold on a work item as
    in [target_ok] and whose own write does not fail has its work item in
    the list, whatever failed on the other work items.  The failures
    themselves are not returned. *)
Theorem CompleteTask_write_failures taskId task s :
  reads_ok s → wf_assignments s → wf_assets s →
  es_tasks (EsConn s) !! (ActiveProjectId s +:+ "-" +:+ taskId) = Some task →
  ∃ assets,
    (CompleteTask taskId s).1 = (assets, None)
    ∧ (∀ a, a ∈ assets →
         ∃ b a0, b ∈ sweep_buckets s (ActiveProjectId s +:+ "-" +:+ taskId) task
           ∧ es_fault (EsConn s) (RIndex "assets" (Bucket_Id b)) = false
           ∧ es_assets (EsConn s) !! Bucket_Id b = Some a0
           ∧ Asset_Id a = Asset_Id a0)
    ∧ (∀ b, b ∈ sweep_buckets s (ActiveProjectId s +:+ "-" +:+ taskId) task →
         (Matching (Task_CompletionCriteria task) ≤ Bucket_Count b)%Z →
         target_ok s (ActiveProjectId s +:+ "-" +:+ taskId) task (Bucket_Id b) →
         es_fault (EsConn s) (RIndex "assets" (Bucket_Id b)) = false →
         ∃ a a0, a ∈ assets ∧ es_assets (EsConn s) !! Bucket_Id b = Some a0
                 ∧ Asset_Id a = Asset_Id a0).
Proof.
  intros Hr Hwf Hwfa Htask.
  destruct (CompleteTask_spec taskId task s Hr Hwf Hwfa Htask)
    as (assets & s' & Hrun & _ & Hnew & Hpos).
  exists assets. rewrite Hrun. split; [done|]. split; [done|].
  intros b Hb Hq Ht Hf. by destruct (Hpos b Hb Hq Ht Hf) as [Ha _].
Qed.

Lemma CompleteTask_write_failures_witness :
  reads_ok c8_server
  ∧ es_fault (EsConn c8_server) (RIndex "assets" "a1") = true
  ∧ ∃ assets, (CompleteTask "oi" c8_server).1 = (assets, None)
      ∧ ∃ a, a ∈ assets ∧ Asset_Id a = "a2".
Proof.
  assert (Hr : reads_ok c8_server).
  { intros r Hf. destruct r; try discriminate. eauto. }
  assert (Hwf : wf_assignments c8_server)
    by (apply wf_assignments_check; vm_compute; reflexivity).
  assert (Hwfa : wf_assets c8_server)
    by (apply wf_assets_check; vm_compute; reflexivity).
  assert (Htask : es_tasks (EsConn c8_server) !! (ActiveProjectId c8_server +:+ "-" +:+ "oi")
                  = Some c1_task) by (vm_compute; reflexivity).
  split; [exact Hr|]. split; [reflexivity|].
  destruct (CompleteTask_write_failures "oi" c1_task c8_server Hr Hwf Hwfa Htask)
    as (assets & Hrun & _ & Hpos).
  exists assets. split; [exact Hrun|].
  destruct (Hpos (mkBucket "a2" 2)) as (a & a0 & Ha & Ha0 & Hid).
  - apply list_elem_of_In. vm_compute. right. left. reflexivity.
  - apply Z.leb_le. vm_compute. reflexivity.
  - split; [by eexists; vm_compute|]. split.
    + apply Nat.leb_le. vm_compute. reflexivity.
    + exists (c1_answer "usable"). split.
      * apply Nat.ltb_lt. vm_compute. reflexivity.
      * apply Z.leb_le. vm_compute. reflexivity.
  - reflexivity.
  - exists a. split; [exact Ha|]. rewrite Hid.
    change (es_assets (EsConn c8_server) !! "a2") with (Some (c1_asset "a2")) in Ha0.
    by injection Ha0 as <-.
Defined.

(** The write of the work item "a1" fails: the sweep returns the other work
    item and a nil error, so nothing it returns tells of the failure.  The
    search for the assignments of "a1" fails: the sweep stops there with no
    work items, and "a2" is not completed. *)
Lemma CompleteTask_reports_no_error_list :
  es_fault (EsConn c8_server) (RIndex "assets" "a1") = true
  ∧ (Asset_Id <$> (CompleteTask "oi" c8_server).1.1, (CompleteTask "oi" c8_server).1.2)
    = (["a2"], None)
  ∧ (CompleteTask "oi" c8_search_server).1 = ([], Some EStore)
  ∧ Asset_Verified <$> es_assets (EsConn (CompleteTask "oi" c8_search_server).2) !! "a2"
    = Some false
  ∧ (Asset_Id <$> (CompleteTask "oi" c1_server).1.1) = ["a1"; "a2"].
Proof. repeat split; vm_compute; reflexivity. Qed.

(** * Further properties of the code *)

(** ** Helpers *)

Lemma appendIfMissing_elem (slice : list string) (item x : string) :
  x ∈ appendIfMissing slice item ↔ x ∈ slice ∨ x = item.
Proof.
  induction slice as [|ele rest IH]; simpl.
  - rewrite list_elem_of_singleton. split; [by right|]. intros [H|H]; [|done].
    by apply elem_of_nil in H.
  - destruct (String.eqb_spec ele item) as [->|Hne].
    + split; [by left|]. intros [H| ->]; [done|left].
    + rewrite !elem_of_cons, IH. tauto.
Qed.

Lemma appendIfMissing_present (slice : list string) (item : string) :
  item ∈ slice → appendIfMissing slice item = slice.
Proof.
  induction slice as [|ele rest IH]; simpl.
  - intros H. by apply elem_of_nil in H.
  - destruct (String.eqb_spec ele item) as [->|Hne]; [done|].
    intros H. apply elem_of_cons in H as [H|H]; [congruence|]. by rewrite IH.
Qed.

Lemma appendIfMissing_absent (slice : list string) (item : string) :
  item ∉ slice → appendIfMissing slice item = slice ++ [item].
Proof.
  induction slice as [|ele rest IH]; simpl; [done|].
  rewrite not_elem_of_cons. intros [Hne Hnin].
  destruct (String.eqb_spec ele item) as [->|_]; [done|]. by rewrite IH.
Qed.

(** X1.  [appendIfMissing] returns a slice that holds the item and otherwise
    what the slice held; it returns the slice itself when the item is there
    and puts the item at the end when not; it keeps a slice free of
    duplicates so, and doing it twice is doing it once. *)
Theorem appendIfMissing_spec (slice : list string) (item : string) :
  (∀ x, x ∈ appendIfMissing slice item ↔ x ∈ slice ∨ x = item)
  ∧ (item ∈ slice → appendIfMissing slice item = slice)
  ∧ (item ∉ slice → appendIfMissing slice item = slice ++ [item])
  ∧ (NoDup slice → NoDup (appendIfMissing slice item))
  ∧ appendIfMissing (appendIfMissing slice item) item = appendIfMissing slice item.
Proof.
  split; [intros x; apply appendIfMissing_elem|].
  split; [apply appendIfMissing_present|].
  split; [apply appendIfMissing_absent|]. split.
  - intros Hnd. destruct (decide (item ∈ slice)) as [Hin|Hnin].
    + by rewrite appendIfMissing_present.
    + rewrite appendIfMissing_absent by done. apply NoDup_app.
      split; [done|]. split; [|apply NoDup_singleton].
      intros x Hx Hx'. apply list_elem_of_singleton in Hx'. by subst.
  - apply appendIfMissing_present, appendIfMissing_elem. by right.
Qed.

Lemma append_nil_l (x : string) : "" +:+ x = x.
Proof. reflexivity. Qed.

Lemma append_cons (a : Ascii.ascii) (s x : string) :
  String a s +:+ x = String a (s +:+ x).
Proof. reflexivity. Qed.

Lemma prefix_app (p x : string) : String.prefix p (p +:+ x) = true.
Proof.
  induction p as [|a p IH]; [by destruct x|]. rewrite append_cons. simpl.
  destruct (Ascii.ascii_dec a a); [exact IH|done].
Qed.

(** X2.  The task id of a handler: the empty id stays empty, an id that
    starts with the project id is taken as it is, every other id gets the
    project id and a dash in front.  So the result is empty or starts with
    the project id, the short and the long form of an id give the same
    result, and scoping twice is scoping once. *)
Theorem scoped_task_id_spec (project task_id : string) :
  scoped_task_id project "" = ""
  ∧ (String.prefix project task_id = true → scoped_task_id project task_id = task_id)
  ∧ (String.prefix project task_id = false → task_id ≠ "" →
     scoped_task_id project task_id = project +:+ "-" +:+ task_id)
  ∧ (task_id ≠ "" → String.prefix project (scoped_task_id project task_id) = true)
  ∧ scoped_task_id project (scoped_task_id project task_id)
    = scoped_task_id project task_id.
Proof.
  assert (H1 : ∀ t, String.prefix project t = true → scoped_task_id project t = t).
  { intros t Ht. unfold scoped_task_id. by rewrite Ht. }
  assert (H2 : ∀ t, String.prefix project t = false → t ≠ "" →
               scoped_task_id project t = project +:+ "-" +:+ t).
  { intros t Ht Hne. unfold scoped_task_id. rewrite Ht.
    by destruct (String.eqb_spec t ""). }
  split; [unfold scoped_task_id; simpl; by rewrite andb_false_r|].
  split; [apply H1|]. split; [apply H2|]. split.
  - intros Hne. destruct (String.prefix project task_id) eqn:E.
    + by rewrite H1.
    + rewrite H2 by done. apply prefix_app.
  - destruct (String.eqb_spec task_id "") as [->|Hne].
    + unfold scoped_task_id. simpl. by rewrite !andb_false_r.
    + destruct (String.prefix project task_id) eqn:E.
      * rewrite (H1 task_id E). by apply H1.
      * rewrite (H2 task_id) by done. apply H1, prefix_app.
Qed.

(** ** The id of an assignment *)

Lemma append_assoc (a b c : string) : (a +:+ b) +:+ c = a +:+ b +:+ c.
Proof. induction a as [|x a IH]; [done|]. rewrite !append_cons. by rewrite IH. Qed.

Lemma append_nil_r (a : string) : a +:+ "" = a.
Proof. induction a as [|x a IH]; [done|]. rewrite append_cons. by rewrite IH. Qed.

Lemma strings_Contains_cons c s sub :
  strings_Contains (String c s) sub = false →
  String.prefix sub (String c s) = false ∧ strings_Contains s sub = false.
Proof. simpl. by intros [? ?]%orb_false_iff. Qed.

Lemma prefix_cons a s1 b s2 :
  String.prefix (String a s1) (String b s2)
  = if Ascii.ascii_dec a b then String.prefix s1 s2 else false.
Proof. reflexivity. Qed.

Lemma prefix_nil s : String.prefix "" s = true.
Proof. by destruct s. Qed.

(** No occurrence of "HIVE" starts in a part that holds none, also not one
    that would run over into a following "HIVE". *)
Lemma prefix_HIVE_straddle c x rest :
  strings_Contains (String c x) "HIVE" = false →
  String.prefix "HIVE" (String c (x +:+ "HIVE" +:+ rest)) = false.
Proof.
  intros [Hp _]%strings_Contains_cons.
  destruct x as [|c2 [|c3 [|c4 x]]]; rewrite ?append_cons, ?append_nil_l;
    change ("HIVE" +:+ rest) with (String "H" (String "I" (String "V" (String "E" rest))));
    rewrite ?prefix_cons, ?prefix_nil in Hp |- *;
    repeat (destruct (Ascii.ascii_dec _ _) as [?|?]; [|done]); simplify_eq;
    reflexivity.
Qed.

Lemma split_aux_HIVE_part x rest cur :
  strings_Contains x "HIVE" = false →
  split_aux "HIVE" 0 (x +:+ "HIVE" +:+ rest) cur
  = (cur +:+ x) :: split_aux "HIVE" 0 rest "".
Proof.
  revert cur. induction x as [|c x IH]; intros cur Hx.
  - rewrite append_nil_l, append_nil_r. unfold String.append. fold String.append.
    cbn [split_aux]. rewrite !prefix_cons, prefix_nil. reflexivity.
  - rewrite append_cons. cbn [split_aux].
    rewrite (prefix_HIVE_straddle c x rest Hx).
    apply strings_Contains_cons in Hx as [_ Hx].
    rewrite (IH _ Hx). by rewrite append_assoc.
Qed.

Lemma split_aux_HIVE_last x cur :
  strings_Contains x "HIVE" = false →
  split_aux "HIVE" 0 x cur = [cur +:+ x].
Proof.
  revert cur. induction x as [|c x IH]; intros cur Hx.
  - by rewrite append_nil_r.
  - apply strings_Contains_cons in Hx as [Hp Hx]. cbn [split_aux]. rewrite Hp.
    rewrite (IH _ Hx). by rewrite append_assoc.
Qed.

(** X3.  The id of an assignment is its project, task, asset and user joined
    by "HIVE".  When none of the first three holds "HIVE", splitting the id
    at "HIVE" gives the asset id back as the third part, which is how
    [FindAssignmentAsset] reads it; when the user id holds none either, all
    four parts come back. *)
Theorem assignment_id_round_trip (project taskId assetId userId : string) :
  strings_Contains project "HIVE" = false →
  strings_Contains taskId "HIVE" = false →
  strings_Contains assetId "HIVE" = false →
  hit_asset_id (strings_Join [project; taskId; assetId; userId] "HIVE") = Some assetId
  ∧ (strings_Contains userId "HIVE" = false →
     strings_Split (strings_Join [project; taskId; assetId; userId] "HIVE") "HIVE"
     = [project; taskId; assetId; userId]).
Proof.
  intros Hp Ht Ha. unfold hit_asset_id, strings_Split. cbn [strings_Join].
  rewrite (split_aux_HIVE_part project _ "" Hp).
  rewrite (split_aux_HIVE_part taskId _ "" Ht).
  rewrite (split_aux_HIVE_part assetId _ "" Ha).
  rewrite !append_nil_l. split; [done|].
  intros Hu. by rewrite (split_aux_HIVE_last userId "" Hu).
Qed.

Lemma assignment_id_round_trip_witness :
  hit_asset_id (strings_Join ["moshpit"; "moshpit-oi"; "WzSEohOLTV"; "u1"] "HIVE")
  = Some "WzSEohOLTV".
Proof.
  exact (proj1 (assignment_id_round_trip "moshpit" "moshpit-oi" "WzSEohOLTV" "u1"
                  eq_refl eq_refl eq_refl)).
Defined.

(** ** The tally of the sweep *)

Lemma collate_all_elem l t :
  t ∈ collate_all l
  ↔ (0 < votes (Tracker_Value t) l)%nat
    ∧ Tracker_Count t = wrap (Z.of_nat (votes (Tracker_Value t) l)).
Proof.
  destruct (collate_all_ok l) as (Hnd & Hcount & Hcover). split.
  - intros Ht. split; [|by apply Hcount].
    apply Hcover. by apply list_elem_of_fmap_2.
  - intros [Hpos Hc]. apply Hcover in Hpos.
    apply list_elem_of_fmap in Hpos as (t' & Hv & Ht').
    pose proof (Hcount t' Ht') as Hc'. rewrite <- Hv, <- Hc in Hc'.
    destruct t, t'. simpl in *. by subst.
Qed.

(** X4.  The tally [CompleteTask] builds by collating the submitted data of
    the assignments one after the other: it has one tracker per submitted
    value, a tracker is in it exactly when its value was submitted and its
    count is the number of assignments that submitted the value (as an
    [int]), and the order of the assignments does not matter. *)
Theorem collate_all_tally (l : list Assignment) :
  NoDup (Tracker_Value <$> collate_all l)
  ∧ (∀ t, t ∈ collate_all l
          ↔ (0 < votes (Tracker_Value t) l)%nat
            ∧ Tracker_Count t = wrap (Z.of_nat (votes (Tracker_Value t) l)))
  ∧ (∀ l', l ≡ₚ l' → ∀ t, t ∈ collate_all l ↔ t ∈ collate_all l').
Proof.
  split; [by destruct (collate_all_ok l)|]. split; [apply collate_all_elem|].
  intros l' Hp t. rewrite !collate_all_elem. by rewrite (votes_perm _ l l' Hp).
Qed.

(** ** Enabling and disabling a task *)

Lemma UpdateTaskState_run taskId state s t :
  healthy s → es_tasks (EsConn s) !! taskId = Some t → Task_Id t = taskId →
  taskId ≠ "" →
  UpdateTaskState taskId state s
  = (Ok (set_Task_CurrentState state t),
     set_EsConn (with_docs (<[taskId := set_Task_CurrentState state t]>
                              (es_tasks (EsConn s))) (EsConn s)) s).
Proof.
  intros Hh Ht Hid Hne. unfold UpdateTaskState, FindTask, GetSource, Index, Refresh.
  unfold bind, call, ret. simpl. rewrite !Hh.
  change (docs_of (EsConn s) !! taskId) with (es_tasks (EsConn s) !! taskId).
  rewrite Ht. simpl. rewrite Hid. rewrite Hh. unfold store_doc.
  destruct (String.eqb_spec taskId "") as [|_]; [done|]. simpl. by rewrite Hh.
Qed.

(** X5.  When no store call fails and the task is stored under its own id,
    [UpdateTaskState] returns the task with the new state and nothing else
    changed, stores exactly that under the id, and leaves every other
    document as it was.  Setting the old state again afterwards gives the
    old store back. *)
Theorem UpdateTaskState_sets_state (taskId state : string) (s : Server) (t : Task) :
  healthy s → es_tasks (EsConn s) !! taskId = Some t → Task_Id t = taskId →
  taskId ≠ "" →
  let s' := (UpdateTaskState taskId state s).2 in
  (UpdateTaskState taskId state s).1 = Ok (set_Task_CurrentState state t)
  ∧ es_tasks (EsConn s') !! taskId = Some (set_Task_CurrentState state t)
  ∧ (∀ k, k ≠ taskId → es_tasks (EsConn s') !! k = es_tasks (EsConn s) !! k)
  ∧ es_assets (EsConn s') = es_assets (EsConn s)
  ∧ es_assignments (EsConn s') = es_assignments (EsConn s)
  ∧ es_users (EsConn s') = es_users (EsConn s)
  ∧ es_tasks (EsConn (UpdateTaskState taskId (Task_CurrentState t) s').2)
    = es_tasks (EsConn s).
Proof.
  intros Hh Ht Hid Hne s'. subst s'.
  rewrite (UpdateTaskState_run taskId state s t Hh Ht Hid Hne). simpl.
  split; [done|]. split; [by rewrite lookup_insert_eq|].
  split; [by intros k Hk; rewrite lookup_insert_ne|]. do 3 (split; [done|]).
  rewrite (UpdateTaskState_run taskId _ _ (set_Task_CurrentState state t)); simpl;
    [|done|by rewrite lookup_insert_eq|done|done].
  rewrite insert_insert_eq. destruct t. simpl. by apply insert_id.
Qed.

Lemma UpdateTaskState_sets_state_witness :
  (UpdateTaskState "p-oi" "waiting" x_enabled_server).1
  = Ok (set_Task_CurrentState "waiting" c4_task).
Proof.
  assert (Hh : healthy x_enabled_server) by (intros r; reflexivity).
  exact (proj1 (UpdateTaskState_sets_state "p-oi" "waiting" x_enabled_server c4_task
                  Hh eq_refl eq_refl ltac:(discriminate))).
Defined.

(** X6.  [UpdateTaskState] never touches work items, assignments or users,
    and never creates a task: for an id without a task it fails and the
    state of the server stays as it is.  It may fail after the write, though:
    when the refresh fails the new state has been stored. *)
Theorem UpdateTaskState_frame (taskId state : string) (s : Server) :
  let s' := (UpdateTaskState taskId state s).2 in
  es_assets (EsConn s') = es_assets (EsConn s)
  ∧ es_assignments (EsConn s') = es_assignments (EsConn s)
  ∧ es_users (EsConn s') = es_users (EsConn s)
  ∧ ActiveProjectId s' = ActiveProjectId s
  ∧ (es_tasks (EsConn s) !! taskId = None →
     s' = s ∧ ∃ e, (UpdateTaskState taskId state s).1 = Err e)
  ∧ (∀ t, es_tasks (EsConn s) !! taskId = Some t → Task_Id t = taskId → taskId ≠ "" →
          es_fault (EsConn s) (RGetSource "tasks" taskId) = false →
          es_fault (EsConn s) (RIndex "tasks" taskId) = false →
          es_fault (EsConn s) RRefresh = true →
          (UpdateTaskState taskId state s).1 = Err EStore
          ∧ es_tasks (EsConn s') !! taskId = Some (set_Task_CurrentState state t)).
Proof.
  cbv zeta.
  change (wp (UpdateTaskState taskId state)
            (λ r s', es_assets (EsConn s') = es_assets (EsConn s)
                     ∧ es_assignments (EsConn s') = es_assignments (EsConn s)
                     ∧ es_users (EsConn s') = es_users (EsConn s)
                     ∧ ActiveProjectId s' = ActiveProjectId s
                     ∧ (es_tasks (EsConn s) !! taskId = None → s' = s ∧ ∃ e, r = Err e)
                     ∧ (∀ t, es_tasks (EsConn s) !! taskId = Some t →
                             Task_Id t = taskId → taskId ≠ "" →
                             es_fault (EsConn s) (RGetSource "tasks" taskId) = false →
                             es_fault (EsConn s) (RIndex "tasks" taskId) = false →
                             es_fault (EsConn s) RRefresh = true →
                             r = Err EStore
                             ∧ es_tasks (EsConn s') !! taskId
                               = Some (set_Task_CurrentState state t))) s).
  unfold UpdateTaskState. wp_step. wp_step.
  { do 4 (split; [done|]). split; [eauto|]. intros t _ _ _ Hf. simpl in *. congruence. }
  change (docs_of (EsConn s) !! taskId) with (es_tasks (EsConn s) !! taskId).
  destruct (es_tasks (EsConn s) !! taskId) as [t|] eqn:Ht.
  - wp_step. wp_step.
    { do 4 (split; [done|]). split; [done|]. intros t' [= <-] Hid _ _ Hf.
      simpl in *. rewrite Hid in *. congruence. }
    wp_step. wp_step; [|wp_step]; autorewrite with store in *.
    + do 4 (split; [done|]). split; [done|]. intros t' [= <-] Hid Hne _ _ _.
      split; [done|]. simpl. rewrite Hid, store_doc_id by done.
      by rewrite lookup_insert_eq.
    + do 4 (split; [done|]). split; [done|].
      intros t' [= <-] _ _ _ _ Hf. simpl in *. congruence.
  - do 4 (split; [done|]). split; [eauto|]. done.
Qed.

(** ** A disabled task *)

Lemma healthy_set_active_project p s : healthy s → healthy (set_ActiveProjectId p s).
Proof. intros Hh r. apply Hh. Qed.

Lemma CreateAssignment_invalid taskId userId s task :
  healthy s → es_tasks (EsConn s) !! taskId = Some task →
  Task_CurrentState task ≠ "available" →
  wp (CreateAssignment taskId userId)
    (λ r s', r = Err (EMsg "Invalid task") ∧ same_but_users s s') s.
Proof.
  intros Hh Htask Hstate. unfold CreateAssignment. wp_step.
  wp_use find_or_create_user_spec. intros [Hs Hok].
  destruct (Hok Hh) as [user ->]. pose proof Hs as (Hp & Ht & Ha & Hx & Hf).
  pose proof (healthy_same _ _ Hs Hh) as Hh'.
  wp_step. wp_step; [healthy_contra|].
  change (docs_of (EsConn s') !! taskId) with (es_tasks (EsConn s') !! taskId).
  rewrite Ht, Htask. wp_step; [by wp_step|].
  exfalso. apply negb_false_iff, String.eqb_eq in Heqb. done.
Qed.

(** X7.  Once [DisableTaskHandler] has answered for a task (stored under its
    own id, no store call failing), a request for an assignment of the task
    is refused with "Invalid task" for every user, and creates no assignment
    and changes no work item; [EnableTaskHandler] makes the task available
    again. *)
Theorem disabled_task_refuses_allocation
    (project_id task_id : string) (s : Server) (t : Task) :
  healthy s →
  es_tasks (EsConn s) !! scoped_task_id project_id task_id = Some t →
  Task_Id t = scoped_task_id project_id task_id →
  scoped_task_id project_id task_id ≠ "" →
  let s1 := (DisableTaskHandler project_id task_id s).2 in
  (DisableTaskHandler project_id task_id s).1 = Ok (set_Task_CurrentState "waiting" t)
  ∧ (∀ userId,
       (UserAssignmentHandler project_id task_id (Some userId) s1).1
       = Err (EMsg "Invalid task")
       ∧ es_assignments (EsConn (UserAssignmentHandler project_id task_id
                                   (Some userId) s1).2)
         = es_assignments (EsConn s)
       ∧ es_assets (EsConn (UserAssignmentHandler project_id task_id
                              (Some userId) s1).2)
         = es_assets (EsConn s))
  ∧ (EnableTaskHandler project_id task_id s1).1
    = Ok (set_Task_CurrentState "available" t).
Proof.
  intros Hh Ht Hid Hne. cbv zeta.
  set (taskId := scoped_task_id project_id task_id) in *.
  set (s0 := set_ActiveProjectId project_id s).
  assert (Hh0 : healthy s0) by by apply healthy_set_active_project.
  assert (Hrun : DisableTaskHandler project_id task_id s
                 = UpdateTaskState taskId "waiting" s0) by reflexivity.
  rewrite Hrun, (UpdateTaskState_run taskId "waiting" s0 t Hh0 Ht Hid Hne). simpl.
  set (s1 := set_EsConn _ s0).
  assert (Hh1 : healthy (set_ActiveProjectId project_id s1)) by (intros r; apply Hh).
  assert (Ht1 : es_tasks (EsConn (set_ActiveProjectId project_id s1)) !! taskId
                = Some (set_Task_CurrentState "waiting" t))
    by (simpl; by rewrite lookup_insert_eq).
  split; [done|]. split.
  - intros userId.
    pose proof (CreateAssignment_invalid taskId userId _ _ Hh1 Ht1
                  ltac:(simpl; discriminate)) as Hwp.
    unfold wp in Hwp. destruct Hwp as [Hr (_ & _ & Ha & Hx & _)].
    assert (Hh' : UserAssignmentHandler project_id task_id (Some userId) s1
                  = CreateAssignment taskId userId (set_ActiveProjectId project_id s1))
      by reflexivity.
    rewrite Hh'. split; [done|]. by rewrite Hx, Ha.
  - assert (He : EnableTaskHandler project_id task_id s1
                 = UpdateTaskState taskId "available" (set_ActiveProjectId project_id s1))
      by reflexivity.
    rewrite He, (UpdateTaskState_run taskId "available" _ _ Hh1 Ht1 Hid Hne). simpl.
    by destruct t.
Qed.

Lemma disabled_task_refuses_allocation_witness :
  (UserAssignmentHandler "p" "oi" (Some "w1")
     (DisableTaskHandler "p" "oi" x_enabled_server).2).1
  = Err (EMsg "Invalid task").
Proof.
  assert (Hh : healthy x_enabled_server) by (intros r; reflexivity).
  exact (proj1 (proj1 (proj2 (disabled_task_refuses_allocation "p" "oi"
                  x_enabled_server c4_task Hh eq_refl eq_refl ltac:(discriminate)))
                  "w1")).
Defined.

(** ** Users *)

(** X8.  [FindUser] on an id that is not empty.  Without a record of the
    user it returns no user and no error, whatever fails in the store, and
    changes nothing.  It returns the same when the user exists but both the
    read and the existence check fail; when only the read fails it returns
    the error. *)
Theorem FindUser_no_user (id : string) (s : Server) :
  id ≠ "" →
  (es_users (EsConn s) !! id = None → FindUser id s = (Ok None, s))
  ∧ (es_fault (EsConn s) (RGetSource "users" id) = true →
     es_fault (EsConn s) (RExists "users" id) = true →
     FindUser id s = (Ok None, s))
  ∧ (is_Some (es_users (EsConn s) !! id) →
     es_fault (EsConn s) (RGetSource "users" id) = true →
     es_fault (EsConn s) (RExists "users" id) = false →
     FindUser id s = (Err EStore, s)).
Proof.
  intros Hne.
  assert (Hwp : wp (FindUser id)
            (λ r s', s' = s
               ∧ (es_users (EsConn s) !! id = None → r = Ok None)
               ∧ (es_fault (EsConn s) (RGetSource "users" id) = true →
                  es_fault (EsConn s) (RExists "users" id) = true → r = Ok None)
               ∧ (is_Some (es_users (EsConn s) !! id) →
                  es_fault (EsConn s) (RGetSource "users" id) = true →
                  es_fault (EsConn s) (RExists "users" id) = false →
                  r = Err EStore)) s).
  { unfold FindUser. destruct (String.eqb_spec id "") as [|_]; [done|].
    wp_go; simpl in *;
      repeat match goal with
             | H : bool_decide _ = true |- _ => apply bool_decide_eq_true in H
             | H : bool_decide _ = false |- _ => apply bool_decide_eq_false in H
             | H : is_Some _ |- _ => destruct H as [? H]
             end;
      (split; [done|]); (split; [|split]); intros; simplify_eq; try done;
      try congruence;
      try match goal with H : ¬ is_Some _ |- _ => exfalso; apply H; eauto end. }
  unfold wp in Hwp. destruct (FindUser id s) as [r s']. simpl in Hwp.
  destruct Hwp as (-> & H1 & H2 & H3).
  split; [|split]; intros; f_equal; auto.
Qed.

Lemma FindUser_no_user_witness : FindUser "nobody" c9_server = (Ok None, c9_server).
Proof.
  exact (proj1 (FindUser_no_user "nobody" c9_server ltac:(discriminate)) eq_refl).
Defined.

Lemma fill_task_counts_keeps tasks (c : Counts) k v :
  c !! k = Some v → fill_task_counts tasks c !! k = Some v.
Proof.
  unfold fill_task_counts. revert c.
  induction tasks as [|t tasks IH]; intros c Hc; simpl; [done|].
  apply IH. destruct (c !! Task_Id t) eqn:E; [done|].
  rewrite lookup_insert_ne; [done|]. intros Heq. rewrite Heq in E. congruence.
Qed.

Lemma fill_task_counts_adds tasks (c : Counts) k :
  k ∈ Task_Id <$> tasks → is_Some (fill_task_counts tasks c !! k).
Proof.
  unfold fill_task_counts. revert c.
  induction tasks as [|t tasks IH]; intros c Hk; simpl.
  - by apply elem_of_nil in Hk.
  - rewrite fmap_cons in Hk. apply elem_of_cons in Hk as [->|Hk]; [|by apply IH].
    destruct (c !! Task_Id t) eqn:E.
    + exists z. by apply (fill_task_counts_keeps tasks).
    + exists 0. apply (fill_task_counts_keeps tasks). by rewrite lookup_insert_eq.
Qed.

Lemma fill_task_counts_other tasks (c : Counts) k :
  k ∉ Task_Id <$> tasks → fill_task_counts tasks c !! k = c !! k.
Proof.
  unfold fill_task_counts. revert c.
  induction tasks as [|t tasks IH]; intros c Hk; simpl; [done|].
  rewrite fmap_cons, not_elem_of_cons in Hk. destruct Hk as [Hne Hk].
  rewrite IH by done. destruct (c !! Task_Id t); [done|].
  by rewrite lookup_insert_ne.
Qed.

Lemma es_gen_id_inj : Inj (=) (=) es_gen_id.
Proof.
  intros n m H. unfold es_gen_id in H.
  apply (inj (String.app "es-")) in H. by apply (inj pretty) in H.
Qed.

(** What [store_new_user] does when no store call fails. *)
Lemma store_new_user_run (u : User) (s : Server) :
  healthy s →
  let id := if String.eqb (User_Id u) "" then es_gen_id (es_next_id (EsConn s))
            else User_Id u in
  ∃ s', store_new_user u s = (Ok (set_User_Id id u), s')
        ∧ healthy s'
        ∧ same_but_users s s'
        ∧ es_users (EsConn s') = <[id := json_user (set_User_Id id u)]> (es_users (EsConn s))
        ∧ es_next_id (EsConn s')
          = (if String.eqb (User_Id u) "" then S (es_next_id (EsConn s))
             else es_next_id (EsConn s)).
Proof.
  intros Hh. cbv zeta. unfold store_new_user.
  unfold bind at 1. unfold attempt, FindTasks.
  unfold bind at 1. unfold bind at 1. unfold active_project, Search, bind, call, ret.
  simpl. rewrite !Hh. unfold Index, bind, call. simpl. rewrite Hh.
  unfold store_doc. destruct (String.eqb_spec (User_Id u) "") as [He|Hne]; simpl.
  - rewrite Hh. simpl.
    destruct (String.eqb_spec (es_gen_id (es_next_id (EsConn s))) "") as [He'|_];
      [by apply es_gen_id_nonempty in He'|]. simpl.
    eexists. split; [reflexivity|]. split; [intros r; apply Hh|].
    split; [by repeat split|]. simpl. split; [|done].
    by rewrite insert_insert_eq.
  - eexists. split; [by destruct u|]. split; [intros r; apply Hh|].
    split; [by repeat split|]. simpl. split; [|done]. by destruct u.
Qed.

(** What [FindUser] does for a stored user when no store call fails. *)
Lemma FindUser_run id (u : User) (s : Server) :
  healthy s → id ≠ "" → es_users (EsConn s) !! id = Some u →
  FindUser id s
  = (Ok (Some (set_User_Counts
                 (fill_task_counts (project_task_page s) (User_Counts u)) u)), s).
Proof.
  intros Hh Hne Hu. unfold FindUser. destruct (String.eqb_spec id "") as [|_]; [done|].
  unfold bind at 1. unfold attempt, GetSource, bind, call. simpl. rewrite Hh.
  change (docs_of (EsConn s) !! id) with (es_users (EsConn s) !! id). rewrite Hu.
  unfold FindTasks, bind, active_project, Search, bind, call, ret. simpl.
  by rewrite Hh.
Qed.

(** X9.  [CreateExternalUser], when no store call fails, returns a user with
    a new id from the store, the external id, the active project and the
    counts of a new user, and stores it under that id: [FindUser] on the id
    then returns the user, with the same fields and every count it was
    created with. *)
Theorem CreateExternalUser_round_trip (externalId : string) (s : Server) :
  healthy s →
  ∃ u s',
    CreateExternalUser externalId s = (Ok u, s')
    ∧ User_Id u = es_gen_id (es_next_id (EsConn s))
    ∧ User_ExternalId u = externalId
    ∧ User_Project u = ActiveProjectId s
    ∧ User_Counts u = fresh_user_counts
    ∧ ∃ u2,
        FindUser (User_Id u) s' = (Ok (Some u2), s')
        ∧ set_User_Counts (User_Counts u) u2 = u
        ∧ ∀ k c, User_Counts u !! k = Some c → User_Counts u2 !! k = Some c.
Proof.
  intros Hh. unfold CreateExternalUser, bind at 1, active_project.
  destruct (store_new_user_run
              (mkUser "" "" "" (ActiveProjectId s) externalId fresh_user_counts ∅ ∅ [])
              s Hh) as (s' & Hrun & Hh' & Hs & Hu & _).
  simpl in Hrun, Hu. rewrite Hrun. eexists _, s'. split; [reflexivity|].
  do 4 (split; [done|]). simpl.
  eexists. split.
  - apply FindUser_run; [done|apply es_gen_id_nonempty|].
    rewrite Hu. by rewrite lookup_insert_eq.
  - split; [done|]. intros k c Hc. simpl. by apply fill_task_counts_keeps.
Qed.

Lemma CreateExternalUser_round_trip_witness :
  ∃ u s', CreateExternalUser "nyt-42" c9_server = (Ok u, s')
          ∧ User_ExternalId u = "nyt-42" ∧ User_Id u = "es-0".
Proof.
  assert (Hh : healthy c9_server) by (intros r; reflexivity).
  destruct (CreateExternalUser_round_trip "nyt-42" c9_server Hh)
    as (u & s' & Hrun & Hid & Hext & _).
  exists u, s'. split; [exact Hrun|]. split; [exact Hext|]. exact Hid.
Defined.

(** X10.  [UserHandler] when no store call fails.  With a user id that has no
    record it creates the user under that id, and the next request with the
    id changes nothing and answers with the user of that id.  Without a user
    id every request creates one more user, under a new id. *)
Theorem UserHandler_find_or_create (project_id userId : string) (s : Server) :
  healthy s →
  (userId ≠ "" → es_users (EsConn s) !! userId = None →
   ∃ u s1 u2,
     UserHandler project_id userId s = (Ok u, s1)
     ∧ User_Id u = userId ∧ User_Project u = project_id
     ∧ es_users (EsConn s1) = <[userId := u]> (es_users (EsConn s))
     ∧ UserHandler project_id userId s1 = (Ok u2, s1)
     ∧ User_Id u2 = userId)
  ∧ ∃ u s1 u2 s2,
      UserHandler project_id "" s = (Ok u, s1)
      ∧ UserHandler project_id "" s1 = (Ok u2, s2)
      ∧ User_Id u ≠ "" ∧ User_Id u2 ≠ "" ∧ User_Id u ≠ User_Id u2.
Proof.
  intros Hh.
  set (s0 := set_ActiveProjectId project_id s).
  assert (Hh0 : healthy s0) by by apply healthy_set_active_project.
  split.
  - intros Hne Hu.
    assert (Hfind : FindUser userId s0 = (Ok None, s0)).
    { apply (proj1 (FindUser_no_user userId s0 Hne)). exact Hu. }
    destruct (store_new_user_run (mkUser userId "" "" project_id "" fresh_user_counts ∅ ∅ [])
                s0 Hh0) as (s1 & Hrun & Hh1 & Hs & Hus & _).
    simpl in Hrun, Hus. destruct (String.eqb_spec userId "") as [|_]; [done|].
    assert (H1 : UserHandler project_id userId s
                 = (Ok (mkUser userId "" "" project_id "" fresh_user_counts ∅ ∅ []), s1)).
    { unfold UserHandler, bind at 1, set_active_project. fold s0.
      unfold bind at 1. rewrite Hfind.
      unfold CreateUserFromMissingCookieValue, bind at 1, active_project. exact Hrun. }
    assert (Hp1 : set_ActiveProjectId project_id s1 = s1).
    { destruct Hs as (Hp & _). destruct s1. unfold set_ActiveProjectId. simpl in *.
      by rewrite Hp. }
    assert (Hu1 : es_users (EsConn s1) !! userId
                  = Some (mkUser userId "" "" project_id "" fresh_user_counts ∅ ∅ [])).
    { rewrite Hus. by rewrite lookup_insert_eq. }
    eexists _, s1, _. split; [exact H1|]. do 2 (split; [done|]).
    split; [by rewrite Hus|]. split.
    + unfold UserHandler, bind at 1, set_active_project. rewrite Hp1.
      unfold bind at 1. rewrite (FindUser_run userId _ s1 Hh1 Hne Hu1). reflexivity.
    + reflexivity.
  - assert (Hnew : ∀ s, healthy s → ActiveProjectId s = project_id →
              ∃ s', UserHandler project_id "" s
                    = (Ok (mkUser (es_gen_id (es_next_id (EsConn s))) "" "" project_id ""
                             fresh_user_counts ∅ ∅ []), s')
                    ∧ healthy s' ∧ ActiveProjectId s' = project_id
                    ∧ es_next_id (EsConn s') = S (es_next_id (EsConn s))).
    { intros s' Hh' Hp.
      assert (Hp' : set_ActiveProjectId project_id s' = s').
      { destruct s'. unfold set_ActiveProjectId. simpl in *. by rewrite Hp. }
      destruct (store_new_user_run
                  (mkUser "" "" "" project_id "" fresh_user_counts ∅ ∅ []) s' Hh')
        as (s2 & Hrun & Hh2 & (Hp2 & _) & _ & Hn).
      simpl in Hrun, Hn. exists s2.
      split; [|split; [done|split; [congruence|done]]].
      unfold UserHandler, bind at 1, set_active_project. rewrite Hp'.
      unfold bind at 1, FindUser. simpl.
      unfold bind at 1, active_project. unfold bind at 1, CreateUser.
      unfold bind at 1. simpl. rewrite !Hp, Hrun. reflexivity. }
    destruct (Hnew s0 Hh0 eq_refl) as (s1 & H1 & Hh1 & Hp1 & Hn1).
    destruct (Hnew s1 Hh1 Hp1) as (s2 & H2 & _ & _ & _).
    eexists _, s1, _, s2. split.
    { unfold UserHandler, bind at 1, set_active_project. fold s0.
      unfold UserHandler, bind at 1, set_active_project in H1.
      exact H1. }
    split; [exact H2|]. simpl. split; [apply es_gen_id_nonempty|].
    split; [apply es_gen_id_nonempty|]. rewrite Hn1. intros H.
    apply es_gen_id_inj in H. simpl in H. lia.
Qed.

Lemma UserHandler_find_or_create_witness :
  ∃ u s1 u2 s2,
    UserHandler "p" "" c9_server = (Ok u, s1)
    ∧ UserHandler "p" "" s1 = (Ok u2, s2)
    ∧ User_Id u ≠ User_Id u2.
Proof.
  assert (Hh : healthy c9_server) by (intros r; reflexivity).
  destruct (proj2 (UserHandler_find_or_create "p" "" c9_server Hh))
    as (u & s1 & u2 & s2 & H1 & H2 & _ & _ & Hne).
  exists u, s1, u2, s2. split; [exact H1|]. split; [exact H2|]. exact Hne.
Defined.

(** ** Importing work items *)

Lemma json_import_submitted_data tasks :
  json_value <$> import_submitted_data tasks = import_submitted_data tasks.
Proof.
  unfold import_submitted_data.
  assert (H : ∀ m : gmap string value, json_value <$> m = m →
            json_value <$> foldl (λ m t, <[Task_Name t := VNil]> m) m tasks
            = foldl (λ m t, <[Task_Name t := VNil]> m) m tasks).
  { induction tasks as [|t tasks IH]; intros m Hm; simpl; [done|].
    apply IH. by rewrite fmap_insert, Hm. }
  apply H. apply fmap_empty.
Qed.

Lemma json_imported_asset project tasks id a0 :
  json_asset (imported_asset project (import_submitted_data tasks) id a0)
  = imported_asset project (import_submitted_data tasks) id a0.
Proof.
  unfold json_asset, imported_asset, set_Asset_SubmittedData. simpl.
  by rewrite json_import_submitted_data.
Qed.

Lemma import_store_nil s : import_store [] s = s.
Proof.
  unfold import_store. simpl. rewrite Nat.add_0_r. by destruct s as [? []].
Qed.

Lemma import_store_cons a l s :
  import_store l (import_store [a] s) = import_store (a :: l) s.
Proof.
  unfold import_store, set_EsConn. simpl. f_equal. f_equal. lia.
Qed.

Lemma healthy_import_store l s : healthy s → healthy (import_store l s).
Proof. intros Hh r. apply Hh. Qed.

Lemma healthy_store_asset (id : string) (d : Asset) s :
  healthy s → healthy (set_EsConn (store_doc id d (EsConn s)).2 s).
Proof. intros Hh r. autorewrite with store. apply Hh. Qed.

(** Storing a new work item and then storing it again under the id it got. *)
Lemma import_step_state project tasks a0 s :
  let a1 := imported_asset project (import_submitted_data tasks) (Asset_Id a0) a0 in
  let gid := es_gen_id (es_next_id (EsConn s)) in
  let a := imported_asset project (import_submitted_data tasks) gid a0 in
  (store_doc "" a1 (EsConn s)).1 = gid
  ∧ set_EsConn
      (store_doc gid a (EsConn (set_EsConn (store_doc "" a1 (EsConn s)).2 s))).2
      (set_EsConn (store_doc "" a1 (EsConn s)).2 s)
    = import_store [a] s.
Proof.
  cbv zeta. split; [reflexivity|].
  unfold store_doc. simpl.
  destruct (String.eqb_spec (es_gen_id (es_next_id (EsConn s))) "") as [He|_];
    [by apply es_gen_id_nonempty in He|].
  unfold import_store, set_EsConn. simpl.
  rewrite json_imported_asset, insert_insert_eq. f_equal. f_equal. lia.
Qed.

(** The loop on work items that all have a url, when no store call fails. *)
Lemma import_assets_range_run project tasks l rest acc s :
  healthy s → (∀ a, a ∈ l → Asset_Url a ≠ "") →
  import_assets_range project (import_submitted_data tasks) (l ++ rest) acc s
  = import_assets_range project (import_submitted_data tasks) rest
      (acc ++ imported_assets project (import_submitted_data tasks)
                (es_next_id (EsConn s)) l)
      (import_store (imported_assets project (import_submitted_data tasks)
                       (es_next_id (EsConn s)) l) s).
Proof.
  revert acc s. induction l as [|a0 l IH]; intros acc s Hh Hurl.
  - simpl. by rewrite app_nil_r, import_store_nil.
  - assert (Hu : (String.length (Asset_Url a0) =? 0)%nat = false).
    { apply Nat.eqb_neq. intros H0. apply (Hurl a0); [left|].
      by destruct (Asset_Url a0). }
    cbn [app import_assets_range imported_assets]. rewrite Hu. cbv zeta.
    fold (imported_asset project (import_submitted_data tasks) (Asset_Id a0) a0).
    destruct (import_step_state project tasks a0 s) as [Hid Hst]. cbv zeta in Hid, Hst.
    rewrite (Index_run "" _ s Hh). cbv beta iota. rewrite Hid.
    change (set_Asset_Id (es_gen_id (es_next_id (EsConn s)))
              (imported_asset project (import_submitted_data tasks) (Asset_Id a0) a0))
      with (imported_asset project (import_submitted_data tasks)
              (es_gen_id (es_next_id (EsConn s))) a0).
    set (a := imported_asset _ _ (es_gen_id _) a0) in *.
    change (Asset_Id a) with (es_gen_id (es_next_id (EsConn s))).
    rewrite (Index_run _ a _ (healthy_store_asset _ _ s Hh)). cbv beta iota.
    rewrite Hst, IH; [|by apply healthy_import_store|by intros; apply Hurl; right].
    assert (Hn : es_next_id (EsConn (import_store [a] s)) = S (es_next_id (EsConn s))).
    { simpl. lia. }
    rewrite Hn, import_store_cons. by rewrite <- app_assoc.
Qed.

Lemma imported_assets_length project sd n l :
  length (imported_assets project sd n l) = length l.
Proof. revert n. induction l; intros n; simpl; [done|]. by rewrite IHl. Qed.

Lemma imported_assets_ids project sd n l :
  Asset_Id <$> imported_assets project sd n l = es_gen_id <$> seq n (length l).
Proof. revert n. induction l; intros n; simpl; [done|]. by rewrite IHl. Qed.

Lemma imported_assets_lookup project sd n l i a0 :
  l !! i = Some a0 →
  imported_assets project sd n l !! i
  = Some (imported_asset project sd (es_gen_id (n + i)) a0).
Proof.
  revert n i. induction l as [|x l IH]; intros n [|i] Hi; simpl in *; try done.
  - simplify_eq. by rewrite Nat.add_0_r.
  - rewrite (IH (S n) i Hi). do 3 f_equal. lia.
Qed.

Lemma foldl_insert_lookup (assets : list Asset) (m : gmap string Asset) a :
  NoDup (Asset_Id <$> assets) → a ∈ assets →
  foldl (λ m a, <[Asset_Id a := a]> m) m assets !! Asset_Id a = Some a.
Proof.
  revert m. induction assets as [|x l IH]; intros m Hnd Ha.
  - by apply elem_of_nil in Ha.
  - rewrite fmap_cons, NoDup_cons in Hnd. destruct Hnd as [Hnin Hnd]. simpl.
    apply elem_of_cons in Ha as [->|Ha]; [|by apply IH].
    clear IH. revert m. induction l as [|y l IH]; intros m; simpl.
    + by rewrite lookup_insert_eq.
    + rewrite fmap_cons, not_elem_of_cons in Hnin. destruct Hnin as [Hne Hnin].
      rewrite fmap_cons, NoDup_cons in Hnd. destruct Hnd as [_ Hnd].
      rewrite insert_insert_ne by done. by apply IH.
Qed.

Lemma foldl_insert_other (assets : list Asset) (m : gmap string Asset) k :
  k ∉ Asset_Id <$> assets →
  foldl (λ m a, <[Asset_Id a := a]> m) m assets !! k = m !! k.
Proof.
  revert m. induction assets as [|x l IH]; intros m Hk; simpl; [done|].
  rewrite fmap_cons, not_elem_of_cons in Hk. destruct Hk as [Hne Hk].
  rewrite IH by done. by rewrite lookup_insert_ne.
Qed.

Lemma NoDup_gen_ids n k : NoDup (es_gen_id <$> seq n k).
Proof. apply NoDup_fmap_2; [apply es_gen_id_inj|apply NoDup_seq]. Qed.

(** X11.  [importAssets] when no store call fails and every work item has a
    url: it returns as many work items as it was given, with no error.  The
    work item made of the i-th one has the i-th id the store hands out, the
    active project, an entry null for every task of the project's first
    page as submitted data, the counts of a new work item, and the url,
    name, metadata and flags it came with.  Each is stored under its id;
    the documents that were there stay, and tasks, assignments and users
    are not touched. *)
Theorem importAssets_imports (newAssets : list Asset) (s : Server) :
  healthy s → (∀ a, a ∈ newAssets → Asset_Url a ≠ "") →
  ∃ assets s',
    importAssets newAssets s = ((assets, None), s')
    ∧ length assets = length newAssets
    ∧ (∀ i a0, newAssets !! i = Some a0 →
         assets !! i
         = Some (imported_asset (ActiveProjectId s)
                   (import_submitted_data (project_task_page s))
                   (es_gen_id (es_next_id (EsConn s) + i)) a0))
    ∧ (∀ a, a ∈ assets →
         es_assets (EsConn s') !! Asset_Id a = Some a
         ∧ counts_invariant (Asset_Counts a))
    ∧ (∀ k, k ∉ Asset_Id <$> assets →
         es_assets (EsConn s') !! k = es_assets (EsConn s) !! k)
    ∧ es_tasks (EsConn s') = es_tasks (EsConn s)
    ∧ es_assignments (EsConn s') = es_assignments (EsConn s)
    ∧ es_users (EsConn s') = es_users (EsConn s).
Proof.
  intros Hh Hurl. unfold importAssets. rewrite (FindTasks_run _ s Hh).
  fold (project_task_page s).
  pose proof (import_assets_range_run (ActiveProjectId s) (project_task_page s)
                newAssets [] [] s Hh Hurl) as Hrun.
  rewrite app_nil_r in Hrun. rewrite Hrun. cbn [import_assets_range app].
  set (assets := imported_assets _ _ _ newAssets).
  unfold Refresh, call. rewrite (healthy_import_store assets s Hh).
  exists assets, (import_store assets s). split; [done|].
  split; [apply imported_assets_length|].
  split; [intros i a0 Hi; by apply imported_assets_lookup|].
  assert (Hnd : NoDup (Asset_Id <$> assets)).
  { unfold assets. rewrite imported_assets_ids. apply NoDup_gen_ids. }
  split; [|split; [|done]].
  - intros a Ha. split; [by apply foldl_insert_lookup|].
    apply list_elem_of_lookup in Ha as [i Hi].
    destruct (newAssets !! i) as [a0|] eqn:E.
    + unfold assets in Hi. rewrite (imported_assets_lookup _ _ _ _ _ _ E) in Hi.
      simplify_eq. vm_compute. reflexivity.
    + apply lookup_lt_Some in Hi. apply lookup_ge_None in E.
      unfold assets in Hi. rewrite imported_assets_length in Hi. lia.
  - intros k Hk. by apply foldl_insert_other.
Qed.

Lemma importAssets_imports_witness :
  ∃ assets s', importAssets (take 1 x_import) c7_server = ((assets, None), s')
               ∧ length assets = 1%nat.
Proof.
  assert (Hh : healthy c7_server) by (intros r; reflexivity).
  assert (Hurl : ∀ a, a ∈ take 1 x_import → Asset_Url a ≠ "").
  { intros a Ha. apply list_elem_of_singleton in Ha. subst a. simpl. discriminate. }
  destruct (importAssets_imports (take 1 x_import) c7_server Hh Hurl)
    as (assets & s' & Hrun & Hlen & _).
  exists assets, s'. split; [exact Hrun|exact Hlen].
Defined.

(** X12.  [importAssets] does not take back what it has stored.  When a
    work item without a url follows work items that have one, it returns the
    error "Sorry, all assets must specify a url." together with the work
    items made of those before it, which are stored; nothing is made of the
    work items after it. *)
Theorem importAssets_stops_without_url
    (before after : list Asset) (bad : Asset) (s : Server) :
  healthy s → (∀ a, a ∈ before → Asset_Url a ≠ "") → Asset_Url bad = "" →
  ∃ assets s',
    importAssets (before ++ bad :: after) s
    = ((assets, Some (EMsg "Sorry, all assets must specify a url.")), s')
    ∧ length assets = length before
    ∧ (∀ a, a ∈ assets → es_assets (EsConn s') !! Asset_Id a = Some a)
    ∧ (∀ k, k ∉ Asset_Id <$> assets →
         es_assets (EsConn s') !! k = es_assets (EsConn s) !! k).
Proof.
  intros Hh Hurl Hbad. unfold importAssets. rewrite (FindTasks_run _ s Hh).
  fold (project_task_page s).
  rewrite (import_assets_range_run (ActiveProjectId s) (project_task_page s)
             before (bad :: after) [] s Hh Hurl).
  cbn [import_assets_range app]. rewrite Hbad. simpl.
  set (assets := imported_assets _ _ _ before).
  exists assets, (import_store assets s). split; [done|].
  split; [apply imported_assets_length|].
  assert (Hnd : NoDup (Asset_Id <$> assets)).
  { unfold assets. rewrite imported_assets_ids. apply NoDup_gen_ids. }
  split.
  - intros a Ha. by apply foldl_insert_lookup.
  - intros k Hk. by apply foldl_insert_other.
Qed.

Lemma importAssets_stops_without_url_witness :
  ∃ assets s',
    importAssets x_import c7_server
    = ((assets, Some (EMsg "Sorry, all assets must specify a url.")), s')
    ∧ length assets = 1%nat.
Proof.
  assert (Hh : healthy c7_server) by (intros r; reflexivity).
  assert (Hurl : ∀ a, a ∈ take 1 x_import → Asset_Url a ≠ "").
  { intros a Ha. apply list_elem_of_singleton in Ha. subst a. simpl. discriminate. }
  destruct (importAssets_stops_without_url (take 1 x_import) (drop 2 x_import)
              (mkAsset "" "" "" "two" ∅ ∅ false false ∅) c7_server Hh Hurl eq_refl)
    as (assets & s' & Hrun & Hlen & _).
  exists assets, s'. split; [exact Hrun|exact Hlen].
Defined.

(** ** Paged lists *)

Lemma assets_query_matches project p (a : Asset) :
  matches (tasks_query project p) a = true ↔ Asset_Project a = project.
Proof.
  unfold matches, tasks_query. simpl.
  rewrite andb_true_r, andb_true_r, bool_decide_eq_true, list_elem_of_singleton. done.
Qed.

Lemma wp_run {A} (m : M A) (Q : res A → Server → Prop) s r s' :
  m s = (r, s') → wp m Q s → Q r s'.
Proof. unfold wp. by intros ->. Qed.

Lemma run_wp {A} (m : M A) s r s' :
  wp m (λ r0 s0, r0 = r ∧ s0 = s') s → m s = (r, s').
Proof. unfold wp. destruct (m s). simpl. by intros [-> ->]. Qed.

Lemma FindAssets_run p s :
  es_fault (EsConn s) (RSearch "assets" (tasks_query (ActiveProjectId s) p)) = false →
  FindAssets p s
  = (Ok ((λ asset, set_Asset_Counts (init_counts 0 0 (Asset_Counts asset)) asset)
           <$> (Hits_Hits (run_search (D:=Asset) (tasks_query (ActiveProjectId s) p)
                             (EsConn s))).*2,
         mkMeta (length (all_hits (D:=Asset) (tasks_query (ActiveProjectId s) p)
                           (EsConn s)))
           (Params_From p) (Params_Size p)), s).
Proof.
  intros Hf. unfold FindAssets, bind, active_project, Search, bind, call, ret.
  simpl. by rewrite Hf.
Qed.

(** X13.  [FindAssets] when its query does not fail: it changes nothing and
    returns at most [Size] work items, all of them work items of the active
    project as stored, only that a work item without counts shows the counts
    of a new one; [Total] is the number of all work items of the project,
    whatever the page. *)
Theorem FindAssets_page (p : Params) (s : Server) :
  es_fault (EsConn s) (RSearch "assets" (tasks_query (ActiveProjectId s) p)) = false →
  ∃ assets m,
    FindAssets p s = (Ok (assets, m), s)
    ∧ (length assets ≤ Params_Size p)%nat
    ∧ Meta_Total m
      = length (filter (λ kd : string * Asset, Asset_Project kd.2 = ActiveProjectId s)
                  (map_to_list (es_assets (EsConn s))))
    ∧ Meta_From m = Params_From p ∧ Meta_Size m = Params_Size p
    ∧ ∀ a, a ∈ assets →
        size (Asset_Counts a) ≠ 0%nat
        ∧ ∃ k a0, es_assets (EsConn s) !! k = Some a0
                  ∧ Asset_Project a0 = ActiveProjectId s
                  ∧ a = set_Asset_Counts (init_counts 0 0 (Asset_Counts a0)) a0.
Proof.
  intros Hf. rewrite (FindAssets_run p s Hf). eexists _, _. split; [reflexivity|].
  split; [|split; [|split; [done|split; [done|]]]].
  - rewrite !length_fmap. unfold run_search. simpl. etrans; [apply firstn_le_length|done].
  - simpl. unfold all_hits. f_equal. apply list_filter_iff. intros [k a]. simpl.
    by rewrite Is_true_true, assets_query_matches.
  - intros a Ha. apply list_elem_of_fmap in Ha as (a0 & -> & Ha0).
    apply list_elem_of_fmap in Ha0 as ([k a1] & -> & Hin). simpl.
    apply run_search_hits in Hin as [Hk Hm]. apply assets_query_matches in Hm.
    split; [|by exists k, a1].
    unfold init_counts. destruct (size (Asset_Counts a1) =? 0)%nat eqn:E.
    + apply lookup_fresh_asset_counts_size.
    + by apply Nat.eqb_neq in E.
Qed.

Lemma FindAssets_page_witness :
  ∃ assets m, FindAssets (mkParams 0 10 "Id" "asc") c7_server = (Ok (assets, m), c7_server)
              ∧ Meta_Total m = 1%nat.
Proof.
  destruct (FindAssets_page (mkParams 0 10 "Id" "asc") c7_server eq_refl)
    as (assets & m & Hrun & _ & Htot & _).
  exists assets, m. split; [exact Hrun|]. rewrite Htot. vm_compute. reflexivity.
Defined.

(** X14.  The pages of [FindAssets] fit together: with the same order, the
    page of [n1] work items from [from] on followed by the page of [n2] work
    items from [from + n1] on is the page of [n1 + n2] work items from
    [from] on. *)
Theorem FindAssets_pages_compose (from n1 n2 : nat) (sortBy sortDir : string)
    (s : Server) :
  (∀ q, es_fault (EsConn s) (RSearch "assets" q) = false) →
  ∃ l1 m1 l2 m2 m,
    FindAssets (mkParams from n1 sortBy sortDir) s = (Ok (l1, m1), s)
    ∧ FindAssets (mkParams (from + n1) n2 sortBy sortDir) s = (Ok (l2, m2), s)
    ∧ FindAssets (mkParams from (n1 + n2) sortBy sortDir) s = (Ok (l1 ++ l2, m), s)
    ∧ Meta_Total m1 = Meta_Total m ∧ Meta_Total m2 = Meta_Total m.
Proof.
  intros Hf. rewrite !FindAssets_run by apply Hf.
  set (f := λ asset, set_Asset_Counts (init_counts 0 0 (Asset_Counts asset)) asset).
  assert (Hl : f <$> (Hits_Hits (run_search (D:=Asset)
                        (tasks_query (ActiveProjectId s)
                           (mkParams from (n1 + n2) sortBy sortDir)) (EsConn s))).*2
               = (f <$> (Hits_Hits (run_search (D:=Asset)
                           (tasks_query (ActiveProjectId s)
                              (mkParams from n1 sortBy sortDir)) (EsConn s))).*2)
                 ++ (f <$> (Hits_Hits (run_search (D:=Asset)
                              (tasks_query (ActiveProjectId s)
                                 (mkParams (from + n1) n2 sortBy sortDir))
                              (EsConn s))).*2)).
  { rewrite <- !fmap_app. do 2 f_equal. unfold run_search. simpl.
    unfold all_hits, sort_hits. simpl.
    by rewrite <- take_take_drop, drop_drop. }
  eexists _, _, _, _, _. split; [reflexivity|]. split; [reflexivity|].
  split; [by rewrite Hl|]. done.
Qed.

Lemma FindAssets_pages_compose_witness :
  ∃ l1 m1 l2 m2 m,
    FindAssets (mkParams 0 1 "Id" "asc") c1_server = (Ok (l1, m1), c1_server)
    ∧ FindAssets (mkParams 1 1 "Id" "asc") c1_server = (Ok (l2, m2), c1_server)
    ∧ FindAssets (mkParams 0 2 "Id" "asc") c1_server = (Ok (l1 ++ l2, m), c1_server).
Proof.
  destruct (FindAssets_pages_compose 0 1 1 "Id" "asc" c1_server (λ _, eq_refl))
    as (l1 & m1 & l2 & m2 & m & H1 & H2 & H3 & _).
  exists l1, m1, l2, m2, m. split; [exact H1|]. split; [exact H2|exact H3].
Defined.

(** X15.  [FindUsers] never reports the page: the [meta] it returns is zero
    in every field, whatever the store holds.  It changes nothing, returns a
    nil error whenever it returns a user, and answers a failed query for
    the users with an empty list and a nil error.  When the query for the
    tasks works, every user it returns has a count for every task of the
    project's first page. *)
Theorem FindUsers_meta_zero (p : Params) (s : Server) :
  (FindUsers p s).2 = s
  ∧ (FindUsers p s).1.1.2 = mkMeta 0 0 0
  ∧ ((FindUsers p s).1.1.1 ≠ [] → (FindUsers p s).1.2 = None)
  ∧ (es_fault (EsConn s) (RSearch "users" (tasks_query (ActiveProjectId s) p)) = true →
     (FindUsers p s).1 = ([], mkMeta 0 0 0, None))
  ∧ (es_fault (EsConn s)
       (RSearch "tasks" (tasks_query (ActiveProjectId s) task_params)) = false →
     ∀ u t, u ∈ (FindUsers p s).1.1.1 → t ∈ project_task_page s →
            is_Some (User_Counts u !! Task_Id t)).
Proof.
  unfold FindUsers, bind, active_project, Search, bind, call, ret. simpl.
  destruct (es_fault (EsConn s) (RSearch "users" _)) eqn:Hfu; simpl.
  { do 3 (split; [done|]). split; [done|]. intros _ u t Hu. by apply elem_of_nil in Hu. }
  unfold FindTasks, bind, active_project, Search, bind, call, ret. simpl.
  destruct (es_fault (EsConn s) (RSearch "tasks" _)) eqn:Hft; simpl.
  - split; [done|]. split; [done|]. split; [|done].
    destruct (take _ _); [|done]. by rewrite !fmap_nil.
  - split; [done|]. split; [done|]. split; [|split; [done|]].
    + intros _. by destruct (take _ _).
    + intros _ u t Hu Ht. apply list_elem_of_fmap in Hu as (u0 & -> & _). simpl.
      apply fill_task_counts_adds. by apply list_elem_of_fmap_2.
Qed.

Lemma assignments_query_matches project task state p (x : Assignment) :
  matches (assignments_query project task state p) x = true
  ↔ Assignment_Project x = project
    ∧ (task ≠ "" → Assignment_Task x = task)
    ∧ (state ≠ "" → Assignment_State x = state).
Proof.
  unfold matches, assignments_query. simpl.
  destruct (String.eqb_spec task "") as [->|Ht];
    destruct (String.eqb_spec state "") as [->|Hs]; simpl;
    rewrite ?andb_true_r, ?andb_true_iff, ?bool_decide_eq_true; tauto.
Qed.

(** X16.  [FindAssignments] refreshes the index first and returns the error
    of a failed refresh without having searched.  When nothing fails it
    changes nothing and every assignment it returns is stored, belongs to
    the active project, has the task when one is given (in its scoped form)
    and the state when one is given; an empty task or state filters
    nothing.  The short and the long form of the task id give the same
    answer. *)
Theorem FindAssignments_filters (p : Params) (task state : string) (s : Server) :
  (es_fault (EsConn s) RRefresh = true → FindAssignments p task state s = (Err EStore, s))
  ∧ FindAssignments p (scoped_task_id (ActiveProjectId s) task) state s
    = FindAssignments p task state s
  ∧ (healthy s →
     ∃ l m,
       FindAssignments p task state s = (Ok (l, m), s)
       ∧ (length l ≤ Params_Size p)%nat
       ∧ ∀ x, x ∈ l →
           (∃ k, es_assignments (EsConn s) !! k = Some x)
           ∧ Assignment_Project x = ActiveProjectId s
           ∧ (task ≠ "" →
              Assignment_Task x = scoped_task_id (ActiveProjectId s) task)
           ∧ (state ≠ "" → Assignment_State x = state)).
Proof.
  split; [|split].
  - intros Hf. unfold FindAssignments, bind, Refresh, call. by rewrite Hf.
  - unfold FindAssignments, bind, Refresh, call, active_project, Search, bind, call, ret.
    destruct (es_fault (EsConn s) RRefresh); [done|]. simpl.
    by rewrite (proj2 (proj2 (proj2 (proj2 (scoped_task_id_spec (ActiveProjectId s) task))))).
  - intros Hh.
    unfold FindAssignments, bind, Refresh, call, active_project, Search, bind, call, ret.
    rewrite Hh. simpl. rewrite Hh. eexists _, _. split; [reflexivity|]. split.
    + rewrite length_fmap. unfold run_search. simpl.
      etrans; [apply firstn_le_length|done].
    + intros x Hx. apply list_elem_of_fmap in Hx as ([k x'] & -> & Hin). simpl.
      apply run_search_hits in Hin as [Hk Hm].
      apply assignments_query_matches in Hm as (Hp & Ht & Hs).
      split; [by exists k|]. split; [done|]. split; [|done].
      intros Hne. apply Ht.
      destruct (scoped_task_id_spec (ActiveProjectId s) task) as (_ & H1 & H2 & _).
      destruct (String.prefix (ActiveProjectId s) task) eqn:E.
      * by rewrite H1.
      * rewrite H2 by done. by destruct (ActiveProjectId s).
Qed.

(** ** Submitting an assignment *)

Lemma count_get_fill_task_counts tasks (c : Counts) k :
  count_get (fill_task_counts tasks c) k = count_get c k.
Proof.
  unfold fill_task_counts. revert c.
  induction tasks as [|t tasks IH]; intros c; simpl; [done|].
  rewrite IH. destruct (c !! Task_Id t) eqn:E; [done|].
  unfold count_get. destruct (decide (Task_Id t = k)) as [<-|Hne].
  - by rewrite lookup_insert_eq, E.
  - by rewrite lookup_insert_ne.
Qed.

Lemma FindUser_wp id (u : User) (s : Server) Q :
  healthy s → id ≠ "" → es_users (EsConn s) !! id = Some u →
  Q (Ok (Some (set_User_Counts
                 (fill_task_counts (project_task_page s) (User_Counts u)) u))) s →
  wp (FindUser id) Q s.
Proof. intros Hh Hne Hu HQ. unfold wp. by rewrite (FindUser_run id u s Hh Hne Hu). Qed.

(** The counts [UpdateAssignment] leaves on the work item. *)
Lemma UpdateAssignment_asset x s a0 :
  healthy s →
  es_assets (EsConn s) !! Asset_Id (Assignment_Asset x) = Some a0 →
  Asset_Id a0 = Asset_Id (Assignment_Asset x) → Asset_Id a0 ≠ "" →
  Assignment_State x ≠ "finished" →
  wp (UpdateAssignment x)
    (λ r s',
       r = Ok (set_Assignment_Asset
                 (set_Asset_Counts
                    (count_decr "unfinished"
                       (count_incr (Assignment_State x)
                          (init_counts 1 1 (Asset_Counts a0)))) a0) x)
       ∧ healthy s'
       ∧ es_users (EsConn s') = es_users (EsConn s)
       ∧ es_tasks (EsConn s') = es_tasks (EsConn s)
       ∧ es_assets (EsConn s')
         = <[Asset_Id a0 :=
               json_asset
                 (set_Asset_Counts
                    (count_decr "unfinished"
                       (count_incr (Assignment_State x)
                          (init_counts 1 1 (Asset_Counts a0)))) a0)]>
             (es_assets (EsConn s))) s.
Proof.
  intros Hh Ha Hid Hne Hst. unfold UpdateAssignment.
  wp_step. wp_step. wp_step; [healthy_contra|].
  change (docs_of (EsConn s) !! Asset_Id (Assignment_Asset x))
    with (es_assets (EsConn s) !! Asset_Id (Assignment_Asset x)).
  rewrite Ha. cbv beta iota zeta.
  repeat (wp_step; try healthy_contra).
  - exfalso. apply String.eqb_eq in Heqb. simpl in Heqb. done.
  - autorewrite with store. split; [done|].
    split; [intros r; autorewrite with store; apply Hh|]. do 2 (split; [done|]).
    cbn [Asset_Id set_Asset_Counts]. by rewrite store_doc_id.
Qed.

(** X17.  A skipped assignment submitted twice is counted twice.  When no
    store call fails and the work item of the assignment is stored under
    its id with counts, [UpdateAssignment] does not look for the stored
    assignment: after the same skipped assignment has been submitted twice,
    the work item's count of skipped assignments has grown by two and its
    count of unfinished ones has dropped by two (in Go's arithmetic), its
    count of assignments is as before, and no user has changed. *)
Theorem UpdateAssignment_twice (x : Assignment) (s : Server) (a0 : Asset) :
  healthy s →
  es_assets (EsConn s) !! Asset_Id (Assignment_Asset x) = Some a0 →
  Asset_Id a0 = Asset_Id (Assignment_Asset x) → Asset_Id a0 ≠ "" →
  size (Asset_Counts a0) ≠ 0%nat →
  Assignment_State x = "skipped" →
  let s2 := (UpdateAssignment x (UpdateAssignment x s).2).2 in
  ∃ a2,
    es_assets (EsConn s2) !! Asset_Id a0 = Some a2
    ∧ count_get (Asset_Counts a2) "skipped"
      = int_add (int_add (count_get (Asset_Counts a0) "skipped") 1) 1
    ∧ count_get (Asset_Counts a2) "unfinished"
      = int_sub (int_sub (count_get (Asset_Counts a0) "unfinished") 1) 1
    ∧ count_get (Asset_Counts a2) "Assignments"
      = count_get (Asset_Counts a0) "Assignments"
    ∧ es_users (EsConn s2) = es_users (EsConn s).
Proof.
  intros Hh Ha Hid Hne Hsize Hst. cbv zeta.
  assert (Hnf : Assignment_State x ≠ "finished") by (rewrite Hst; discriminate).
  pose proof (UpdateAssignment_asset x s a0 Hh Ha Hid Hne Hnf) as H1.
  unfold wp in H1. destruct (UpdateAssignment x s) as [r1 s1]. simpl in H1.
  destruct H1 as (_ & Hh1 & Hu1 & _ & Ha1). simpl.
  set (a1 := set_Asset_Counts _ a0) in Ha1.
  assert (Ha1' : es_assets (EsConn s1) !! Asset_Id (Assignment_Asset x)
                 = Some (json_asset a1)).
  { rewrite Ha1, <- Hid. by rewrite lookup_insert_eq. }
  pose proof (UpdateAssignment_asset x s1 (json_asset a1) Hh1 Ha1' Hid Hne Hnf) as H2.
  unfold wp in H2. destruct (UpdateAssignment x s1) as [r2 s2]. simpl in H2.
  destruct H2 as (_ & _ & Hu2 & _ & Ha2). simpl. eexists. split.
  { rewrite Ha2. cbn [Asset_Id json_asset set_Asset_SubmittedData].
    by rewrite lookup_insert_eq. }
  cbn [Asset_Counts json_asset set_Asset_SubmittedData set_Asset_Counts a1].
  unfold a1. cbn [Asset_Counts set_Asset_Counts].
  assert (Hi : ∀ c : Counts, size c ≠ 0%nat → init_counts 1 1 c = c).
  { intros c Hc. unfold init_counts. by destruct (Nat.eqb_spec (size c) 0). }
  assert (Hs1 : size (count_decr "unfinished"
                        (count_incr (Assignment_State x)
                           (init_counts 1 1 (Asset_Counts a0)))) ≠ 0%nat).
  { unfold count_decr. intros H0. apply map_size_empty_inv in H0.
    by apply insert_non_empty in H0. }
  rewrite (Hi _ Hs1), (Hi _ Hsize), Hst. counts_simpl.
  split; [|split; [|split; [|congruence]]]; counts_simpl; try done.
Qed.

Lemma UpdateAssignment_twice_witness :
  ∃ a2,
    es_assets (EsConn (UpdateAssignment x_skipped
                         (UpdateAssignment x_skipped c1_server).2).2) !! "a1" = Some a2
    ∧ count_get (Asset_Counts a2) "unfinished" = (-2)%Z.
Proof.
  assert (Hh : healthy c1_server) by (intros r; reflexivity).
  destruct (UpdateAssignment_twice x_skipped c1_server (c1_asset "a1") Hh eq_refl
              eq_refl ltac:(discriminate) ltac:(vm_compute; discriminate) eq_refl)
    as (a2 & Ha2 & _ & Hu & _).
  exists a2. split; [exact Ha2|]. rewrite Hu. vm_compute. reflexivity.
Defined.

(** X18.  A finished assignment of a known worker.  When no store call fails,
    the worker is stored under the id and the task is not called
    "Assignments", [UpdateAssignment] raises the worker's count of
    assignments and the worker's count for the task by one each, keeps the
    worker's other counts, and changes no other user.  The assignment it
    stores and returns carries the work item with its new counts. *)
Theorem UpdateAssignment_finished_user (x : Assignment) (s : Server) (a0 : Asset)
    (u : User) :
  healthy s →
  es_assets (EsConn s) !! Asset_Id (Assignment_Asset x) = Some a0 →
  Asset_Id a0 = Asset_Id (Assignment_Asset x) → Asset_Id a0 ≠ "" →
  Assignment_Id x ≠ "" → Assignment_State x = "finished" →
  Assignment_User x ≠ "" → es_users (EsConn s) !! Assignment_User x = Some u →
  User_Id u = Assignment_User x → Assignment_Task x ≠ "Assignments" →
  ∃ x' s' u' a1,
    UpdateAssignment x s = (Ok x', s')
    ∧ es_users (EsConn s') !! Assignment_User x = Some u'
    ∧ count_get (User_Counts u') "Assignments"
      = int_add (count_get (User_Counts u) "Assignments") 1
    ∧ count_get (User_Counts u') (Assignment_Task x)
      = int_add (count_get (User_Counts u) (Assignment_Task x)) 1
    ∧ (∀ k, k ≠ "Assignments" → k ≠ Assignment_Task x →
            count_get (User_Counts u') k = count_get (User_Counts u) k)
    ∧ (∀ k, k ≠ Assignment_User x → es_users (EsConn s') !! k = es_users (EsConn s) !! k)
    ∧ es_assets (EsConn s') !! Asset_Id a0 = Some (json_asset a1)
    ∧ Assignment_Asset x' = a1
    ∧ count_get (Asset_Counts a1) "finished"
      = int_add (count_get (init_counts 1 1 (Asset_Counts a0)) "finished") 1
    ∧ es_assignments (EsConn s') !! Assignment_Id x = Some (json_assignment x').
Proof.
  intros Hh Ha Hid Hne Hxid Hst Hune Hu Huid Htask.
  set (a1 := set_Asset_Counts
               (count_decr "unfinished"
                  (count_incr (Assignment_State x) (init_counts 1 1 (Asset_Counts a0))))
               a0).
  set (u1 := set_User_Counts
               (count_incr (Assignment_Task x)
                  (count_incr "Assignments"
                     (fill_task_counts (project_task_page s) (User_Counts u)))) u).
  assert (Hwp : wp (UpdateAssignment x)
            (λ r s', r = Ok (set_Assignment_Asset a1 x)
                     ∧ es_users (EsConn s')
                       = <[Assignment_User x := json_user u1]> (es_users (EsConn s))
                     ∧ es_assets (EsConn s')
                       = <[Asset_Id a0 := json_asset a1]> (es_assets (EsConn s))
                     ∧ es_assignments (EsConn s')
                       = <[Assignment_Id x := json_assignment (set_Assignment_Asset a1 x)]>
                           (es_assignments (EsConn s))) s).
  { unfold UpdateAssignment.
    wp_step. wp_step. wp_step; [healthy_contra|].
    change (docs_of (EsConn s) !! Asset_Id (Assignment_Asset x))
      with (es_assets (EsConn s) !! Asset_Id (Assignment_Asset x)).
    rewrite Ha. cbv beta iota zeta.
    repeat (wp_step; try healthy_contra);
      [|exfalso; apply String.eqb_neq in Heqb; simpl in Heqb; done].
    cbn [Assignment_State Assignment_User Assignment_Task Assignment_Id
         set_Assignment_Asset].
    match goal with |- wp _ _ ?s2 => set (s2' := s2) end.
    assert (Hh2 : healthy s2').
    { intros r. unfold s2'. autorewrite with store. apply Hh. }
    assert (Hu2 : es_users (EsConn s2') !! Assignment_User x = Some u).
    { unfold s2'. autorewrite with store. exact Hu. }
    assert (Hpage : project_task_page s2' = project_task_page s).
    { unfold project_task_page, s2'. autorewrite with store.
      f_equal. f_equal. apply run_search_ext. simpl. by autorewrite with store. }
    apply (FindUser_wp _ u s2' _ Hh2 Hune Hu2). cbv beta iota zeta.
    wp_step. wp_step. wp_spec. repeat (wp_step; try healthy_contra).
    rewrite Hpage. cbn [User_Counts set_User_Counts User_Id]. rewrite Huid.
    unfold s2'. autorewrite with store.
    cbn [Asset_Id set_Asset_Counts].
    rewrite !store_doc_id by done.
    split; [done|]. split; [by destruct u|]. done. }
  unfold wp in Hwp. destruct (UpdateAssignment x s) as [r s']. simpl in Hwp.
  destruct Hwp as (-> & Hus & Has & Hxs).
  exists (set_Assignment_Asset a1 x), s', (json_user u1), a1. split; [done|].
  split; [by rewrite Hus, lookup_insert_eq|].
  cbn [User_Counts json_user u1 set_User_Counts].
  split; [|split; [|split; [|split; [|split; [|split; [done|split]]]]]].
  - rewrite count_get_incr_ne by done.
    by rewrite count_get_incr_eq, count_get_fill_task_counts.
  - rewrite count_get_incr_eq, count_get_incr_ne by done.
    by rewrite count_get_fill_task_counts.
  - intros k Hk1 Hk2.
    rewrite !count_get_incr_ne by done. by rewrite count_get_fill_task_counts.
  - intros k Hk. rewrite Hus. by rewrite lookup_insert_ne.
  - rewrite Has. by rewrite lookup_insert_eq.
  - unfold a1. cbn [Asset_Counts set_Asset_Counts]. rewrite Hst.
    rewrite count_get_decr_ne by discriminate. by rewrite count_get_incr_eq.
  - rewrite Hxs. by rewrite lookup_insert_eq.
Qed.

Lemma UpdateAssignment_finished_user_witness :
  ∃ x' s' u',
    UpdateAssignment x_finished c9_server = (Ok x', s')
    ∧ es_users (EsConn s') !! "w1" = Some u'
    ∧ count_get (User_Counts u') "Assignments" = 1%Z.
Proof.
  assert (Hh : healthy c9_server) by (intros r; reflexivity).
  destruct (UpdateAssignment_finished_user x_finished c9_server c7_asset c9_user Hh
              eq_refl eq_refl ltac:(discriminate) ltac:(discriminate) eq_refl
              ltac:(discriminate) eq_refl eq_refl ltac:(discriminate))
    as (x' & s' & u' & a1 & Hrun & Hu & Hc & _).
  exists x', s', u'. split; [exact Hrun|]. split; [exact Hu|]. rewrite Hc.
  vm_compute. reflexivity.
Defined.

(** ** Assignments on a given work item *)

Lemma CreateAssetAssignment_wp taskId userId aid s a0 :
  healthy s → es_assets (EsConn s) !! aid = Some a0 → Asset_Id a0 = aid → aid ≠ "" →
  wp (CreateAssetAssignment taskId userId aid)
    (λ r s',
       r = Ok (mkAssignment (strings_Join [ActiveProjectId s; taskId; aid; userId] "HIVE")
                 userId (ActiveProjectId s) taskId
                 (set_Asset_Counts
                    (count_incr "unfinished"
                       (count_incr "Assignments" (init_counts 0 0 (Asset_Counts a0))))
                    a0)
                 "unfinished" None)
       ∧ healthy s'
       ∧ ActiveProjectId s' = ActiveProjectId s
       ∧ es_tasks (EsConn s') = es_tasks (EsConn s)
       ∧ es_assets (EsConn s')
         = <[aid := json_asset
                      (set_Asset_Counts
                         (count_incr "unfinished"
                            (count_incr "Assignments"
                               (init_counts 0 0 (Asset_Counts a0)))) a0)]>
             (es_assets (EsConn s))
       ∧ es_assignments (EsConn s')
         = <[strings_Join [ActiveProjectId s; taskId; aid; userId] "HIVE" :=
               json_assignment
                 (mkAssignment
                    (strings_Join [ActiveProjectId s; taskId; aid; userId] "HIVE")
                    userId (ActiveProjectId s) taskId
                    (set_Asset_Counts
                       (count_incr "unfinished"
                          (count_incr "Assignments"
                             (init_counts 0 0 (Asset_Counts a0)))) a0)
                    "unfinished" None)]>
             (es_assignments (EsConn s))) s.
Proof.
  intros Hh Ha Hid Hne. unfold CreateAssetAssignment. wp_step.
  wp_use find_or_create_user_spec. intros [Hs Hok].
  destruct (Hok Hh) as [user ->]. pose proof Hs as (Hp & Ht & Has & Hx & Hf).
  pose proof (healthy_same _ _ Hs Hh) as Hh'.
  wp_step. wp_step. wp_step; [healthy_contra|].
  change (docs_of (EsConn s') !! aid) with (es_assets (EsConn s') !! aid).
  rewrite Has, Ha. cbv beta iota zeta.
  repeat (wp_step; try healthy_contra).
  autorewrite with store. cbn [Asset_Id set_Asset_Counts Assignment_Id].
  rewrite Hid, Hp, Has, Hx, Ht.
  rewrite !store_doc_id by (done || apply strings_Join_HIVE).
  split; [done|]. split; [intros r; autorewrite with store; apply Hh'|]. done.
Qed.

(** X19.  [CreateAssetAssignment] counts requests, not assignments.  When no
    store call fails and the work item is stored under its id: a second
    request for the same task, user and work item returns an assignment with
    the id of the first and stores it in the place of the first, so the
    assignment documents are those after the first request; but the work
    item's count of assignments and its count of unfinished ones have grown
    by two. *)
Theorem CreateAssetAssignment_twice (taskId userId aid : string) (s : Server)
    (a0 : Asset) :
  healthy s → es_assets (EsConn s) !! aid = Some a0 → Asset_Id a0 = aid → aid ≠ "" →
  let r1 := CreateAssetAssignment taskId userId aid s in
  let r2 := CreateAssetAssignment taskId userId aid r1.2 in
  ∃ x1 x2 a2,
    r1.1 = Ok x1 ∧ r2.1 = Ok x2
    ∧ Assignment_Id x2 = Assignment_Id x1
    ∧ Assignment_State x2 = "unfinished"
    ∧ dom (es_assignments (EsConn r2.2)) = dom (es_assignments (EsConn r1.2))
    ∧ es_assignments (EsConn r2.2) !! Assignment_Id x1 = Some (json_assignment x2)
    ∧ es_assets (EsConn r2.2) !! aid = Some a2
    ∧ count_get (Asset_Counts a2) "Assignments"
      = int_add (int_add (count_get (init_counts 0 0 (Asset_Counts a0)) "Assignments") 1) 1
    ∧ count_get (Asset_Counts a2) "unfinished"
      = int_add (int_add (count_get (init_counts 0 0 (Asset_Counts a0)) "unfinished") 1) 1.
Proof.
  intros Hh Ha Hid Hne. cbv zeta.
  pose proof (CreateAssetAssignment_wp taskId userId aid s a0 Hh Ha Hid Hne) as H1.
  unfold wp in H1. destruct (CreateAssetAssignment taskId userId aid s) as [r1 s1].
  simpl in H1. destruct H1 as (-> & Hh1 & Hp1 & _ & Ha1 & Hx1). simpl.
  set (a1 := set_Asset_Counts _ a0) in *.
  assert (Ha1' : es_assets (EsConn s1) !! aid = Some (json_asset a1)).
  { rewrite Ha1. by rewrite lookup_insert_eq. }
  pose proof (CreateAssetAssignment_wp taskId userId aid s1 (json_asset a1) Hh1 Ha1'
                Hid Hne) as H2.
  unfold wp in H2. destruct (CreateAssetAssignment taskId userId aid s1) as [r2 s2].
  simpl in H2. destruct H2 as (-> & _ & _ & _ & Ha2 & Hx2). simpl.
  rewrite Hp1 in *. eexists _, _, _. split; [reflexivity|]. split; [reflexivity|].
  split; [done|]. split; [done|]. split.
  { rewrite Hx2, Hx1, !dom_insert_L. set_solver. }
  split; [by rewrite Hx2, lookup_insert_eq|].
  split; [by rewrite Ha2, lookup_insert_eq|].
  cbn [Asset_Counts json_asset set_Asset_SubmittedData set_Asset_Counts a1].
  unfold a1. cbn [Asset_Counts set_Asset_Counts].
  assert (Hi : ∀ c : Counts, size c ≠ 0%nat → init_counts 0 0 c = c).
  { intros c Hc. unfold init_counts. by destruct (Nat.eqb_spec (size c) 0). }
  rewrite (Hi (count_incr _ _)).
  - by counts_simpl.
  - unfold count_incr at 1. intros H0. apply map_size_empty_inv in H0.
    by apply insert_non_empty in H0.
Qed.

Lemma CreateAssetAssignment_twice_witness :
  ∃ a2,
    es_assets (EsConn (CreateAssetAssignment "p-oi" "w1" "a1"
                         (CreateAssetAssignment "p-oi" "w1" "a1" c7_server).2).2)
      !! "a1" = Some a2
    ∧ count_get (Asset_Counts a2) "Assignments" = 2%Z
    ∧ size (es_assignments (EsConn (CreateAssetAssignment "p-oi" "w1" "a1"
                         (CreateAssetAssignment "p-oi" "w1" "a1" c7_server).2).2))
      = 1%nat.
Proof.
  assert (Hh : healthy c7_server) by (intros r; reflexivity).
  destruct (CreateAssetAssignment_twice "p-oi" "w1" "a1" c7_server c7_asset Hh
              eq_refl eq_refl ltac:(discriminate))
    as (x1 & x2 & a2 & _ & _ & _ & _ & _ & _ & Ha2 & Hc & _).
  exists a2. split; [exact Ha2|]. split; [rewrite Hc|]; vm_compute; reflexivity.
Defined.

(** X20.  What [AssignAssetHandler] answers when it cannot assign.  Without
    a user id it answers "Assignments can't be created without a user." and
    touches nothing but the active project.  With a user id: when the work
    item is not there, or the read of the work item fails, the answer is an
    error, "Failed finding an asset with that id." unless creating the user
    failed, and no work item and no assignment has been written. *)
Theorem AssignAssetHandler_refuses (project_id task_id asset_id userId : string)
    (s : Server) :
  (userId = "" →
   AssignAssetHandler project_id task_id asset_id userId s
   = (Err (EMsg "Assignments can't be created without a user."),
      set_ActiveProjectId project_id s))
  ∧ (userId ≠ "" →
     es_assets (EsConn s) !! asset_id = None
     ∨ es_fault (EsConn s) (RGetSource "assets" asset_id) = true →
     let r := AssignAssetHandler project_id task_id asset_id userId s in
     (r.1 = Err (EMsg "Failed finding an asset with that id.")
      ∨ r.1 = Err (EMsg "Assignments can't be created without a user: failed creating a new anon user"))
     ∧ (healthy s → r.1 = Err (EMsg "Failed finding an asset with that id."))
     ∧ es_assets (EsConn r.2) = es_assets (EsConn s)
     ∧ es_assignments (EsConn r.2) = es_assignments (EsConn s)).
Proof.
  split.
  - intros ->. reflexivity.
  - intros Hne Hmiss. cbv zeta.
    set (s0 := set_ActiveProjectId project_id s).
    assert (Hrun : AssignAssetHandler project_id task_id asset_id userId s
                   = CreateAssetAssignment (scoped_task_id project_id task_id) userId
                       asset_id s0).
    { unfold AssignAssetHandler, bind, set_active_project, active_project. simpl.
      by destruct (String.eqb_spec userId ""). }
    rewrite Hrun.
    set (Q := λ (r : res Assignment) (s' : Server),
           (r = Err (EMsg "Failed finding an asset with that id.")
            ∨ r = Err (EMsg "Assignments can't be created without a user: failed creating a new anon user"))
           ∧ (healthy s → r = Err (EMsg "Failed finding an asset with that id."))
           ∧ es_assets (EsConn s') = es_assets (EsConn s)
           ∧ es_assignments (EsConn s') = es_assignments (EsConn s)).
    change (wp (CreateAssetAssignment (scoped_task_id project_id task_id) userId asset_id)
              Q s0).
    unfold CreateAssetAssignment. wp_step.
    unfold find_or_create_user at 1. wp_step. wp_step. wp_use FindUser_spec.
    intros [Hs1 Hok1].
    assert (Hcont : ∀ s1, same_but_users s0 s1 →
              wp (let* r := attempt (FindAsset asset_id) in
                  match r with
                  | Ok asset =>
                      let counts := init_counts 0 0 (Asset_Counts asset) in
                      let counts := count_incr "Assignments" counts in
                      let counts := count_incr "unfinished" counts in
                      let asset := set_Asset_Counts counts asset in
                      let* _ := attempt (Index (Asset_Id asset) asset) in
                      let* project := active_project in
                      let assignmentId :=
                        strings_Join [project; scoped_task_id project_id task_id;
                                      asset_id; userId] "HIVE" in
                      let assignment :=
                        mkAssignment assignmentId userId project
                          (scoped_task_id project_id task_id) asset "unfinished" None in
                      let* _ := Index (Assignment_Id assignment) assignment in
                      ret assignment
                  | Err _ => fail (EMsg "Failed finding an asset with that id.")
                  end) Q s1).
    { intros s1 (Hp & Ht & Ha & Hx & Hf).
      wp_step. wp_step. wp_step.
      - wp_step. split; [by left|]. split; [done|]. by rewrite Ha, Hx.
      - change (docs_of (EsConn s1) !! asset_id) with (es_assets (EsConn s1) !! asset_id).
        rewrite Ha. simpl in *. rewrite Hf in *. simpl in *.
        destruct Hmiss as [Hnone|Hfault]; [|congruence].
        rewrite Hnone. wp_step. split; [by left|]. split; [done|]. by rewrite Ha, Hx. }
    destruct r as [[user|]|e]; [wp_step; by apply Hcont|..].
    all: wp_step; wp_step; wp_use CreateUserFromMissingCookieValue_spec;
      intros [Hs2 Hok2];
      assert (Hs02 : same_but_users s0 s'0) by (by eapply same_but_users_trans);
      destruct r as [user|e']; wp_step; [by apply Hcont|];
      (split; [by right|]); destruct Hs02 as (_ & _ & Ha & Hx & _);
      (split; [|by rewrite Ha, Hx]); intros Hh;
      destruct (Hok2 (healthy_same _ _ Hs1 (healthy_set_active_project _ _ Hh)))
        as [? ?]; done.
Qed.

Lemma AssignAssetHandler_refuses_witness :
  (AssignAssetHandler "p" "oi" "nothing" "w1" c9_server).1
  = Err (EMsg "Failed finding an asset with that id.").
Proof.
  assert (Hh : healthy c9_server) by (intros r; reflexivity).
  exact (proj1 (proj2 (proj2 (AssignAssetHandler_refuses "p" "oi" "nothing" "w1"
                  c9_server) ltac:(discriminate) (or_introl eq_refl))) Hh).
Defined.

(** ** The work item of a new assignment *)

Lemma matches_eligible_query task project assetIds count (a : Asset) :
  matches (eligible_query task project assetIds count) a = true →
  Asset_Project a = project
  ∧ (∀ c, c ∈ criteria_clauses task → eval_clause (asset_field a) c = true)
  ∧ Asset_Id a ∉ assetIds.
Proof.
  unfold matches, eligible_query. cbn [q_must q_must_not].
  change (doc_field a) with (asset_field a).
  rewrite andb_true_iff, forallb_app, andb_true_iff, negb_true_iff.
  intros [[Hc Hp] Hn]. split; [|split].
  - simpl in Hp. rewrite andb_true_r in Hp. by apply bool_decide_eq_true in Hp.
  - intros c Hin. rewrite forallb_forall in Hc. by apply Hc, list_elem_of_In.
  - intros Hin. destruct assetIds as [|y l]; [by apply elem_of_nil in Hin|].
    simpl in Hn. rewrite orb_false_r in Hn. by apply bool_decide_eq_false in Hn.
Qed.

(** X21.  Whenever [FindAssignmentAsset] returns a work item, it is a stored
    work item of the active project that satisfies every clause made of the
    task's criteria, and its id is not the asset part of the id of any of
    the assignments the first query returned; the call has changed nothing
    in the store. *)
Theorem FindAssignmentAsset_sound (task : Task) (user : User) (s : Server) (a : Asset) :
  (FindAssignmentAsset task user s).1 = Ok a →
  (∃ id, es_assets (EsConn s) !! id = Some a)
  ∧ Asset_Project a = ActiveProjectId s
  ∧ (∀ c, c ∈ criteria_clauses task → eval_clause (asset_field a) c = true)
  ∧ (∀ k x, (k, x) ∈ assigned_hits task user s → hit_asset_id k ≠ Some (Asset_Id a))
  ∧ EsConn (FindAssignmentAsset task user s).2 = EsConn s.
Proof.
  assert (Hwp : wp (FindAssignmentAsset task user)
            (λ r s', ∀ a, r = Ok a →
               (∃ id, es_assets (EsConn s) !! id = Some a)
               ∧ Asset_Project a = ActiveProjectId s
               ∧ (∀ c, c ∈ criteria_clauses task → eval_clause (asset_field a) c = true)
               ∧ (∀ k x, (k, x) ∈ assigned_hits task user s →
                         hit_asset_id k ≠ Some (Asset_Id a))
               ∧ EsConn s' = EsConn s) s).
  { unfold FindAssignmentAsset. wp_step. wp_step. wp_step. wp_step; [done|].
    destruct (mapM _ _) as [assetIds|] eqn:Hids; [|by wp_step].
    repeat wp_step; try done; intros a' Heq; simplify_eq.
    all: match goal with
         | H : Hits_Hits (run_search ?q ?e) !! _ = Some ?hit |- _ =>
             apply list_elem_of_lookup_2 in H; destruct hit as [id a0];
             apply run_search_hits in H as [Hl Hm]
         end.
    all: apply matches_eligible_query in Hm as (Hp & Hc & Hn).
    all: split; [by exists id|]; split; [done|]; split; [done|]; split; [|done].
    all: intros k x Hin Hk; apply Hn; apply mapM_Some_1 in Hids.
    all: apply list_elem_of_lookup_1 in Hin as [j Hj].
    all: destruct (Forall2_lookup_l _ _ _ _ _ Hids Hj) as (y & Hy & Hf).
    all: simpl in Hf; rewrite Hk in Hf; simplify_eq.
    all: by apply list_elem_of_lookup_2 in Hy. }
  intros Hr. unfold wp in Hwp. by apply Hwp.
Qed.

Lemma FindAssignmentAsset_sound_witness :
  ∃ a, (FindAssignmentAsset c4_task c9_user c4_server).1 = Ok a
       ∧ Asset_Project a = "p".
Proof.
  assert (Hr : (FindAssignmentAsset c4_task c9_user c4_server).1 = Ok c7_asset)
    by (vm_compute; reflexivity).
  exists c7_asset. split; [exact Hr|].
  exact (proj1 (proj2 (FindAssignmentAsset_sound c4_task c9_user c4_server c7_asset Hr))).
Defined.

(** X22.  How [FindAssignmentAsset] fails when no store call fails.  When
    every assignment the first query returns has an id of at least three
    parts and no stored work item belongs to the active project, the answer
    is "No assets found".  When one of them has an id of fewer than three
    parts, reading part 2 of it is out of range and the call panics.  In
    both cases nothing has changed. *)
Theorem FindAssignmentAsset_fails (task : Task) (user : User) (s : Server) :
  healthy s →
  ((∀ k x, (k, x) ∈ assigned_hits task user s → is_Some (hit_asset_id k)) →
   (∀ k a, es_assets (EsConn s) !! k = Some a → Asset_Project a ≠ ActiveProjectId s) →
   FindAssignmentAsset task user s = (Err (EMsg "No assets found"), s))
  ∧ ((∃ k x, (k, x) ∈ assigned_hits task user s ∧ hit_asset_id k = None) →
     FindAssignmentAsset task user s = (Err EPanic, s)).
Proof.
  intros Hh. split.
  - intros Hparse Hnone.
    assert (Hids : is_Some (mapM (λ hit : string * Assignment, hit_asset_id hit.1)
                              (assigned_hits task user s))).
    { apply mapM_is_Some, Forall_forall. intros [k x] Hin. by apply (Hparse k x). }
    destruct Hids as [assetIds Hids].
    unfold FindAssignmentAsset, bind, active_project, Search, Count, bind, call, ret.
    simpl. rewrite !Hh. fold (assigned_hits task user s). rewrite Hids. simpl.
    rewrite !Hh.
    assert (Hall : all_hits (D:=Asset)
                     (eligible_query task (ActiveProjectId s) assetIds
                        (size (es_assets (EsConn s)))) (EsConn s) = []).
    { destruct (all_hits _ _) as [|[k a] l] eqn:E; [done|]. exfalso.
      assert (Hin : (k, a) ∈ all_hits (D:=Asset)
                      (eligible_query task (ActiveProjectId s) assetIds
                         (size (es_assets (EsConn s)))) (EsConn s))
        by (rewrite E; left).
      apply elem_of_all_hits in Hin as [Hk Hm].
      apply matches_eligible_query in Hm as (Hp & _). by apply (Hnone k a). }
    unfold run_search. simpl. by rewrite Hall.
  - intros (k & x & Hin & Hk).
    assert (Hids : mapM (λ hit : string * Assignment, hit_asset_id hit.1)
                     (assigned_hits task user s) = None).
    { apply mapM_None, Exists_exists. exists (k, x).
      split; [done|done]. }
    unfold FindAssignmentAsset, bind, active_project, Search, bind, call, ret.
    simpl. rewrite !Hh. fold (assigned_hits task user s). by rewrite Hids.
Qed.

Lemma FindAssignmentAsset_fails_witness :
  FindAssignmentAsset c4_task x_legacy_user x_legacy_server
  = (Err EPanic, x_legacy_server).
Proof.
  assert (Hh : healthy x_legacy_server) by (intros r; reflexivity).
  apply (proj2 (FindAssignmentAsset_fails c4_task x_legacy_user x_legacy_server Hh)).
  exists "legacy-1", (mkAssignment "legacy-1" "w1" "p" "p-oi" c7_asset "finished" None).
  split; [|reflexivity]. apply list_elem_of_In. vm_compute. left. reflexivity.
Defined.

(** ** A vote without submitted data *)

(** X23.  [CompleteAsset] with nil submitted data.  The nil map stored in
    the map entry is not [== nil], so when every other task on the page of
    [FindTasks] has an entry the work item is returned and stored with
    [Verified] true; the entry itself is written out as null, so the stored
    work item is verified with a nil entry for the task. *)
Theorem CompleteAsset_nil_data (s : Server) (assetId : string) (task : Task) (a0 : Asset) :
  healthy s → assetId ≠ "" →
  es_assets (EsConn s) !! assetId = Some a0 →
  (∀ t, t ∈ project_task_page s → Task_Name t ≠ Task_Name task →
        is_nil (map_get (Asset_SubmittedData a0) (Task_Name t)) = false) →
  ∃ asset s',
    CompleteAsset assetId task None s = (Ok asset, s')
    ∧ Asset_Verified asset = true
    ∧ is_nil (map_get (Asset_SubmittedData asset) (Task_Name task)) = false
    ∧ ∃ stored,
        es_assets (EsConn s') !! assetId = Some stored
        ∧ Asset_Verified stored = true
        ∧ is_nil (map_get (Asset_SubmittedData stored) (Task_Name task)) = true.
Proof.
  intros Hh Hne Ha Hothers.
  set (sd := <[Task_Name task := VNilMap]> (Asset_SubmittedData a0)).
  assert (Hv : forallb (λ t, negb (is_nil (map_get sd (Task_Name t))))
                 (project_task_page s) = true).
  { apply forallb_forall. intros t Ht%list_elem_of_In. unfold sd, map_get.
    destruct (decide (Task_Name t = Task_Name task)) as [->|Hn].
    - by rewrite lookup_insert_eq.
    - rewrite lookup_insert_ne by done. apply negb_true_iff. by apply Hothers. }
  set (asset := set_Asset_Verified true (set_Asset_SubmittedData sd a0)).
  exists asset,
    (set_EsConn (with_docs (<[assetId := json_asset asset]> (es_assets (EsConn s)))
                   (EsConn s)) s).
  split.
  - unfold CompleteAsset, FindAsset, GetSource, bind, call. rewrite Hh.
    change (docs_of (EsConn s) !! assetId) with (es_assets (EsConn s) !! assetId).
    rewrite Ha. cbv beta iota zeta. rewrite FindTasks_run by done.
    fold (project_task_page s). simpl sd_interface. fold sd.
    assert (Hsd : Asset_SubmittedData (set_Asset_SubmittedData sd a0) = sd) by done.
    rewrite Hsd, Hv. fold asset. rewrite Index_run by done. unfold ret, store_doc.
    destruct (String.eqb_spec assetId "") as [|_]; [done|]. done.
  - split; [done|]. split.
    + unfold asset, map_get. simpl. unfold sd. by rewrite lookup_insert_eq.
    + exists (json_asset asset). autorewrite with store.
      split; [simpl; by rewrite lookup_insert_eq|]. split; [done|].
      unfold json_asset, asset, map_get. simpl. unfold sd.
      by rewrite lookup_fmap, lookup_insert_eq.
Qed.

Lemma CompleteAsset_nil_data_witness :
  ∃ asset s',
    CompleteAsset "a1" c7_task None c7_server = (Ok asset, s')
    ∧ Asset_Verified asset = true.
Proof.
  assert (Hh : healthy c7_server) by (intros r; reflexivity).
  destruct (CompleteAsset_nil_data c7_server "a1" c7_task c7_asset Hh)
    as (asset & s' & Hrun & Hv & _).
  - done.
  - reflexivity.
  - intros t Ht Hn. exfalso. apply Hn.
    assert (Hpage : project_task_page c7_server = [c7_task]) by (vm_compute; reflexivity).
    rewrite Hpage in Ht. apply list_elem_of_singleton in Ht. by subst t.
  - by exists asset, s'.
Defined.

(** ** What the sweep leaves alone *)

Lemma elem_of_agg_buckets_inv keys m size b :
  b ∈ agg_buckets keys m size →
  (m ≤ Bucket_Count b)%Z
  ∧ Bucket_Count b = Z.of_nat (length (filter (λ k', k' = Bucket_Id b) keys)).
Proof.
  unfold agg_buckets. intros Hin.
  apply (subseteq_take _ _ _) in Hin.
  rewrite merge_sort_Permutation in Hin.
  apply list_elem_of_filter in Hin as [Hm Hin].
  apply list_elem_of_fmap in Hin as (k & -> & _). done.
Qed.

(** A bucket of the sweep counts the finished assignments of its work item
    and has at least [Total] of them. *)
Lemma sweep_buckets_count s taskName task b :
  b ∈ sweep_buckets s taskName task →
  (Total (Task_CompletionCriteria task) ≤ Bucket_Count b)%Z
  ∧ Bucket_Count b
    = Z.of_nat (length (finished_assignments s taskName (Bucket_Id b))).
Proof.
  unfold sweep_buckets, run_aggregation. fold (task_finished s taskName).
  rewrite sweep_keys. intros Hin.
  apply elem_of_agg_buckets_inv in Hin as [Hm Hc]. split; [done|].
  by rewrite Hc, sweep_count.
Qed.

Lemma CompleteTask_unknown taskId s :
  reads_ok s →
  es_tasks (EsConn s) !! (ActiveProjectId s +:+ "-" +:+ taskId) = None →
  CompleteTask taskId s = (([], Some ENotFound), s).
Proof.
  intros Hr Hnone.
  assert (Hsweep : complete_task_sweep taskId s = (Err ENotFound, s)).
  { apply run_wp. unfold complete_task_sweep. wp_step. wp_step. wp_step.
    wp_step; [reads_contra|].
    change (docs_of (EsConn s) !! (ActiveProjectId s +:+ "-" +:+ taskId))
      with (es_tasks (EsConn s) !! (ActiveProjectId s +:+ "-" +:+ taskId)).
    by rewrite Hnone. }
  unfold CompleteTask. by rewrite Hsweep.
Qed.

(** X24.  What [CompleteTask] never does, when reads do not fail and
    documents are stored under their ids (writes may fail): it leaves the
    active project and the tasks as they were, creates and deletes no work
    item and creates no assignment; an assignment found afterwards is the
    one stored before under that id, or that one with its state set to
    "verified".  When the task exists, the assignments on a work item with
    fewer than [Total] finished assignments of the task are untouched.
    Every work item returned has the id of a stored work item. *)
Theorem CompleteTask_frame (taskId : string) (s : Server) :
  reads_ok s → wf_assignments s → wf_assets s →
  let taskName := ActiveProjectId s +:+ "-" +:+ taskId in
  let s' := (CompleteTask taskId s).2 in
  ActiveProjectId s' = ActiveProjectId s
  ∧ es_tasks (EsConn s') = es_tasks (EsConn s)
  ∧ (∀ k, is_Some (es_assets (EsConn s') !! k) ↔ is_Some (es_assets (EsConn s) !! k))
  ∧ (∀ k x', es_assignments (EsConn s') !! k = Some x' →
       ∃ x, es_assignments (EsConn s) !! k = Some x
            ∧ (x' = x ∨ x' = verified_doc x))
  ∧ (∀ task k x,
       es_tasks (EsConn s) !! taskName = Some task →
       es_assignments (EsConn s) !! k = Some x →
       (Z.of_nat (length (finished_assignments s taskName
                            (Asset_Id (Assignment_Asset x))))
        < Total (Task_CompletionCriteria task))%Z →
       es_assignments (EsConn s') !! k = Some x)
  ∧ (∀ a, a ∈ (CompleteTask taskId s).1.1 →
       ∃ k a0, es_assets (EsConn s) !! k = Some a0 ∧ Asset_Id a = Asset_Id a0).
Proof.
  intros Hr Hwf Hwfa taskName s'. subst s'.
  destruct (es_tasks (EsConn s) !! taskName) as [task|] eqn:Htask.
  - destruct (CompleteTask_spec taskId task s Hr Hwf Hwfa Htask)
      as (assets & s1 & -> & Hrel & Hnew & _).
    cbn [fst snd].
    destruct Hrel as (Hp & Ht & _ & _ & H5 & H6 & H7 & H8).
    split; [done|]. split; [done|]. split; [|split; [done|split]].
    + intros k. split.
      * intros [a' Ha']. destruct (H5 _ _ Ha') as (a & Ha & _). by exists a.
      * intros [a Ha]. by eapply H6.
    + intros task' k x Heq Hk Hlt. simplify_eq. apply H7; [done|].
      intros Hin. apply list_elem_of_fmap in Hin as (b & Hb & Hin).
      apply sweep_buckets_count in Hin as [Hm Hc].
      fold taskName in Hc. rewrite <- Hb in Hc. lia.
    + intros a Ha. destruct (Hnew a Ha) as (b & a0 & _ & _ & Ha0 & Hid).
      by exists (Bucket_Id b), a0.
  - rewrite (CompleteTask_unknown taskId s Hr Htask). cbn [fst snd].
    split; [done|]. split; [done|]. split; [done|]. split; [|split].
    + intros k x' Hk. exists x'. split; [done|by left].
    + intros task k x Heq. discriminate.
    + intros a Ha. by apply elem_of_nil in Ha.
Qed.

Lemma CompleteTask_frame_witness :
  es_tasks (EsConn (CompleteTask "oi" c8_server).2) = es_tasks (EsConn c8_server).
Proof.
  assert (Hr : reads_ok c8_server).
  { intros r Hf. destruct r; try discriminate. by eexists _, _. }
  assert (Hwf : wf_assignments c8_server)
    by (apply wf_assignments_check; vm_compute; reflexivity).
  assert (Hwfa : wf_assets c8_server)
    by (apply wf_assets_check; vm_compute; reflexivity).
  exact (proj1 (proj2 (CompleteTask_frame "oi" c8_server Hr Hwf Hwfa))).
Defined.

(** ** Creating tasks *)

Lemma task_id_not_empty (project name : string) :
  String.eqb (strings_Join [project; name] "-") "" = false.
Proof.
  apply String.eqb_neq. cbn [strings_Join].
  destruct project as [|a p]; [rewrite append_nil_l|]; by rewrite append_cons.
Qed.

Lemma tasks_store_nil s : tasks_store [] s = s.
Proof. unfold tasks_store. simpl. by destruct s as [? []]. Qed.

Lemma tasks_store_cons t l s :
  tasks_store l (tasks_store [t] s) = tasks_store (t :: l) s.
Proof. reflexivity. Qed.

Lemma healthy_tasks_store l s : healthy s → healthy (tasks_store l s).
Proof. intros Hh r. apply Hh. Qed.

Lemma import_tasks_range_run ToLower (l acc : list Task) s :
  healthy s → Forall (λ t, Task_Name t ≠ "") l →
  import_tasks_range ToLower l acc s
  = ((acc ++ (imported_task ToLower (ActiveProjectId s) <$> l), None),
     tasks_store (imported_task ToLower (ActiveProjectId s) <$> l) s).
Proof.
  intros Hh Hall. revert acc s Hh.
  induction Hall as [|t l Hn Hall IH]; intros acc s Hh.
  - simpl. by rewrite app_nil_r, tasks_store_nil.
  - cbn [import_tasks_range].
    destruct (String.length (Task_Name t) =? 0)%nat eqn:E.
    { apply Nat.eqb_eq in E. by destruct (Task_Name t). }
    cbv zeta. rewrite Index_run by done. unfold store_doc. cbn [Task_Id set_Task_Id].
    change (Task_Name (set_Task_Project (ActiveProjectId s) t)) with (Task_Name t).
    rewrite task_id_not_empty. cbn [fst snd].
    change (set_Task_Id _ (set_Task_Project (ActiveProjectId s) t))
      with (imported_task ToLower (ActiveProjectId s) t).
    change (set_EsConn _ s)
      with (tasks_store [imported_task ToLower (ActiveProjectId s) t] s).
    rewrite IH by by apply healthy_tasks_store.
    rewrite fmap_cons, <- app_assoc. done.
Qed.

Lemma foldl_insert_task_last (l : list Task) (m : gmap string Task) i t :
  l !! i = Some t →
  (∀ j t2, (i < j)%nat → l !! j = Some t2 → Task_Id t2 ≠ Task_Id t) →
  foldl (λ m t, <[Task_Id t := t]> m) m l !! Task_Id t = Some t.
Proof.
  revert m i. induction l as [|x l IH]; intros m i Hi Hlast; [done|].
  destruct i as [|i]; simpl in *.
  - simplify_eq. clear IH. revert m.
    assert (Hl : ∀ t2, t2 ∈ l → Task_Id t2 ≠ Task_Id t).
    { intros t2 Hin. apply list_elem_of_lookup_1 in Hin as [j Hj].
      apply (Hlast (S j)); [lia|done]. }
    clear Hlast. induction l as [|y l IH]; intros m; simpl.
    + by rewrite lookup_insert_eq.
    + rewrite insert_insert_ne.
      * apply IH. intros t2 Hin. apply Hl. by right.
      * apply Hl. left.
  - apply (IH _ i); [done|]. intros j t2 Hj. apply (Hlast (S j)). lia.
Qed.

Lemma foldl_insert_task_other (l : list Task) (m : gmap string Task) k :
  k ∉ Task_Id <$> l →
  foldl (λ m t, <[Task_Id t := t]> m) m l !! k = m !! k.
Proof.
  revert m. induction l as [|x l IH]; intros m Hk; simpl; [done|].
  rewrite fmap_cons, not_elem_of_cons in Hk. destruct Hk as [Hne Hk].
  rewrite IH by done. by rewrite lookup_insert_ne.
Qed.

(** X25.  [importTasks] when no store call fails and every task has a name:
    it returns one task per given task, in order, with the active project
    and the id project-ToLower(name), and a meta with their number as Total
    and Size.  Afterwards [FindTask] finds each returned task under its id,
    unless a later task of the list has the same id (two names that
    [ToLower] maps to the same string): then the later one has replaced it.
    Tasks under other ids and all other documents are as before. *)
Theorem importTasks_imports (ToLower : string → string) (newTasks : list Task)
    (s : Server) :
  healthy s → Forall (λ t, Task_Name t ≠ "") newTasks →
  let tasks := imported_task ToLower (ActiveProjectId s) <$> newTasks in
  let s' := (importTasks ToLower newTasks s).2 in
  (importTasks ToLower newTasks s).1
  = (tasks, mkMeta (length newTasks) 0 (length newTasks), None)
  ∧ (∀ i t, tasks !! i = Some t →
       (∀ j t2, (i < j)%nat → tasks !! j = Some t2 → Task_Id t2 ≠ Task_Id t) →
       FindTask (Task_Id t) s' = (Ok t, s'))
  ∧ (∀ k, k ∉ Task_Id <$> tasks → es_tasks (EsConn s') !! k = es_tasks (EsConn s) !! k)
  ∧ es_assets (EsConn s') = es_assets (EsConn s)
  ∧ es_assignments (EsConn s') = es_assignments (EsConn s)
  ∧ es_users (EsConn s') = es_users (EsConn s)
  ∧ ActiveProjectId s' = ActiveProjectId s.
Proof.
  intros Hh Hall tasks s'.
  assert (Hrun : importTasks ToLower newTasks s
                 = ((tasks, mkMeta (length newTasks) 0 (length newTasks), None),
                    tasks_store tasks s)).
  { unfold importTasks. rewrite import_tasks_range_run by done. cbn [app].
    fold tasks. unfold Refresh, call.
    rewrite (healthy_tasks_store tasks s Hh RRefresh).
    unfold tasks. by rewrite length_fmap. }
  subst s'. rewrite Hrun. cbn [fst snd].
  split; [done|]. split; [|split; [|done]].
  - intros i t Hi Hlast. unfold FindTask, GetSource, bind, call.
    rewrite (healthy_tasks_store tasks s Hh).
    change (docs_of (EsConn (tasks_store tasks s)) !! Task_Id t)
      with (foldl (λ m t, <[Task_Id t := t]> m) (es_tasks (EsConn s)) tasks
              !! Task_Id t).
    by rewrite (foldl_insert_task_last _ _ i t Hi Hlast).
  - intros k Hk.
    change (es_tasks (EsConn (tasks_store tasks s)) !! k)
      with (foldl (λ m t, <[Task_Id t := t]> m) (es_tasks (EsConn s)) tasks !! k).
    by apply foldl_insert_task_other.
Qed.

Lemma importTasks_imports_witness :
  (importTasks ascii_ToLower [x_new_task "Oi"; x_new_task "Tag"] c4_server).1
  = ([imported_task ascii_ToLower "p" (x_new_task "Oi");
      imported_task ascii_ToLower "p" (x_new_task "Tag")], mkMeta 2 0 2, None).
Proof.
  assert (Hh : healthy c4_server) by (intros r; reflexivity).
  assert (Hall : Forall (λ t, Task_Name t ≠ "") [x_new_task "Oi"; x_new_task "Tag"])
    by (repeat constructor; discriminate).
  exact (proj1 (importTasks_imports ascii_ToLower _ c4_server Hh Hall)).
Defined.

(** X26.  [importTasks] does not roll back.  When a task without a name
    follows tasks that have one (no store call failing), it returns the
    tasks before it with the error "Sorry, all tasks must specify a name."
    and a zero meta; those tasks stay stored, exactly as if only they had
    been imported, and nothing of the rest of the list is looked at. *)
Theorem importTasks_stops_without_name (ToLower : string → string)
    (before rest : list Task) (t : Task) (s : Server) :
  healthy s → Forall (λ t, Task_Name t ≠ "") before → Task_Name t = "" →
  importTasks ToLower (before ++ t :: rest) s
  = ((imported_task ToLower (ActiveProjectId s) <$> before, mkMeta 0 0 0,
      Some (EMsg "Sorry, all tasks must specify a name.")),
     (importTasks ToLower before s).2).
Proof.
  intros Hh Hall Hname.
  assert (Hloop : ∀ acc s, healthy s →
            import_tasks_range ToLower (before ++ t :: rest) acc s
            = ((acc ++ (imported_task ToLower (ActiveProjectId s) <$> before),
                Some (EMsg "Sorry, all tasks must specify a name.")),
               tasks_store (imported_task ToLower (ActiveProjectId s) <$> before) s)).
  { clear s Hh. induction Hall as [|t0 l Hn Hall IH]; intros acc s Hh.
    - cbn [app import_tasks_range]. rewrite Hname. simpl.
      by rewrite app_nil_r, tasks_store_nil.
    - cbn [app import_tasks_range].
      destruct (String.length (Task_Name t0) =? 0)%nat eqn:E.
      { apply Nat.eqb_eq in E. by destruct (Task_Name t0). }
      cbv zeta. rewrite Index_run by done. unfold store_doc. cbn [Task_Id set_Task_Id].
      change (Task_Name (set_Task_Project (ActiveProjectId s) t0)) with (Task_Name t0).
      rewrite task_id_not_empty. cbn [fst snd].
      change (set_Task_Id _ (set_Task_Project (ActiveProjectId s) t0))
        with (imported_task ToLower (ActiveProjectId s) t0).
      change (set_EsConn _ s)
        with (tasks_store [imported_task ToLower (ActiveProjectId s) t0] s).
      rewrite IH by by apply healthy_tasks_store.
      rewrite fmap_cons, <- app_assoc. done. }
  unfold importTasks. rewrite Hloop by done.
  rewrite import_tasks_range_run by done. cbn [app].
  unfold Refresh, call. by rewrite (healthy_tasks_store _ s Hh RRefresh).
Qed.

Lemma importTasks_stops_without_name_witness :
  importTasks ascii_ToLower [x_new_task "Oi"; x_new_task ""; x_new_task "Tag"] c4_server
  = (([imported_task ascii_ToLower "p" (x_new_task "Oi")], mkMeta 0 0 0,
      Some (EMsg "Sorry, all tasks must specify a name.")),
     (importTasks ascii_ToLower [x_new_task "Oi"] c4_server).2).
Proof.
  assert (Hh : healthy c4_server) by (intros r; reflexivity).
  assert (Hall : Forall (λ t, Task_Name t ≠ "") [x_new_task "Oi"])
    by (repeat constructor; discriminate).
  exact (importTasks_stops_without_name ascii_ToLower [x_new_task "Oi"]
           [x_new_task "Tag"] (x_new_task "") c4_server Hh Hall eq_refl).
Defined.

(** X27.  [CreateTask] when no store call fails: the task is stored under
    the id project-ToLower(name), with every other field as in the request,
    and [FindTask] finds it under that id.  The handlers take that id as it
    is, and [CompleteTask] reads the same document for ToLower(name).
    [CreateTask] does not set the task's project: the task is on the list of
    [FindTasks] only when the request named the active project. *)
Theorem CreateTask_round_trip (ToLower : string → string) (body : Task) (s : Server) :
  healthy s →
  let project := ActiveProjectId s in
  let task := set_Task_Id (strings_Join [project; ToLower (Task_Name body)] "-") body in
  ∃ s',
    CreateTask ToLower body s = (Ok task, s')
    ∧ FindTask (Task_Id task) s' = (Ok task, s')
    ∧ scoped_task_id project (Task_Id task) = Task_Id task
    ∧ project +:+ "-" +:+ ToLower (Task_Name body) = Task_Id task
    ∧ (∀ p tasks, (FindTasks p s').1 = Ok tasks → task ∈ tasks →
         Task_Project body = project).
Proof.
  intros Hh project task.
  exists (tasks_store [task] s).
  assert (Hh' : healthy (tasks_store [task] s)) by by apply healthy_tasks_store.
  split; [|split; [|split; [|split]]].
  - unfold CreateTask, bind, active_project. fold project. cbv zeta. fold task.
    rewrite Index_run by done. unfold store_doc. cbn [Task_Id task set_Task_Id].
    rewrite task_id_not_empty. cbn [fst snd]. unfold Refresh, call.
    change (set_EsConn _ s) with (tasks_store [task] s).
    by rewrite (Hh' RRefresh).
  - unfold FindTask, GetSource, bind, call. rewrite (Hh' _).
    change (docs_of (EsConn (tasks_store [task] s)) !! Task_Id task)
      with (<[Task_Id task := task]> (es_tasks (EsConn s)) !! Task_Id task).
    by rewrite lookup_insert_eq.
  - unfold scoped_task_id. cbn [Task_Id task set_Task_Id strings_Join].
    by rewrite prefix_app.
  - reflexivity.
  - intros p tasks Hrun Hin. rewrite FindTasks_run in Hrun by done.
    assert (Heq : tasks
                  = (Hits_Hits
                       (run_search
                          (tasks_query (ActiveProjectId (tasks_store [task] s)) p)
                          (EsConn (tasks_store [task] s)))).*2)
      by (cbn [fst] in Hrun; congruence).
    rewrite Heq in Hin. clear Heq Hrun.
    apply list_elem_of_fmap in Hin as ([k t] & Heq & Hin).
    apply run_search_hits in Hin as [_ Hm]. cbn [snd] in Heq. subst t.
    clear Hh'.
    unfold matches, tasks_query in Hm. cbn in Hm.
    rewrite !andb_true_r in Hm. apply bool_decide_eq_true in Hm.
    by apply list_elem_of_singleton in Hm.
Qed.

Lemma CreateTask_round_trip_witness :
  ∃ s', CreateTask ascii_ToLower (x_new_task "Tag") c4_server
        = (Ok (set_Task_Id "p-tag" (x_new_task "Tag")), s').
Proof.
  assert (Hh : healthy c4_server) by (intros r; reflexivity).
  destruct (CreateTask_round_trip ascii_ToLower (x_new_task "Tag") c4_server Hh)
    as (s' & Hrun & _).
  exists s'. exact Hrun.
Defined.

(** ** Creating a user over an existing one *)

(** X28.  [CreateUser] with an id in the request, when no store call fails:
    the user is stored under that id whatever was stored there, with the
    active project, the three zero counts of a new user and no favorites,
    whatever the request or the stored user had; no task gets a count at
    creation.  [FindUser] then finds a user without favorites whose every
    count reads 0.  The other users are unchanged. *)
Theorem CreateUser_overwrites (body : User) (s : Server) :
  healthy s → User_Id body ≠ "" →
  ∃ u s',
    CreateUser body s = (Ok u, s')
    ∧ u = mkUser (User_Id body) (User_Name body) (User_Email body) (ActiveProjectId s)
            (User_ExternalId body) fresh_user_counts ∅ (User_NewFavorites body)
            (User_VerifiedAssets body)
    ∧ es_users (EsConn s') !! User_Id body = Some (json_user u)
    ∧ (∀ k, k ≠ User_Id body → es_users (EsConn s') !! k = es_users (EsConn s) !! k)
    ∧ ∃ u2,
        FindUser (User_Id body) s' = (Ok (Some u2), s')
        ∧ User_Favorites u2 = ∅
        ∧ ∀ k, count_get (User_Counts u2) k = 0%Z.
Proof.
  intros Hh Hne. unfold CreateUser, bind at 1, active_project.
  set (u := mkUser (User_Id body) (User_Name body) (User_Email body) (ActiveProjectId s)
              (User_ExternalId body) fresh_user_counts ∅ (User_NewFavorites body)
              (User_VerifiedAssets body)).
  destruct (store_new_user_run u s Hh) as (s' & Hrun & Hh' & Hs & Hu & _).
  cbn [User_Id u] in Hrun, Hu.
  destruct (String.eqb_spec (User_Id body) "") as [|_]; [done|].
  change (set_User_Id (User_Id body) u) with u in Hrun, Hu.
  rewrite Hrun. exists u, s'. split; [done|]. split; [done|].
  split; [by rewrite Hu, lookup_insert_eq|].
  split; [intros k Hk; by rewrite Hu, lookup_insert_ne|].
  eexists. split.
  - apply FindUser_run; [done|done|]. by rewrite Hu, lookup_insert_eq.
  - split; [by cbn; rewrite fmap_empty|]. intros k. cbn [User_Counts set_User_Counts].
    rewrite count_get_fill_task_counts. cbn [json_user User_Counts u].
    unfold count_get, fresh_user_counts.
    destruct (decide (k = "Favorites")) as [->|H1]; [by rewrite lookup_insert_eq|].
    rewrite lookup_insert_ne by done.
    destruct (decide (k = "Assignments")) as [->|H2]; [by rewrite lookup_insert_eq|].
    rewrite lookup_insert_ne by done.
    destruct (decide (k = "VerifiedAssets")) as [->|H3]; [by rewrite lookup_insert_eq|].
    by rewrite lookup_insert_ne.
Qed.

Lemma CreateUser_overwrites_witness :
  ∃ u s', CreateUser (set_User_Counts (<["Assignments" := 7]> ∅) c9_user) c9_server
          = (Ok u, s')
          ∧ User_Counts u = fresh_user_counts.
Proof.
  assert (Hh : healthy c9_server) by (intros r; reflexivity).
  destruct (CreateUser_overwrites (set_User_Counts (<["Assignments" := 7]> ∅) c9_user)
              c9_server Hh) as (u & s' & Hrun & Hu & _); [done|].
  exists u, s'. split; [exact Hrun|]. by rewrite Hu.
Defined.

(** ** Posting an assignment back *)

Lemma UpdateAssignment_open_run x s a0 :
  healthy s →
  es_assets (EsConn s) !! Asset_Id (Assignment_Asset x) = Some a0 →
  Asset_Id a0 = Asset_Id (Assignment_Asset x) → Asset_Id a0 ≠ "" →
  Assignment_Id x ≠ "" → Assignment_State x ≠ "finished" →
  ∃ x' s',
    UpdateAssignment x s = (Ok x', s')
    ∧ Assignment_Id x' = Assignment_Id x ∧ Assignment_User x' = Assignment_User x
    ∧ Assignment_Project x' = Assignment_Project x
    ∧ Assignment_Task x' = Assignment_Task x
    ∧ Assignment_State x' = Assignment_State x
    ∧ healthy s' ∧ ActiveProjectId s' = ActiveProjectId s
    ∧ es_tasks (EsConn s') = es_tasks (EsConn s)
    ∧ es_users (EsConn s') = es_users (EsConn s)
    ∧ es_assignments (EsConn s')
      = <[Assignment_Id x := json_assignment x']> (es_assignments (EsConn s)).
Proof.
  intros Hh Ha Hid Hne Hxid Hst.
  assert (Hwp : wp (UpdateAssignment x)
            (λ r s', ∃ x', r = Ok x'
               ∧ Assignment_Id x' = Assignment_Id x
               ∧ Assignment_User x' = Assignment_User x
               ∧ Assignment_Project x' = Assignment_Project x
               ∧ Assignment_Task x' = Assignment_Task x
               ∧ Assignment_State x' = Assignment_State x
               ∧ healthy s' ∧ ActiveProjectId s' = ActiveProjectId s
               ∧ es_tasks (EsConn s') = es_tasks (EsConn s)
               ∧ es_users (EsConn s') = es_users (EsConn s)
               ∧ es_assignments (EsConn s')
                 = <[Assignment_Id x := json_assignment x']> (es_assignments (EsConn s))) s).
  { unfold UpdateAssignment.
    wp_step. wp_step. wp_step; [healthy_contra|].
    change (docs_of (EsConn s) !! Asset_Id (Assignment_Asset x))
      with (es_assets (EsConn s) !! Asset_Id (Assignment_Asset x)).
    rewrite Ha. cbv beta iota zeta.
    repeat (wp_step; try healthy_contra).
    - exfalso. apply String.eqb_eq in Heqb. simpl in Heqb. done.
    - eexists. split; [reflexivity|]. simpl.
      do 5 (split; [done|]). split; [intros r; autorewrite with store; apply Hh|].
      split; [by autorewrite with store|].
      unfold store_doc. cbn [Assignment_Id set_Assignment_Asset Asset_Id set_Asset_Counts].
      destruct (String.eqb_spec (Asset_Id a0) "") as [|_]; [done|].
      destruct (String.eqb_spec (Assignment_Id x) "") as [|_]; [done|].
      done. }
  unfold wp in Hwp. destruct (UpdateAssignment x s) as [r s']. cbn [fst snd] in Hwp.
  destruct Hwp as (x' & -> & Hrest). by exists x', s'.
Qed.

(** X29.  Posting back an assignment that is still unfinished does not
    hand out a work item.  When no store call fails, the task is available,
    the posted assignment is an unfinished one of the worker, task and
    project of the request, and its work item is stored under its id, then
    [UserCreateAssignmentHandler] answers with a stored unfinished
    assignment of that worker and task, and the assignment documents
    afterwards are those from before with the posted one written under its
    id: no further assignment is created. *)
Theorem UserCreateAssignmentHandler_unfinished
    (project_id task_id userId : string) (body : Assignment) (task : Task)
    (a0 : Asset) (s : Server) :
  healthy s →
  es_tasks (EsConn s) !! scoped_task_id project_id task_id = Some task →
  Task_CurrentState task = "available" →
  unfinished_for project_id (scoped_task_id project_id task_id) userId body →
  Assignment_Id body ≠ "" →
  es_assets (EsConn s) !! Asset_Id (Assignment_Asset body) = Some a0 →
  Asset_Id a0 = Asset_Id (Assignment_Asset body) → Asset_Id a0 ≠ "" →
  ∃ y k s',
    UserCreateAssignmentHandler project_id task_id userId body s = (Ok y, s')
    ∧ unfinished_for project_id (scoped_task_id project_id task_id) userId y
    ∧ es_assignments (EsConn s') !! k = Some y
    ∧ ∃ stored,
        es_assignments (EsConn s')
        = <[Assignment_Id body := stored]> (es_assignments (EsConn s))
        ∧ Assignment_State stored = "unfinished".
Proof.
  intros Hh Htask Hav (Hp & Ht & Hu & Hst) Hid Ha Haid Hane.
  set (taskId := scoped_task_id project_id task_id) in *.
  set (s0 := set_ActiveProjectId project_id s).
  assert (Hh0 : healthy s0) by by apply healthy_set_active_project.
  destruct (UpdateAssignment_open_run body s0 a0 Hh0 Ha Haid Hane Hid)
    as (x' & s1 & Hrun & Hxid & Hxu & Hxp & Hxt & Hxs & Hh1 & Hp1 & Ht1 & Hu1 & Hx1).
  { rewrite Hst. discriminate. }
  assert (Hin : (Assignment_Id body, json_assignment x')
                ∈ all_hits (D:=Assignment) (unfinished_query project_id taskId userId)
                    (EsConn s1)).
  { apply elem_of_all_hits. split.
    - change (docs_of (EsConn s1)) with (es_assignments (EsConn s1)).
      by rewrite Hx1, lookup_insert_eq.
    - apply matches_unfinished_query. unfold unfinished_for. cbn.
      rewrite Hxp, Hxt, Hxu, Hxs. done. }
  destruct (run_search_head (D:=Assignment) (unfinished_query project_id taskId userId)
              (EsConn s1)) as ([k y] & rest & Hhits & Hy); [done|done|done| |].
  { unfold run_search. simpl.
    destruct (all_hits _ _); [by apply elem_of_nil in Hin|simpl; lia]. }
  apply elem_of_all_hits in Hy as [Hky Hm].
  apply matches_unfinished_query in Hm.
  assert (Hwp := CreateAssignment_existing taskId userId s1 task k y rest Hh1).
  rewrite Ht1, Hp1 in Hwp. specialize (Hwp Htask Hav Hhits).
  unfold wp in Hwp.
  destruct (CreateAssignment taskId userId s1) as [r s2] eqn:Hc.
  cbn [fst snd] in Hwp. destruct Hwp as [-> Hs2].
  destruct Hs2 as (_ & _ & _ & Hx2 & _).
  exists y, k, s2. split.
  - unfold UserCreateAssignmentHandler, bind, set_active_project, active_project.
    fold s0. cbn [ActiveProjectId s0 set_ActiveProjectId]. fold taskId.
    fold s0. by rewrite Hrun, Hc.
  - split; [done|]. split; [by rewrite Hx2|].
    exists (json_assignment x'). split; [by rewrite Hx2, Hx1|].
    cbn. by rewrite Hxs.
Qed.

Lemma UserCreateAssignmentHandler_unfinished_witness :
  ∃ y s', UserCreateAssignmentHandler "p" "oi" "w1" x_open_assignment x_enabled_server
          = (Ok y, s')
          ∧ Assignment_State y = "unfinished".
Proof.
  assert (Hh : healthy x_enabled_server) by (intros r; reflexivity).
  destruct (UserCreateAssignmentHandler_unfinished "p" "oi" "w1" x_open_assignment
              c4_task c7_asset x_enabled_server Hh)
    as (y & k & s' & Hrun & Hy & _).
  - reflexivity.
  - reflexivity.
  - repeat split.
  - discriminate.
  - reflexivity.
  - reflexivity.
  - discriminate.
  - exists y, s'. split; [exact Hrun|]. by destruct Hy as (_ & _ & _ & Hs).
Defined.

(** ** A sweep without consensus *)

Lemma votes_take v n (l : list Assignment) : (votes v (take n l) ≤ votes v l)%nat.
Proof.
  unfold votes. revert n. induction l as [|x l IH]; intros [|n]; simpl; try lia.
  rewrite !filter_cons. destruct (decide (Assignment_SubmittedData x = v)); simpl.
  - specialize (IH n). lia.
  - apply IH.
Qed.

Lemma votes_absent v (l : list Assignment) :
  v ∉ Assignment_SubmittedData <$> l → votes v l = 0%nat.
Proof.
  induction l as [|x l IH]; [done|]. rewrite fmap_cons, not_elem_of_cons.
  intros [Hne Hnin]. unfold votes in *. rewrite filter_cons.
  destruct (decide (Assignment_SubmittedData x = v)); [done|]. by apply IH.
Qed.

Lemma votes_NoDup v (l : list Assignment) :
  NoDup (Assignment_SubmittedData <$> l) → (votes v l ≤ 1)%nat.
Proof.
  induction l as [|x l IH]; [unfold votes; simpl; lia|].
  rewrite fmap_cons, NoDup_cons. intros [Hnin Hnd].
  unfold votes in *. rewrite filter_cons.
  destruct (decide (Assignment_SubmittedData x = v)) as [<-|Hne]; [|by apply IH].
  simpl. pose proof (votes_absent _ _ Hnin) as H0. unfold votes in H0. lia.
Qed.

Lemma complete_trackers_below aid task l trackers assets s :
  (∀ t, t ∈ trackers → (Tracker_Count t < Matching (Task_CompletionCriteria task))%Z) →
  complete_trackers aid task l trackers assets s = (Ok assets, s).
Proof.
  induction trackers as [|t trackers IH]; intros Hlow; [done|].
  cbn [complete_trackers].
  destruct (Matching (Task_CompletionCriteria task) <=? Tracker_Count t)%Z eqn:E.
  - apply Z.leb_le in E. assert (Ht : t ∈ t :: trackers) by left.
    apply Hlow in Ht. lia.
  - apply IH. intros t' Ht'. apply Hlow. by right.
Qed.

Lemma complete_buckets_below task taskName bs assets s :
  reads_ok s →
  (∀ aid v,
     (Z.of_nat (votes v (finished_assignments s taskName aid).*2)
      < Matching (Task_CompletionCriteria task))%Z) →
  complete_buckets task taskName bs assets s = (Ok assets, s).
Proof.
  intros Hr Hlow. induction bs as [|b bs IH]; [done|].
  cbn [complete_buckets].
  destruct (Matching (Task_CompletionCriteria task) <=? Bucket_Count b)%Z; [|done].
  unfold bind at 1. unfold active_project. unfold bind at 1.
  unfold Search, bind at 1, call.
  destruct (es_fault (EsConn s) _) eqn:Hf.
  { destruct (Hr _ Hf) as (? & ? & ?). discriminate. }
  cbv zeta. unfold bind at 1. rewrite complete_trackers_below; [exact IH|].
  intros t Ht. destruct (collate_all_ok
    (Hits_Hits (run_search (D:=Assignment)
                  (asset_finished_query taskName (Bucket_Id b) (ActiveProjectId s))
                  (EsConn s))).*2) as (_ & Hcount & _).
  rewrite (Hcount t Ht).
  set (hits := Hits_Hits _) in *.
  assert (Hle : (votes (Tracker_Value t) hits.*2
                 ≤ votes (Tracker_Value t)
                     (finished_assignments s taskName (Bucket_Id b)).*2)%nat).
  { unfold hits, run_search, finished_assignments, sort_hits. simpl.
    rewrite fmap_take. apply votes_take. }
  specialize (Hlow (Bucket_Id b) (Tracker_Value t)).
  assert (Hlen : (votes (Tracker_Value t) hits.*2 ≤ es_default_size)%nat).
  { etrans; [apply votes_le|]. rewrite length_fmap.
    unfold hits, run_search. simpl. rewrite length_take. lia. }
  rewrite wrap_small; [lia|]. unfold es_default_size in Hlen. lia.
Qed.

(** X30.  A sweep without consensus changes nothing.  When reads do not
    fail, the task exists and no submitted value has [Matching] votes among
    the finished assignments of any work item, [CompleteTask] returns no
    work items and a nil error, and leaves every document as it was:
    nothing is verified. *)
Theorem CompleteTask_no_consensus (taskId : string) (task : Task) (s : Server) :
  reads_ok s →
  es_tasks (EsConn s) !! (ActiveProjectId s +:+ "-" +:+ taskId) = Some task →
  (∀ aid v,
     (Z.of_nat (votes v (finished_assignments s
                           (ActiveProjectId s +:+ "-" +:+ taskId) aid).*2)
      < Matching (Task_CompletionCriteria task))%Z) →
  CompleteTask taskId s = (([], None), s).
Proof.
  intros Hr Htask Hlow.
  assert (Hsweep : complete_task_sweep taskId s = (Ok [], s)).
  { apply run_wp. unfold complete_task_sweep. wp_step. wp_step. wp_step.
    wp_step; [reads_contra|].
    change (docs_of (EsConn s) !! (ActiveProjectId s +:+ "-" +:+ taskId))
      with (es_tasks (EsConn s) !! (ActiveProjectId s +:+ "-" +:+ taskId)).
    rewrite Htask. wp_step. wp_step; [reads_contra|].
    unfold wp. by rewrite complete_buckets_below. }
  unfold CompleteTask. rewrite Hsweep. unfold Refresh, call.
  destruct (es_fault (EsConn s) RRefresh) eqn:Hf; [|done].
  destruct (Hr _ Hf) as (? & ? & ?). discriminate.
Qed.

Lemma CompleteTask_no_consensus_witness :
  CompleteTask "oi" x_split_server = (([], None), x_split_server).
Proof.
  apply (CompleteTask_no_consensus "oi" c1_task x_split_server).
  - apply healthy_reads_ok. intros r. reflexivity.
  - reflexivity.
  - intros aid v.
    assert (Hle : (votes v (finished_assignments x_split_server
                              (ActiveProjectId x_split_server +:+ "-" +:+ "oi") aid).*2
                   ≤ 1)%nat).
    { apply votes_NoDup. rewrite finished_assignments_filter.
      eapply sublist_NoDup; [|apply fmap_sublist, fmap_sublist, sublist_filter].
      apply (bool_decide_unpack (NoDup _)). vm_compute. exact I. }
    change (Matching (Task_CompletionCriteria c1_task)) with 2%Z. lia.
Defined.
